(** * Cronos402 payment core: authorizations, settlement client, direct
      transfer verification and the signing strategy's capability check.

    A shallow embedding of
      - src/lib/cronos-constants.ts
      - src/lib/payment/eip3009-signer.ts
      - src/lib/payment/cro-payment.ts
      - src/lib/payment/facilitator-client.ts
      - src/lib/proxy/hooks/cronos-strategy.ts (canSign)
      - src/lib/db/actions.ts (userHasWallets)

    Conventions.
      - A [bigint] is a [Z].  A [number] that holds a count or a time in
        milliseconds is a [Z] as well; the two places where the code goes
        through a floating point value ([Number(bigint)] and viem's
        [Math.round(Number(..))]) are kept abstract: they are variables
        of the sections that define [parseUnits] and [verifyCroPayment].
      - A JavaScript string is a [string]: one [ascii] per code unit, read
        as Latin-1.  Addresses, hashes and nonces are such strings.
      - [Date.now()] and [crypto.getRandomValues] are inputs of the
        functions that call them.
      - A promise that rejects / a function that throws returns [Throw]. *)

From Stdlib Require Import ZArith List Bool Ascii String Lia.
From Stdlib Require Import DecimalString.
Import ListNotations.

Local Open Scope string_scope.
Local Open Scope Z_scope.

(** ** JavaScript strings *)

Module JsString.

(** [String.prototype.toLowerCase] on one code unit below 256: the ASCII
    capitals and the Latin-1 capitals (U+00C0..U+00DE but U+00D7) move
    up by 32, every other code unit stays. *)
Definition lower_ascii (c : ascii) : ascii :=
  let n := N_of_ascii c in
  if ((65 <=? n) && (n <=? 90))%N then ascii_of_N (n + 32)
  else if ((192 <=? n) && (n <=? 222) && negb (n =? 215))%N
       then ascii_of_N (n + 32)
  else c.

Fixpoint toLowerCase (s : string) : string :=
  match s with
  | EmptyString => EmptyString
  | String c r => String (lower_ascii c) (toLowerCase r)
  end.

Fixpoint repeat_char (c : ascii) (n : nat) : string :=
  match n with
  | O => EmptyString
  | S k => String c (repeat_char c k)
  end.

(** [s.padStart(n, c)] and [s.padEnd(n, c)] for a one-character filler:
    a string already [n] long or longer is returned as it is. *)
Definition padStart (s : string) (n : nat) (c : ascii) : string :=
  repeat_char c (n - String.length s) ++ s.

Definition padEnd (s : string) (n : nat) (c : ascii) : string :=
  s ++ repeat_char c (n - String.length s).

(** [s.slice(0, n)] and [s.slice(n)] for [0 <= n]. *)
Definition take (n : nat) (s : string) : string := substring 0 n s.
Definition drop (n : nat) (s : string) : string :=
  substring n (String.length s - n) s.

(** [s.includes(t)] *)
Definition includes (s t : string) : bool :=
  match index 0 t s with Some _ => true | None => false end.

(** [value.toString()] of a bigint or of an integral number. *)
Definition of_Z (z : Z) : string := NilZero.string_of_int (Z.to_int z).

End JsString.

(** ** src/lib/cronos-constants.ts *)

Module CronosConstants.

Module CRONOS_NETWORK.
Definition MAINNET := "cronos-mainnet".
Definition TESTNET := "cronos-testnet".
End CRONOS_NETWORK.

(** [type CronosNetwork]: one of the two identifiers above.  The helper
    functions below take a string, as they do at run time, and treat
    anything that is not the mainnet identifier as the test network. *)
Definition CronosNetwork := string.

Module CRONOS_CHAIN_ID.
Definition MAINNET : Z := 25.
Definition TESTNET : Z := 338.
End CRONOS_CHAIN_ID.

Module USDC_ADDRESS.
Definition MAINNET := "0xf951eC28187D9E5Ca673Da8FE6757E6f0Be5F77C".
Definition TESTNET := "0xc01efAaF7C5C61bEbFAeb358E1161b537b8bC0e0".
End USDC_ADDRESS.

Module USDC_METADATA.
Definition DECIMALS : nat := 6.
End USDC_METADATA.

Definition CRO_ADDRESS := "0x0000000000000000000000000000000000000000".

Module CRO_METADATA.
Definition DECIMALS : nat := 18.
End CRO_METADATA.

Definition getUsdcAddress (network : CronosNetwork) : string :=
  if (network =? CRONOS_NETWORK.MAINNET)%string
  then USDC_ADDRESS.MAINNET else USDC_ADDRESS.TESTNET.

Definition getChainId (network : CronosNetwork) : Z :=
  if (network =? CRONOS_NETWORK.MAINNET)%string
  then CRONOS_CHAIN_ID.MAINNET else CRONOS_CHAIN_ID.TESTNET.

Definition isCronosNetwork (network : string) : bool :=
  (network =? CRONOS_NETWORK.MAINNET)%string
  || (network =? CRONOS_NETWORK.TESTNET)%string.

End CronosConstants.

(** ** Results of calls that can throw *)

Module Js.

(** What a [catch] clause sees: an [Error] with its message, or some other
    thrown value. *)
Inductive Thrown : Type :=
| ErrorObject (name message : string)
| OtherValue.

Inductive Outcome (A : Type) : Type :=
| Return (a : A)
| Throw (e : Thrown).

Arguments Return {A} a.
Arguments Throw {A} e.

End Js.

(** ** viem: parseUnits and formatUnits *)

Module Viem.

Import JsString.

Definition is_digit (c : ascii) : bool :=
  let n := N_of_ascii c in ((48 <=? n) && (n <=? 57))%N.

Fixpoint all_digits (s : string) : bool :=
  match s with
  | EmptyString => true
  | String c r => is_digit c && all_digits r
  end.

(** [value.split('.')] restricted to its first two parts: the text before
    the first dot and, when there is a dot, the text after it. *)
Fixpoint split_dot (s : string) : string * option string :=
  match s with
  | EmptyString => (EmptyString, None)
  | String c r =>
      if (c =? ".")%char then (EmptyString, Some r)
      else let (a, b) := split_dot r in (String c a, b)
  end.

(** The regular expression test at the head of [parseUnits]: an optional
    minus sign, decimal digits, an optional dot, decimal digits; each run
    of digits may be empty. *)
Definition is_decimal_number (value : string) : bool :=
  let unsigned := if prefix "-" value then drop 1 value else value in
  match split_dot unsigned with
  | (i, None) => all_digits i
  | (i, Some f) => all_digits i && all_digits f
  end.

(** [fraction.replace(/(0+)$/, '')] *)
Fixpoint trim_trailing_zeros (s : string) : string :=
  match s with
  | EmptyString => EmptyString
  | String c r =>
      let r' := trim_trailing_zeros r in
      if (c =? "0")%char && (r' =? EmptyString)%string then EmptyString
      else String c r'
  end.

Definition digit_value (c : ascii) : Z := Z.of_N (N_of_ascii c) - 48.

(** [BigInt(s)] for a string of decimal digits; the empty string gives 0. *)
Definition BigInt_digits (s : string) : Z :=
  fold_left (fun acc c => 10 * acc + digit_value c) (list_ascii_of_string s) 0.

(** [BigInt(`${negative ? '-' : ''}${digits}`)]: a lone sign is a
    SyntaxError. *)
Definition BigInt_signed (negative : bool) (digits : string) : option Z :=
  if negative then
    if (digits =? EmptyString)%string then None
    else Some (- BigInt_digits digits)
  else Some (BigInt_digits digits).

Section Rounding.

(** [Math.round(Number(s))] for a decimal literal [s]: the one step of
    [parseUnits] that goes through a floating point number.  It is only
    reached when the amount has more fractional digits than the asset has
    decimals, and it is left abstract here. *)
Variable round_Number : string -> Z.

(** Modelled from the spec: viem's [parseUnits] is a dependency of the
    repository and not under src/.  The spec asks for a conversion of the
    human-readable amount to integer base units by the asset's decimal
    scale; the definition follows the library's algorithm: validate the
    literal, split at the dot, drop trailing zeros of the fraction, round
    a fraction that is too long, pad a fraction that is too short, and
    read the concatenated digits as one integer.  [None] stands for the
    exception thrown on a malformed literal. *)
Definition parseUnits (value : string) (decimals : nat) : option Z :=
  if negb (is_decimal_number value) then None else
  let (integer0, fr) := split_dot value in
  let fraction0 := match fr with Some f => f | None => "0" end in
  let negative := prefix "-" integer0 in
  let integer1 := if negative then drop 1 integer0 else integer0 in
  let fraction1 := trim_trailing_zeros fraction0 in
  let '(integer2, fraction2) :=
    if (decimals =? 0)%nat then
      ((if round_Number ("." ++ fraction1) =? 1
        then of_Z (BigInt_digits integer1 + 1) else integer1),
       EmptyString)
    else if (decimals <? String.length fraction1)%nat then
      let left := take (decimals - 1) fraction1 in
      let unit := substring (decimals - 1) 1 fraction1 in
      let right := drop decimals fraction1 in
      let rounded := round_Number (unit ++ "." ++ right) in
      let fraction_r :=
        if 9 <? rounded
        then padStart (of_Z (BigInt_digits left + 1) ++ "0")
                      (String.length left + 1) "0"
        else left ++ of_Z rounded in
      let '(integer_c, fraction_c) :=
        if (decimals <? String.length fraction_r)%nat
        then (of_Z (BigInt_digits integer1 + 1), drop 1 fraction_r)
        else (integer1, fraction_r) in
      (integer_c, take decimals fraction_c)
    else (integer1, padEnd fraction1 decimals "0") in
  BigInt_signed negative (integer2 ++ fraction2).

End Rounding.

(** Modelled from the spec: viem's [formatUnits] is a dependency of the
    repository and not under src/.  It prints an amount of base units in
    human-readable form: the decimal digits, padded to the scale, with a
    dot before the last [decimals] digits and without trailing zeros. *)
Definition formatUnits (value : Z) (decimals : nat) : string :=
  let display0 := of_Z value in
  let negative := prefix "-" display0 in
  let display1 := if negative then drop 1 display0 else display0 in
  let display2 := padStart display1 decimals "0" in
  let cut := (String.length display2 - decimals)%nat in
  let integer := take cut display2 in
  let fraction := trim_trailing_zeros (drop cut display2) in
  (if negative then "-" else "")
  ++ (if (integer =? EmptyString)%string then "0" else integer)
  ++ (if (fraction =? EmptyString)%string then "" else "." ++ fraction).

End Viem.

(** ** src/lib/payment/eip3009-signer.ts *)

Module Eip3009Signer.

Import JsString.

Record TransferAuthorization : Type := {
  from : string;
  to : string;
  value : Z;
  validAfter : Z;
  validBefore : Z;
  nonce : string
}.

Record SignedTransferAuthorization : Type := {
  authorization : TransferAuthorization;
  signature : string
}.

Definition hex_digit (d : N) : ascii :=
  if (d <? 10)%N then ascii_of_N (48 + d) else ascii_of_N (87 + d).

(** The hexadecimal digits of [n], most significant first, in front of
    [acc]; [fuel] bounds the number of digits. *)
Fixpoint hex_digits (fuel : nat) (n : N) (acc : string) : string :=
  match fuel with
  | O => acc
  | S f =>
      let acc' := String (hex_digit (n mod 16)) acc in
      if (n / 16 =? 0)%N then acc' else hex_digits f (n / 16) acc'
  end.

(** [n.toString(16)] of a bigint or of a byte. *)
Definition toString16 (z : Z) : string :=
  let n := Z.to_N (Z.abs z) in
  let digits := hex_digits (S (N.size_nat n)) n EmptyString in
  if z <? 0 then "-" ++ digits else digits.

Definition byte_hex (b : Byte.byte) : string :=
  padStart (toString16 (Z.of_N (Byte.to_N b))) 2 "0".

(** [generateNonce]: [dateNow] is the value [Date.now()] returns and
    [randomBytes] the array [crypto.getRandomValues(new Uint8Array(24))]
    fills. *)
Definition generateNonce (dateNow : Z) (randomBytes : list Byte.byte) : string :=
  let timestamp := dateNow in
  let timestampHex := padStart (toString16 timestamp) 16 "0" in
  let randomHex := String.concat "" (map byte_hex randomBytes) in
  "0x" ++ timestampHex ++ randomHex.

(** [Math.floor(Date.now() / 1000)] as a bigint.  The quotient is a double
    in the code; for a clock reading in the range of [Date] its floor is
    the integer quotient. *)
Definition unix_seconds (dateNow : Z) : Z := dateNow / 1000.

Section Builder.

Variable round_Number : string -> Z.

(** [createTransferAuthorization].  [dateNow] is the clock read by the
    builder, [nonceDateNow] the clock read by [generateNonce] a moment
    later.  [None] stands for the exception [parseUnits] throws; the
    function has no other way to fail. *)
Definition createTransferAuthorization
    (dateNow nonceDateNow : Z) (randomBytes : list Byte.byte)
    (from to : string) (amount : string) (validityWindow : Z)
  : option TransferAuthorization :=
  let now := unix_seconds dateNow in
  match Viem.parseUnits round_Number amount 6 with
  | None => None
  | Some value =>
      Some {| from := from;
              to := to;
              value := value;
              validAfter := 0;
              validBefore := now + validityWindow;
              nonce := generateNonce nonceDateNow randomBytes |}
  end.

End Builder.

Record ValidationResult : Type := {
  valid : bool;
  error : option string
}.

Definition invalid (msg : string) : ValidationResult :=
  {| valid := false; error := Some msg |}.

Definition ok : ValidationResult := {| valid := true; error := None |}.

(** [validateTransferAuthorization]; [dateNow] is the clock it reads. *)
Definition validateTransferAuthorization
    (dateNow : Z) (auth : TransferAuthorization) : ValidationResult :=
  if auth.(value) <=? 0 then invalid "Transfer amount must be positive"
  else if (auth.(from) =? auth.(to))%string then invalid "Cannot transfer to self"
  else
    let now := unix_seconds dateNow in
    if auth.(validBefore) <=? now then invalid "Authorization has expired"
    else if auth.(validAfter) >? now then invalid "Authorization not yet valid"
    else if negb (String.length auth.(nonce) =? 66)%nat
         then invalid "Invalid nonce format"
    else ok.

End Eip3009Signer.

(** ** src/lib/payment/cro-payment.ts: building and validating *)

Module CroTransactions.

Import JsString CronosConstants.

Record CroTransaction : Type := {
  from : string;
  to : string;
  value : Z;
  chainId : Z;
  nonce : option Z;
  gasLimit : option Z;
  maxFeePerGas : option Z;
  maxPriorityFeePerGas : option Z
}.

Section Builder.

Variable round_Number : string -> Z.

Definition buildCroTransaction
    (from to : string) (amountCro : string) (network : CronosNetwork)
  : option CroTransaction :=
  match Viem.parseUnits round_Number amountCro CRO_METADATA.DECIMALS with
  | None => None
  | Some value =>
      Some {| from := from;
              to := to;
              value := value;
              chainId := getChainId network;
              nonce := None;
              gasLimit := Some 21000;
              maxFeePerGas := None;
              maxPriorityFeePerGas := None |}
  end.

End Builder.

Definition validateCroTransaction (transaction : CroTransaction)
  : Eip3009Signer.ValidationResult :=
  if transaction.(value) <=? 0
  then Eip3009Signer.invalid "Transfer amount must be positive"
  else if (toLowerCase transaction.(from) =? toLowerCase transaction.(to))%string
  then Eip3009Signer.invalid "Cannot transfer to self"
  else if (transaction.(to) =? CRO_ADDRESS)%string
  then Eip3009Signer.invalid "Cannot transfer to zero address"
  else Eip3009Signer.ok.

End CroTransactions.

(** ** src/lib/payment/cro-payment.ts: verifying a direct transfer *)

Module CroPayment.

Import JsString CronosConstants Js.

Inductive ReceiptStatus : Type := success | reverted.

Record TransactionReceipt : Type := {
  status : ReceiptStatus;
  blockNumber : Z;
  transactionHash : string
}.

(** The fields of viem's transaction object the verifier reads; [to] is
    [null] for a contract creation. *)
Record Transaction : Type := {
  to : option string;
  value : Z
}.

(** The chain-query capability: what each read answers.  A rejected
    promise is a [Throw]; a missing receipt or transaction is [None]. *)
Record PublicClient : Type := {
  getTransactionReceipt : string -> Outcome (option TransactionReceipt);
  getTransaction : string -> Outcome (option Transaction);
  getBlockNumber : Outcome Z
}.

Record CroPaymentVerification : Type := {
  valid : bool;
  txHash : option string;
  receipt : option TransactionReceipt;
  error : option string;
  reason : option string
}.

Definition bind {A B} (m : Outcome A) (k : A -> Outcome B) : Outcome B :=
  match m with
  | Return a => k a
  | Throw e => Throw e
  end.

Notation "'await' x <- m ; k" := (bind m (fun x => k))
  (at level 10, x name, m at level 100, k at level 200).

(** [`${tx.to}`] *)
Definition show_to (a : option string) : string :=
  match a with Some s => s | None => "null" end.

(** [tx.to?.toLowerCase() !== expectedRecipient.toLowerCase()] *)
Definition recipient_differs (a : option string) (expectedRecipient : string) : bool :=
  match a with
  | Some s => negb (toLowerCase s =? toLowerCase expectedRecipient)%string
  | None => true
  end.

Section Verifier.

Variable round_Number : string -> Z.

(** The [InvalidDecimalNumberError] viem throws for a malformed amount,
    as a function of the amount. *)
Variable invalid_decimal_number : string -> Thrown.

(** [Number(n)] of a bigint [n]: a double, exact for a safe integer. *)
Variable Number : Z -> Z.

(** The body of the [try] block of [verifyCroPayment]; [client] is the
    public client of the network. *)
Definition verifyCroPayment_try
    (client : PublicClient) (txHash expectedRecipient expectedAmount : string)
    (minConfirmations : Z) : Outcome CroPaymentVerification :=
  await receipt <- client.(getTransactionReceipt) txHash;
  match receipt with
  | None =>
      Return {| valid := false; txHash := None; receipt := None;
                error := Some "Transaction not found"; reason := None |}
  | Some receipt =>
      match receipt.(status) with
      | reverted =>
          Return {| valid := false; txHash := Some txHash; receipt := Some receipt;
                    error := Some "Transaction failed";
                    reason := Some "Transaction was reverted" |}
      | success =>
          await tx <- client.(getTransaction) txHash;
          match tx with
          | None =>
              Return {| valid := false; txHash := Some txHash; receipt := None;
                        error := Some "Transaction details not found";
                        reason := None |}
          | Some tx =>
              if recipient_differs tx.(to) expectedRecipient then
                Return {| valid := false; txHash := Some txHash;
                          receipt := Some receipt;
                          error := Some "Invalid recipient";
                          reason := Some ("Expected " ++ expectedRecipient
                                          ++ ", got " ++ show_to tx.(to)) |}
              else
                await expectedValue <-
                  match Viem.parseUnits round_Number expectedAmount
                                        CRO_METADATA.DECIMALS with
                  | Some v => Return v
                  | None => Throw (invalid_decimal_number expectedAmount)
                  end;
                if tx.(value) <? expectedValue then
                  Return {| valid := false; txHash := Some txHash;
                            receipt := Some receipt;
                            error := Some "Insufficient amount";
                            reason := Some ("Expected "
                              ++ Viem.formatUnits expectedValue CRO_METADATA.DECIMALS
                              ++ " CRO, got "
                              ++ Viem.formatUnits tx.(value) CRO_METADATA.DECIMALS
                              ++ " CRO") |}
                else
                  await currentBlock <- client.(getBlockNumber);
                  let confirmations := Number (currentBlock - receipt.(blockNumber)) in
                  if confirmations <? minConfirmations then
                    Return {| valid := false; txHash := Some txHash;
                              receipt := Some receipt;
                              error := Some "Insufficient confirmations";
                              reason := Some ("Transaction has " ++ of_Z confirmations
                                              ++ " confirmations, need "
                                              ++ of_Z minConfirmations) |}
                  else
                    Return {| valid := true; txHash := Some txHash;
                              receipt := Some receipt;
                              error := None; reason := None |}
          end
      end
  end.

(** [verifyCroPayment]: the [catch] clause turns every exception into a
    failed verification. *)
Definition verifyCroPayment
    (client : PublicClient) (txHash expectedRecipient expectedAmount : string)
    (minConfirmations : Z) : CroPaymentVerification :=
  match verifyCroPayment_try client txHash expectedRecipient expectedAmount
                             minConfirmations with
  | Return r => r
  | Throw e =>
      {| valid := false; txHash := None; receipt := None;
         error := Some "Verification failed";
         reason := Some (match e with
                         | ErrorObject _ message => message
                         | OtherValue => "Unknown error"
                         end) |}
  end.

(** The default of the parameter [minConfirmations]. *)
Definition default_minConfirmations : Z := 2.

End Verifier.

End CroPayment.

(** ** src/lib/payment/facilitator-client.ts *)

Module FacilitatorClient.

Import JsString Js.

Module CRONOS_FACILITATOR.
Definition BASE_URL := "https://facilitator.cronoslabs.org".
Module ENDPOINTS.
Definition HEALTH := "/healthcheck".
Definition SUPPORTED := "/v2/x402/supported".
Definition VERIFY := "/v2/x402/verify".
Definition SETTLE := "/v2/x402/settle".
End ENDPOINTS.
End CRONOS_FACILITATOR.

Module VerifyPaymentResponse.
Record t : Type := {
  valid : bool;
  reason : option string;
  verificationId : option string
}.
End VerifyPaymentResponse.

Module SettlePaymentResponse.
Record t : Type := {
  success : bool;
  txHash : option string;
  error : option string;
  reason : option string
}.
End SettlePaymentResponse.

(** The JSON object both POST endpoints receive; the three integers go
    as decimal strings; [verificationId] is left out by [verify] and by a
    [settle] that has none. *)
Record RequestBody : Type := {
  network : string;
  token : string;
  from : string;
  to : string;
  value : string;
  validAfter : string;
  validBefore : string;
  nonce : string;
  signature : string;
  verificationId : option string
}.

(** One outbound HTTP request. *)
Record Call : Type := {
  url : string;
  method : string;
  body : option RequestBody
}.

(** What the global [fetch] and the reading of the response come to:
    a rejection, a response that is not [ok] (whose text may fail to
    load), or the parsed JSON document. *)
Inductive FetchResult (T : Type) : Type :=
| Rejected (e : Thrown)
| NotOk (httpStatus : Z) (text : option string)
| Json (data : T).

Arguments Rejected {T} e.
Arguments NotOk {T} httpStatus text.
Arguments Json {T} data.

(** The settlement service as the client sees it: the answer to a request,
    which may depend on the requests made before. *)
Record Facilitator : Type := {
  answer_verify : list Call -> RequestBody -> FetchResult VerifyPaymentResponse.t;
  answer_settle : list Call -> RequestBody -> FetchResult SettlePaymentResponse.t
}.

(** Asynchronous methods of the client: they may throw, and they extend
    the log of outbound requests. *)
Definition Async (A : Type) : Type := list Call -> Outcome A * list Call.

Definition ret {A} (a : A) : Async A := fun log => (Return a, log).

Definition throw {A} (e : Thrown) : Async A := fun log => (Throw e, log).

Definition bind {A B} (m : Async A) (k : A -> Async B) : Async B :=
  fun log =>
    match m log with
    | (Return a, log') => k a log'
    | (Throw e, log') => (Throw e, log')
    end.

Notation "'await' x <- m ; k" := (bind m (fun x => k))
  (at level 10, x name, m at level 100, k at level 200).

Record CronosFacilitatorClient : Type := {
  baseUrl : string;
  timeout : Z
}.

Record FacilitatorConfig : Type := {
  config_baseUrl : option string;
  config_timeout : option Z
}.

(** The constructor: an absent, empty or zero setting takes its default. *)
Definition new_CronosFacilitatorClient (config : FacilitatorConfig)
  : CronosFacilitatorClient :=
  {| baseUrl := match config.(config_baseUrl) with
                | Some u => if (u =? EmptyString)%string
                            then CRONOS_FACILITATOR.BASE_URL else u
                | None => CRONOS_FACILITATOR.BASE_URL
                end;
     timeout := match config.(config_timeout) with
                | Some t => if t =? 0 then 30000 else t
                | None => 30000
                end |}.

(** The private [fetch] wrapper.  [answer] is what the service does with
    the request, given the requests so far. *)
Definition fetch {T} (this : CronosFacilitatorClient)
    (answer : list Call -> FetchResult T)
    (endpoint : string) (method : string) (body : option RequestBody) : Async T :=
  fun log =>
    let call := {| url := this.(baseUrl) ++ endpoint; method := method; body := body |} in
    let log' := (log ++ [call])%list in
    match answer log with
    | Json data => (Return data, log')
    | NotOk httpStatus text =>
        let errorText := match text with Some t => t | None => "Unknown error" end in
        (Throw (ErrorObject "Error"
                  ("Facilitator API error (" ++ of_Z httpStatus ++ "): " ++ errorText)),
         log')
    | Rejected (ErrorObject name message) =>
        if (name =? "AbortError")%string
        then (Throw (ErrorObject "Error"
                       ("Facilitator request timeout after "
                        ++ of_Z this.(timeout) ++ "ms")), log')
        else (Throw (ErrorObject name message), log')
    | Rejected OtherValue =>
        (Throw (ErrorObject "Error" "Unknown error communicating with facilitator"),
         log')
    end.

Definition request_body (network token : string)
    (authorization : Eip3009Signer.SignedTransferAuthorization)
    (verificationId : option string) : RequestBody :=
  let a := authorization.(Eip3009Signer.authorization) in
  {| network := network;
     token := token;
     from := a.(Eip3009Signer.from);
     to := a.(Eip3009Signer.to);
     value := of_Z a.(Eip3009Signer.value);
     validAfter := of_Z a.(Eip3009Signer.validAfter);
     validBefore := of_Z a.(Eip3009Signer.validBefore);
     nonce := a.(Eip3009Signer.nonce);
     signature := authorization.(Eip3009Signer.signature);
     verificationId := verificationId |}.

Section Client.

Variable service : Facilitator.
Variable this : CronosFacilitatorClient.

Definition verifyPayment (network token : string)
    (authorization : Eip3009Signer.SignedTransferAuthorization)
  : Async VerifyPaymentResponse.t :=
  let b := request_body network token authorization None in
  fetch this (fun log => service.(answer_verify) log b)
        CRONOS_FACILITATOR.ENDPOINTS.VERIFY "POST" (Some b).

Definition settlePayment (network token : string)
    (authorization : Eip3009Signer.SignedTransferAuthorization)
    (verificationId : option string)
  : Async SettlePaymentResponse.t :=
  let b := request_body network token authorization verificationId in
  fetch this (fun log => service.(answer_settle) log b)
        CRONOS_FACILITATOR.ENDPOINTS.SETTLE "POST" (Some b).

Definition verifyAndSettle (network token : string)
    (authorization : Eip3009Signer.SignedTransferAuthorization)
  : Async SettlePaymentResponse.t :=
  await verifyResult <- verifyPayment network token authorization;
  if negb verifyResult.(VerifyPaymentResponse.valid) then
    ret {| SettlePaymentResponse.success := false;
           SettlePaymentResponse.txHash := None;
           SettlePaymentResponse.error := Some "Verification failed";
           SettlePaymentResponse.reason :=
             verifyResult.(VerifyPaymentResponse.reason) |}
  else
    await settleResult <-
      settlePayment network token authorization
                    verifyResult.(VerifyPaymentResponse.verificationId);
    ret settleResult.

End Client.

(** The requests the two methods send. *)
Definition verify_call (this : CronosFacilitatorClient) (network token : string)
    (authorization : Eip3009Signer.SignedTransferAuthorization) : Call :=
  {| url := this.(baseUrl) ++ CRONOS_FACILITATOR.ENDPOINTS.VERIFY;
     method := "POST";
     body := Some (request_body network token authorization None) |}.

Definition settle_call (this : CronosFacilitatorClient) (network token : string)
    (authorization : Eip3009Signer.SignedTransferAuthorization)
    (verificationId : option string) : Call :=
  {| url := this.(baseUrl) ++ CRONOS_FACILITATOR.ENDPOINTS.SETTLE;
     method := "POST";
     body := Some (request_body network token authorization verificationId) |}.

(** The requests a method adds to the log, and what it returns. *)
Definition calls_made {A} (m : Async A) (log : list Call) : list Call :=
  skipn (List.length log) (snd (m log)).

Definition result_of {A} (m : Async A) (log : list Call) : Outcome A :=
  fst (m log).

(** A request to the settle endpoint of the client's service. *)
Definition is_settle_call (this : CronosFacilitatorClient) (c : Call) : bool :=
  (c.(url) =? this.(baseUrl) ++ CRONOS_FACILITATOR.ENDPOINTS.SETTLE)%string.

End FacilitatorClient.

(** ** src/lib/db/actions.ts: the wallet table *)

Module Db.

Record UserWallet : Type := {
  id : string;
  userId : string;
  walletAddress : string;
  isPrimary : bool;
  isActive : bool
}.

(** [txOperations.userHasWallets]: select the active rows of the user,
    at most one of them, and test whether there is any. *)
Definition userHasWallets (userWallets : list UserWallet) (uid : string) : bool :=
  let rows :=
    firstn 1 (filter (fun w => (w.(userId) =? uid)%string && w.(isActive))
                     userWallets) in
  (0 <? List.length rows)%nat.

End Db.

(** ** src/lib/proxy/hooks/cronos-strategy.ts *)

Module CronosStrategy.

Import JsString CronosConstants.

Record User : Type := { id : string }.

Record CronosPaymentRequirements : Type := {
  scheme : string;
  network : string;
  maxAmountRequired : string;
  payTo : string;
  asset : string
}.

Record PaymentSigningContext : Type := {
  user : User;
  paymentRequirement : CronosPaymentRequirements
}.

(** [CronosPaymentStrategy.canSign]; [userWallets] is the wallet table the
    query runs against. *)
Definition canSign (userWallets : list Db.UserWallet)
    (context : PaymentSigningContext) : bool :=
  let hasWallets := Db.userHasWallets userWallets context.(user).(id) in
  if negb hasWallets then false
  else
    let network := context.(paymentRequirement).(network) in
    if negb (isCronosNetwork network) then false
    else
      let asset := context.(paymentRequirement).(asset) in
      let usdcAddress := getUsdcAddress network in
      let isUsdc := (toLowerCase asset =? toLowerCase usdcAddress)%string in
      let isCro :=
        (asset =? CRO_ADDRESS)%string
        || (asset =? "0x0")%string
        || (toLowerCase asset =? toLowerCase CRO_ADDRESS)%string in
      isUsdc || isCro.

End CronosStrategy.

(** ** The specification's wording, for comparison with the code *)

Module Spec.

Import JsString CronosConstants.

(** The invariants of a transfer authorization the validator is specified
    to check, in the specified order, each with the reason it reports.
    A check is [true] when the invariant is violated. *)
Definition ordered_checks (now : Z) (a : Eip3009Signer.TransferAuthorization)
  : list (bool * string) :=
  [ (a.(Eip3009Signer.value) <=? 0, "Transfer amount must be positive");
    ((a.(Eip3009Signer.from) =? a.(Eip3009Signer.to))%string,
     "Cannot transfer to self");
    (a.(Eip3009Signer.validBefore) <=? now, "Authorization has expired");
    (now <? a.(Eip3009Signer.validAfter), "Authorization not yet valid");
    (negb (String.length a.(Eip3009Signer.nonce) =? 66)%nat,
     "Invalid nonce format") ].

(** The reason of the first violated check, if any. *)
Fixpoint first_violated (checks : list (bool * string)) : option string :=
  match checks with
  | [] => None
  | (violated, why) :: rest => if violated then Some why else first_violated rest
  end.

(** A user has a usable wallet: some row of the table is theirs and active. *)
Definition has_usable_wallet (userWallets : list Db.UserWallet) (uid : string) : Prop :=
  exists w, In w userWallets /\ w.(Db.userId) = uid /\ w.(Db.isActive) = true.

(** The network is one of the two known Cronos networks. *)
Definition known_network (network : string) : Prop :=
  network = CRONOS_NETWORK.MAINNET \/ network = CRONOS_NETWORK.TESTNET.

(** The asset is the stable asset of the network, letter case aside. *)
Definition is_stable_asset (network asset : string) : Prop :=
  toLowerCase asset = toLowerCase (getUsdcAddress network).

(** The asset is the zero-address sentinel of the native asset, letter
    case aside. *)
Definition is_native_sentinel (asset : string) : Prop :=
  toLowerCase asset = toLowerCase CRO_ADDRESS.

(** Two addresses that differ at most in the case of their letters. *)
Definition same_account (a b : string) : Prop :=
  toLowerCase a = toLowerCase b.

(** [Number.isSafeInteger]: the integers a double holds exactly. *)
Definition safe_integer (z : Z) : Prop := - 2 ^ 53 < z < 2 ^ 53.

(** The range of [Date.now()]: a time value of ECMAScript, not before
    the epoch. *)
Definition clock_reading (ms : Z) : Prop := 0 <= ms <= 8640000000000000.

(** The shape the tests expect of a nonce: 0x and 64 lower-case
    hexadecimal digits. *)
Definition is_lower_hex (c : ascii) : bool :=
  let n := N_of_ascii c in
  ((48 <=? n) && (n <=? 57) || (97 <=? n) && (n <=? 102))%N.

Fixpoint all_lower_hex (s : string) : bool :=
  match s with
  | EmptyString => true
  | String c r => is_lower_hex c && all_lower_hex r
  end.

Definition is_bytes32_hex (s : string) : bool :=
  prefix "0x" s && (String.length s =? 66)%nat && all_lower_hex (drop 2 s).

(** Hexadecimal data in either letter case: 0x and then hexadecimal
    digits.  [hex_digit_count] is the number of those digits; two of
    them make a byte, so 32 bytes are 64 digits. *)
Definition is_hex (c : ascii) : bool :=
  let n := N_of_ascii c in
  ((48 <=? n) && (n <=? 57) || (97 <=? n) && (n <=? 102)
   || (65 <=? n) && (n <=? 70))%N.

Fixpoint all_hex (s : string) : bool :=
  match s with
  | EmptyString => true
  | String c r => is_hex c && all_hex r
  end.

Definition hex_digit_count (s : string) : option nat :=
  if prefix "0x" s && all_hex (drop 2 s)
  then Some (String.length s - 2)%nat else None.

End Spec.

(** ** Sample data *)

Module Samples.

Definition payer := "0x742D35cC6634C0532925A3b844bc9E7595f0BEb8".
Definition payer_lower := "0x742d35cc6634c0532925a3b844bc9e7595f0beb8".
Definition payee := "0x1234567890123456789012345678901234567890".

Definition sample_nonce :=
  "0x00000192cc091400abababababababababababababababababababababababab".

(** A clock reading, in milliseconds, and the second it falls in. *)
Definition sample_clock : Z := 1730000000000.

(** An authorization of one unit of the stable asset to the zero address,
    valid for an hour from [sample_clock]. *)
Definition burn_authorization : Eip3009Signer.TransferAuthorization :=
  {| Eip3009Signer.from := payer;
     Eip3009Signer.to := CronosConstants.CRO_ADDRESS;
     Eip3009Signer.value := 1000000;
     Eip3009Signer.validAfter := 0;
     Eip3009Signer.validBefore := 1730003600;
     Eip3009Signer.nonce := sample_nonce |}.

(** An authorization whose recipient is the payer, spelled in lower case. *)
Definition self_authorization : Eip3009Signer.TransferAuthorization :=
  {| Eip3009Signer.from := payer;
     Eip3009Signer.to := payer_lower;
     Eip3009Signer.value := 1000000;
     Eip3009Signer.validAfter := 0;
     Eip3009Signer.validBefore := 1730003600;
     Eip3009Signer.nonce := sample_nonce |}.

(** The direct transfer with the sender, recipient and value of an
    authorization. *)
Definition as_cro_transaction (a : Eip3009Signer.TransferAuthorization)
  : CroTransactions.CroTransaction :=
  {| CroTransactions.from := a.(Eip3009Signer.from);
     CroTransactions.to := a.(Eip3009Signer.to);
     CroTransactions.value := a.(Eip3009Signer.value);
     CroTransactions.chainId := CronosConstants.CRONOS_CHAIN_ID.TESTNET;
     CroTransactions.nonce := None;
     CroTransactions.gasLimit := Some 21000;
     CroTransactions.maxFeePerGas := None;
     CroTransactions.maxPriorityFeePerGas := None |}.

(** A signed authorization of one unit from [payer] to [payee]. *)
Definition signed_authorization : Eip3009Signer.SignedTransferAuthorization :=
  {| Eip3009Signer.authorization :=
       {| Eip3009Signer.from := payer;
          Eip3009Signer.to := payee;
          Eip3009Signer.value := 1000000;
          Eip3009Signer.validAfter := 0;
          Eip3009Signer.validBefore := 1730003600;
          Eip3009Signer.nonce := sample_nonce |};
     Eip3009Signer.signature := "0xsignature" |}.

(** A settlement service that rejects every authorization at
    verification and would settle anything it is asked to. *)
Definition rejecting_service : FacilitatorClient.Facilitator :=
  {| FacilitatorClient.answer_verify := fun _ _ =>
       FacilitatorClient.Json
         {| FacilitatorClient.VerifyPaymentResponse.valid := false;
            FacilitatorClient.VerifyPaymentResponse.reason :=
              Some "Insufficient balance";
            FacilitatorClient.VerifyPaymentResponse.verificationId := None |};
     FacilitatorClient.answer_settle := fun _ _ =>
       FacilitatorClient.Json
         {| FacilitatorClient.SettlePaymentResponse.success := true;
            FacilitatorClient.SettlePaymentResponse.txHash := Some "0x1234";
            FacilitatorClient.SettlePaymentResponse.error := None;
            FacilitatorClient.SettlePaymentResponse.reason := None |} |}.

Definition default_client : FacilitatorClient.CronosFacilitatorClient :=
  FacilitatorClient.new_CronosFacilitatorClient
    {| FacilitatorClient.config_baseUrl := None;
       FacilitatorClient.config_timeout := None |}.

Definition sample_hash :=
  "0x1234567890abcdef1234567890abcdef1234567890abcdef1234567890abcdef".

Definition sample_receipt : CroPayment.TransactionReceipt :=
  {| CroPayment.status := CroPayment.success;
     CroPayment.blockNumber := 100;
     CroPayment.transactionHash := sample_hash |}.

(** A chain on which [sample_hash] is a successful transfer of [paid]
    base units to [payee], mined in block 100, and whose head is
    [currentBlock]. *)
Definition sample_chain (paid currentBlock : Z) : CroPayment.PublicClient :=
  {| CroPayment.getTransactionReceipt := fun _ => Js.Return (Some sample_receipt);
     CroPayment.getTransaction := fun _ =>
       Js.Return (Some {| CroPayment.to := Some payee; CroPayment.value := paid |});
     CroPayment.getBlockNumber := Js.Return currentBlock |}.

(** Stand-ins for the floating point steps: no rounding up of overlong
    fractions, and the conversion of a safe integer. *)
Definition no_rounding (s : string) : Z := 0.
Definition Number_of_safe_integer (z : Z) : Z := z.
Definition invalid_decimal (amount : string) : Js.Thrown :=
  Js.ErrorObject "InvalidDecimalNumberError" amount.

(** A wallet table with one active wallet, of the user "user-1", and a
    requirement on the main network that names its asset "0x0". *)
Definition one_wallet : list Db.UserWallet :=
  [ {| Db.id := "wallet-1"; Db.userId := "user-1"; Db.walletAddress := payer;
       Db.isPrimary := true; Db.isActive := true |} ].

Definition short_zero_context : CronosStrategy.PaymentSigningContext :=
  {| CronosStrategy.user := {| CronosStrategy.id := "user-1" |};
     CronosStrategy.paymentRequirement :=
       {| CronosStrategy.scheme := "exact";
          CronosStrategy.network := "cronos-mainnet";
          CronosStrategy.maxAmountRequired := "1";
          CronosStrategy.payTo := payee;
          CronosStrategy.asset := "0x0" |} |}.

End Samples.

From Stdlib Require DecimalPos.

(** ** BigInt(string) *)

Module JsBigInt.

(** The white space and line terminator code units below 256: TAB, LF,
    VT, FF, CR, SP and NBSP. *)
Definition is_white_space (c : ascii) : bool :=
  let n := N_of_ascii c in
  ((9 <=? n) && (n <=? 13) || (n =? 32) || (n =? 160))%N.

Fixpoint trim_start (s : string) : string :=
  match s with
  | EmptyString => EmptyString
  | String c r => if is_white_space c then trim_start r else s
  end.

Fixpoint trim_end (s : string) : string :=
  match s with
  | EmptyString => EmptyString
  | String c r =>
      let r' := trim_end r in
      if is_white_space c && (r' =? EmptyString)%string then EmptyString
      else String c r'
  end.

(** The value of a digit in a radix up to 16, in either letter case. *)
Definition digit_of (radix : Z) (c : ascii) : option Z :=
  let n := Z.of_N (N_of_ascii c) in
  let v := if (48 <=? n) && (n <=? 57) then Some (n - 48)
           else if (97 <=? n) && (n <=? 102) then Some (n - 87)
           else if (65 <=? n) && (n <=? 70) then Some (n - 55)
           else None in
  match v with
  | Some d => if d <? radix then Some d else None
  | None => None
  end.

Fixpoint digits_value (radix : Z) (s : string) (acc : Z) : option Z :=
  match s with
  | EmptyString => Some acc
  | String c r =>
      match digit_of radix c with
      | Some d => digits_value radix r (radix * acc + d)
      | None => None
      end
  end.

(** One or more digits of the radix. *)
Definition digits1 (radix : Z) (s : string) : option Z :=
  match s with
  | EmptyString => None
  | _ => digits_value radix s 0
  end.

(** The prefix letter of a literal in another radix. *)
Definition radix_of (c : ascii) : option Z :=
  if ((c =? "x") || (c =? "X"))%char then Some 16
  else if ((c =? "o") || (c =? "O"))%char then Some 8
  else if ((c =? "b") || (c =? "B"))%char then Some 2
  else None.

(** StrIntegerLiteral: a decimal integer with an optional sign, or an
    unsigned binary, octal or hexadecimal integer behind its prefix. *)
Definition integer_literal (t : string) : option Z :=
  match t with
  | EmptyString => Some 0
  | String c0 EmptyString => digits1 10 t
  | String c0 (String c1 r1 as r0) =>
      match (if (c0 =? "0")%char then radix_of c1 else None) with
      | Some radix => digits1 radix r1
      | None =>
          if (c0 =? "-")%char then option_map Z.opp (digits1 10 r0)
          else if (c0 =? "+")%char then digits1 10 r0
          else digits1 10 t
      end
  end.

(** [BigInt(s)] of a string (StringToBigInt): white space around the
    literal is dropped; if nothing is left the value is zero.  [None] is
    the SyntaxError. *)
Definition BigInt (s : string) : option Z :=
  integer_literal (trim_end (trim_start s)).

End JsBigInt.

(** ** The fields of a nonce *)

Module NonceSpec.

Import JsString.

(** The bytes a run of hexadecimal digits writes, two digits to a byte,
    the high digit first; [None] if a digit is missing or is no
    hexadecimal digit. *)
Fixpoint hex_bytes (s : string) : option (list Z) :=
  match s with
  | EmptyString => Some []
  | String _ EmptyString => None
  | String hi (String lo rest) =>
      match JsBigInt.digit_of 16 hi, JsBigInt.digit_of 16 lo, hex_bytes rest with
      | Some h, Some l, Some bytes => Some (16 * h + l :: bytes)
      | _, _, _ => None
      end
  end.

(** The timestamp field of a nonce: the number its first sixteen digits
    (eight bytes) write after the 0x. *)
Definition timestamp_of (nonce : string) : option Z :=
  JsBigInt.digits_value 16 (take 16 (drop 2 nonce)) 0.

(** The random field of a nonce: the bytes behind the timestamp. *)
Definition random_bytes_of (nonce : string) : option (list Z) :=
  hex_bytes (drop 18 nonce).

(** The numbers 0..255 a [Uint8Array] holds. *)
Definition byte_values (bytes : list Byte.byte) : list Z :=
  map (fun b => Z.of_N (Byte.to_N b)) bytes.

End NonceSpec.

(** ** JavaScript values in documents *)

Module JsValue.

Import JsString Js.

(** The values of the documents the handlers receive and send.  The
    type [number] of the doubles is left open: no handler computes with
    one.  An object is the list of its properties in the order they were
    written; a property written later under the same name replaces the
    earlier one.  The order of the names in the text of a document is
    not modelled. *)
#[warnings="-register-all"] Inductive t (number : Type) : Type :=
| VUndefined
| VNull
| VBool (b : bool)
| VNumber (n : number)
| VString (s : string)
| VBigInt (z : Z)
| VArray (items : list (t number))
| VObject (properties : list (string * t number)).

Arguments VUndefined {number}.
Arguments VNull {number}.
Arguments VBool {number} b.
Arguments VNumber {number} n.
Arguments VString {number} s.
Arguments VBigInt {number} z.
Arguments VArray {number} items.
Arguments VObject {number} properties.

Section Values.

Context {number : Type}.

(** The own property of a name: the last one written. *)
Fixpoint get (k : string) (properties : list (string * t number))
  : option (t number) :=
  match properties with
  | [] => None
  | (k', v) :: rest =>
      match get k rest with
      | Some later => Some later
      | None => if (k' =? k)%string then Some v else None
      end
  end.

Definition has (k : string) (properties : list (string * t number)) : bool :=
  match get k properties with Some _ => true | None => false end.

(** The elements of an array, or the code units of a string, under
    their indices. *)
Fixpoint indexed (i : nat) (items : list (t number)) : list (string * t number) :=
  match items with
  | [] => []
  | x :: rest => (of_Z (Z.of_nat i), x) :: indexed (S i) rest
  end.

Fixpoint characters (s : string) : list (t number) :=
  match s with
  | EmptyString => []
  | String c rest => VString (String c EmptyString) :: characters rest
  end.

(** The own enumerable properties of a value: what the spread [...v]
    in an object literal copies. *)
Definition own_properties (v : t number) : list (string * t number) :=
  match v with
  | VObject properties => properties
  | VArray items => indexed 0 items
  | VString s => indexed 0 (characters s)
  | _ => []
  end.

(** [v === s] for a string [s]. *)
Definition is_string (v : t number) (s : string) : bool :=
  match v with
  | VString x => (x =? s)%string
  | _ => false
  end.

(** [JSON.stringify(v)] returns ([true]) or throws a TypeError
    ([false]): it throws on a bigint, wherever in the value it meets
    one.  A property that was replaced is not met. *)
Fixpoint serializable (v : t number) : bool :=
  match v with
  | VBigInt _ => false
  | VArray items => forallb serializable items
  | VObject properties =>
      (fix members (ps : list (string * t number)) : bool :=
         match ps with
         | [] => true
         | (k, x) :: rest => (has k rest || serializable x) && members rest
         end) properties
  | _ => true
  end.

(** The values [JSON.parse] yields: neither [undefined] nor a bigint
    occurs in them. *)
Fixpoint is_json (v : t number) : bool :=
  match v with
  | VUndefined | VBigInt _ => false
  | VArray items => forallb is_json items
  | VObject properties =>
      forallb (fun p => match p with (_, x) => is_json x end) properties
  | _ => true
  end.

End Values.

End JsValue.

(** ** src/lib/payment/facilitator-client.ts: discovery and liveness *)

Module FacilitatorDiscovery.

Import Js FacilitatorClient JsValue.

(** The two GET endpoints of the settlement service.  The client casts
    what [response.json()] parsed to [HealthCheckResponse] and to
    [SupportedNetworksResponse] without looking at it, so the answer is
    any document. *)
Record Discovery (number : Type) : Type := {
  answer_health : list Call -> FetchResult (JsValue.t number);
  answer_supported : list Call -> FetchResult (JsValue.t number)
}.

Arguments answer_health {number} d.
Arguments answer_supported {number} d.

Definition healthCheck {number} (service : Discovery number)
    (this : CronosFacilitatorClient) : Async (JsValue.t number) :=
  fetch this service.(answer_health)
        CRONOS_FACILITATOR.ENDPOINTS.HEALTH "GET" None.

Definition getSupportedNetworks {number} (service : Discovery number)
    (this : CronosFacilitatorClient) : Async (JsValue.t number) :=
  fetch this service.(answer_supported)
        CRONOS_FACILITATOR.ENDPOINTS.SUPPORTED "GET" None.

(** [health.status] on the answer of [healthCheck]: a TypeError on
    [null]; the property, if the document is an object that has one;
    [undefined] otherwise, since no prototype of a parsed value has a
    property of this name. *)
Definition status_of {number} (cannot_read_properties_of_null : string)
    (health : JsValue.t number) : Outcome (JsValue.t number) :=
  match health with
  | VUndefined | VNull =>
      Throw (ErrorObject "TypeError" cannot_read_properties_of_null)
  | VObject properties =>
      Return (match get "status" properties with
              | Some v => v
              | None => VUndefined
              end)
  | _ => Return VUndefined
  end.

(** [createFacilitatorClient()] without a configuration, which is what
    [getFacilitatorClient] creates on first use and returns ever after. *)
Definition defaultClient : CronosFacilitatorClient :=
  new_CronosFacilitatorClient {| config_baseUrl := None; config_timeout := None |}.

End FacilitatorDiscovery.

(** ** src/lib/api/payment-routes.ts *)

Module PaymentRoutes.

Import JsString Js CronosConstants FacilitatorClient.

(** [a || b] on two optional strings: [a] unless it is missing or empty. *)
Definition or_else (a b : option string) : option string :=
  match a with
  | Some s => if (s =? EmptyString)%string then b else a
  | None => b
  end.

(** [!s] for an optional string. *)
Definition falsy (a : option string) : bool :=
  match a with
  | Some s => (s =? EmptyString)%string
  | None => true
  end.

(** What reading and checking the request body comes to: [c.req.json()]
    rejects, the schema does not match (with zod's issues), or the data
    of the schema. *)
Inductive RequestBody (T : Type) : Type :=
| Unreadable (e : Thrown)
| Mismatch (issues : list string)
| Parsed (data : T).

Arguments Unreadable {T} e.
Arguments Mismatch {T} issues.
Arguments Parsed {T} data.

(** The helper [getExplorerUrl] at the foot of the file. *)
Definition getExplorerUrl (network : string) (txHash : string) : string :=
  let baseUrl :=
    if (network =? "cronos-mainnet")%string
    then "https://cronoscan.com" else "https://testnet.cronoscan.com" in
  baseUrl ++ "/tx/" ++ txHash.

Definition unsupported_network (network : string) : string :=
  "Unsupported network: " ++ network
  ++ ". Must be cronos-mainnet or cronos-testnet".

(** [error instanceof Error ? error.message : fallback] *)
Definition message_or (e : Thrown) (fallback : string) : string :=
  match e with
  | ErrorObject _ message => message
  | OtherValue => fallback
  end.

(** *** POST /api/payment/usdc/submit *)

Module AuthorizationJson.
Record t : Type := {
  from : string;
  to : string;
  value : string;
  validAfter : string;
  validBefore : string;
  nonce : string;
  signature : string
}.
End AuthorizationJson.

Module SubmitUsdcPaymentData.
Record t : Type := {
  network : string;
  authorization : AuthorizationJson.t
}.
End SubmitUsdcPaymentData.

(** The JSON documents the handler answers with; a field that a
    document does not have is [None]. *)
Module SubmitJson.
Record t : Type := {
  success : bool;
  error : option string;
  details : option (list string);
  reason : option string;
  txHash : option string;
  message : option string;
  network : option string;
  explorerUrl : option string
}.

Definition failure (error : string) (details : option (list string))
    (reason message : option string) : t :=
  {| success := false; error := Some error; details := details;
     reason := reason; txHash := None; message := message;
     network := None; explorerUrl := None |}.
End SubmitJson.

Record Response (J : Type) : Type := {
  httpStatus : Z;
  json : J
}.

Arguments httpStatus {J} r.
Arguments json {J} r.

Definition respond {J} (j : J) (code : Z) : Response J :=
  {| httpStatus := code; json := j |}.

Section Routes.

(** The SyntaxError [BigInt] throws for a string that is no integer
    literal, as a function of the string. *)
Variable bigint_syntax_error : string -> Thrown.

Definition BigInt_or_throw (s : string) : Async Z :=
  match JsBigInt.BigInt s with
  | Some z => ret z
  | None => throw (bigint_syntax_error s)
  end.

Variable service : Facilitator.

(** The [try] block of [submitUsdcPayment].  [dateNow] is the clock the
    validator reads; the console output is left out. *)
Definition submitUsdcPayment_try (dateNow : Z)
    (body : RequestBody SubmitUsdcPaymentData.t)
  : Async (Response SubmitJson.t) :=
  match body with
  | Unreadable e => throw e
  | Mismatch issues =>
      ret (respond (SubmitJson.failure "Invalid request body" (Some issues)
                      None None) 400)
  | Parsed data =>
      let network := data.(SubmitUsdcPaymentData.network) in
      let authorization := data.(SubmitUsdcPaymentData.authorization) in
      if negb (isCronosNetwork network) then
        ret (respond (SubmitJson.failure (unsupported_network network) None
                        None None) 400)
      else
        await v <- BigInt_or_throw authorization.(AuthorizationJson.value);
        await va <- BigInt_or_throw authorization.(AuthorizationJson.validAfter);
        await vb <- BigInt_or_throw authorization.(AuthorizationJson.validBefore);
        let auth :=
          {| Eip3009Signer.authorization :=
               {| Eip3009Signer.from := authorization.(AuthorizationJson.from);
                  Eip3009Signer.to := authorization.(AuthorizationJson.to);
                  Eip3009Signer.value := v;
                  Eip3009Signer.validAfter := va;
                  Eip3009Signer.validBefore := vb;
                  Eip3009Signer.nonce := authorization.(AuthorizationJson.nonce) |};
             Eip3009Signer.signature :=
               authorization.(AuthorizationJson.signature) |} in
        let validation :=
          Eip3009Signer.validateTransferAuthorization dateNow
            auth.(Eip3009Signer.authorization) in
        if negb validation.(Eip3009Signer.valid) then
          ret (respond (SubmitJson.failure "Invalid authorization" None
                          validation.(Eip3009Signer.error) None) 400)
        else
          let tokenAddress := getUsdcAddress network in
          await result <-
            verifyAndSettle service FacilitatorDiscovery.defaultClient
                            network tokenAddress auth;
          if negb result.(SettlePaymentResponse.success)
             || falsy result.(SettlePaymentResponse.txHash) then
            ret (respond
                   (SubmitJson.failure "Payment settlement failed" None
                      (or_else result.(SettlePaymentResponse.reason)
                               result.(SettlePaymentResponse.error)) None) 500)
          else
            let hash := match result.(SettlePaymentResponse.txHash) with
                        | Some h => h
                        | None => EmptyString
                        end in
            ret (respond
                   {| SubmitJson.success := true;
                      SubmitJson.error := None;
                      SubmitJson.details := None;
                      SubmitJson.reason := None;
                      SubmitJson.txHash := Some hash;
                      SubmitJson.message := Some "Payment settled successfully";
                      SubmitJson.network := Some network;
                      SubmitJson.explorerUrl :=
                        Some (getExplorerUrl network hash) |} 200)
  end.

(** [submitUsdcPayment]: the handler with its [catch] clause. *)
Definition submitUsdcPayment (dateNow : Z)
    (body : RequestBody SubmitUsdcPaymentData.t) (log : list Call)
  : Response SubmitJson.t * list Call :=
  match submitUsdcPayment_try dateNow body log with
  | (Return r, log') => (r, log')
  | (Throw e, log') =>
      (respond (SubmitJson.failure "Internal server error" None None
                  (Some (message_or e "Unknown error"))) 500, log')
  end.

End Routes.

(** *** POST /api/payment/cro/verify *)

Module VerifyCroPaymentData.
Record t : Type := {
  network : string;
  txHash : string;
  expectedRecipient : string;
  expectedAmount : string;
  minConfirmations : option Z
}.
End VerifyCroPaymentData.

(** [c.json(document, code)] of the web framework: the document is
    written with [JSON.stringify] at once, so the call throws where
    that throws.  [cannot_serialize_bigint] is the message of the
    TypeError. *)
Definition c_json {number} (cannot_serialize_bigint : string)
    (document : JsValue.t number) (code : Z)
  : Outcome (Response (JsValue.t number)) :=
  if JsValue.serializable document then Return (respond document code)
  else Throw (ErrorObject "TypeError" cannot_serialize_bigint).

(** An optional string as a value. *)
Definition optional_string {number} (a : option string) : JsValue.t number :=
  match a with
  | Some s => JsValue.VString s
  | None => JsValue.VUndefined
  end.

(** The receipt of the chain client as a value, with the fields the
    verifier reads; the block number is a bigint (as are the gas
    figures of a full receipt). *)
Definition receipt_value {number} (r : CroPayment.TransactionReceipt)
  : JsValue.t number :=
  JsValue.VObject
    [ ("status", JsValue.VString (match r.(CroPayment.status) with
                                  | CroPayment.success => "success"
                                  | CroPayment.reverted => "reverted"
                                  end));
      ("blockNumber", JsValue.VBigInt r.(CroPayment.blockNumber));
      ("transactionHash", JsValue.VString r.(CroPayment.transactionHash)) ].

Section CroRoute.

Variable number : Type.
Variable round_Number : string -> Z.
Variable invalid_decimal_number : string -> Thrown.
Variable Number : Z -> Z.
Variable cannot_serialize_bigint : string.

(** [getPublicClient] of cro-payment.ts: the chain behind each network. *)
Variable getPublicClient : string -> CroPayment.PublicClient.

(** The [try] block of [verifyCroPaymentEndpoint]; the console output
    is left out. *)
Definition verifyCroPaymentEndpoint_try
    (body : RequestBody VerifyCroPaymentData.t)
  : Outcome (Response (JsValue.t number)) :=
  match body with
  | Unreadable e => Throw e
  | Mismatch issues =>
      c_json cannot_serialize_bigint
        (JsValue.VObject
           [ ("success", JsValue.VBool false);
             ("error", JsValue.VString "Invalid request body");
             ("details", JsValue.VArray (map JsValue.VString issues)) ]) 400
  | Parsed data =>
      let network := data.(VerifyCroPaymentData.network) in
      if negb (isCronosNetwork network) then
        c_json cannot_serialize_bigint
          (JsValue.VObject
             [ ("success", JsValue.VBool false);
               ("error", JsValue.VString (unsupported_network network)) ]) 400
      else
        let required := match data.(VerifyCroPaymentData.minConfirmations) with
                        | Some n => n
                        | None => 2
                        end in
        let verification :=
          CroPayment.verifyCroPayment round_Number invalid_decimal_number Number
            (getPublicClient network)
            data.(VerifyCroPaymentData.txHash)
            data.(VerifyCroPaymentData.expectedRecipient)
            data.(VerifyCroPaymentData.expectedAmount) required in
        if negb verification.(CroPayment.valid) then
          c_json cannot_serialize_bigint
            (JsValue.VObject
               [ ("valid", JsValue.VBool false);
                 ("error", optional_string
                             (or_else verification.(CroPayment.error)
                                      (Some "Payment verification failed")));
                 ("reason", optional_string verification.(CroPayment.reason));
                 ("txHash", optional_string verification.(CroPayment.txHash)) ])
            400
        else
          c_json cannot_serialize_bigint
            (JsValue.VObject
               [ ("valid", JsValue.VBool true);
                 ("txHash", optional_string verification.(CroPayment.txHash));
                 ("receipt", match verification.(CroPayment.receipt) with
                             | Some r => receipt_value r
                             | None => JsValue.VUndefined
                             end);
                 ("message", JsValue.VString "Payment verified successfully");
                 ("network", JsValue.VString network);
                 ("explorerUrl",
                  JsValue.VString
                    (getExplorerUrl network
                       (match verification.(CroPayment.txHash) with
                        | Some h => h
                        | None => "undefined"
                        end))) ]) 200
  end.

(** [verifyCroPaymentEndpoint]: the handler with its [catch] clause. *)
Definition verifyCroPaymentEndpoint (body : RequestBody VerifyCroPaymentData.t)
  : Outcome (Response (JsValue.t number)) :=
  match verifyCroPaymentEndpoint_try body with
  | Return r => Return r
  | Throw e =>
      c_json cannot_serialize_bigint
        (JsValue.VObject
           [ ("valid", JsValue.VBool false);
             ("error", JsValue.VString "Internal server error");
             ("message", JsValue.VString (message_or e "Unknown error")) ]) 500
  end.

End CroRoute.

(** *** GET /api/payment/facilitator/health and /supported *)

(** A step of a handler that sends no request. *)
Definition settled {A} (o : Outcome A) : Async A := fun log => (o, log).

Section Liveness.

Context {number : Type}.

(** The messages of the two TypeErrors: of a property read on [null],
    and of [JSON.stringify] on a bigint. *)
Variable cannot_read_properties_of_null : string.
Variable cannot_serialize_bigint : string.

Variable service : FacilitatorDiscovery.Discovery number.

(** The [try] block of [checkFacilitatorHealth]: the object literal
    writes [healthy] first and then spreads the answer over it. *)
Definition checkFacilitatorHealth_try : Async (Response (JsValue.t number)) :=
  await health <-
    FacilitatorDiscovery.healthCheck service FacilitatorDiscovery.defaultClient;
  await status <-
    settled (FacilitatorDiscovery.status_of cannot_read_properties_of_null health);
  settled
    (c_json cannot_serialize_bigint
       (JsValue.VObject
          (("healthy", JsValue.VBool (JsValue.is_string status "healthy"))
           :: JsValue.own_properties health)) 200).

Definition checkFacilitatorHealth (log : list Call)
  : Outcome (Response (JsValue.t number)) * list Call :=
  match checkFacilitatorHealth_try log with
  | (Return r, log') => (Return r, log')
  | (Throw e, log') =>
      (c_json cannot_serialize_bigint
         (JsValue.VObject
            [ ("healthy", JsValue.VBool false);
              ("status", JsValue.VString "unhealthy");
              ("error", JsValue.VString (message_or e "Health check failed")) ])
         503, log')
  end.

Definition getSupportedNetworks_try : Async (Response (JsValue.t number)) :=
  await supported <-
    FacilitatorDiscovery.getSupportedNetworks service
      FacilitatorDiscovery.defaultClient;
  settled (c_json cannot_serialize_bigint supported 200).

Definition getSupportedNetworks (log : list Call)
  : Outcome (Response (JsValue.t number)) * list Call :=
  match getSupportedNetworks_try log with
  | (Return r, log') => (Return r, log')
  | (Throw e, log') =>
      (c_json cannot_serialize_bigint
         (JsValue.VObject
            [ ("error", JsValue.VString "Failed to fetch supported networks");
              ("message", JsValue.VString (message_or e "Unknown error")) ])
         500, log')
  end.

End Liveness.

End PaymentRoutes.

(** ** src/lib/proxy/hooks/cronos-strategy.ts: signing and settling *)

Module StrategyPayments.

Import JsString Js CronosConstants FacilitatorClient CronosStrategy.

Module Settlement.
Record t : Type := {
  txHash : string;
  success : bool
}.
End Settlement.

(** [`${a}`] of an optional string. *)
Definition show (a : option string) : string :=
  match a with Some s => s | None => "undefined" end.

(** [settleUsdcPayment]; [this] is the client the strategy was
    constructed with. *)
Definition settleUsdcPayment (service : Facilitator)
    (this : CronosFacilitatorClient)
    (authorization : Eip3009Signer.SignedTransferAuthorization)
    (network : string) : Async Settlement.t :=
  let tokenAddress := getUsdcAddress network in
  await result <- verifyAndSettle service this network tokenAddress authorization;
  if negb result.(SettlePaymentResponse.success)
     || PaymentRoutes.falsy result.(SettlePaymentResponse.txHash) then
    throw (ErrorObject "Error"
             ("Payment settlement failed: "
              ++ show (PaymentRoutes.or_else result.(SettlePaymentResponse.reason)
                                             result.(SettlePaymentResponse.error))))
  else
    ret {| Settlement.txHash :=
             match result.(SettlePaymentResponse.txHash) with
             | Some h => h
             | None => EmptyString
             end;
           Settlement.success := true |}.

(** [checkHealth]: whatever goes wrong gives [false]. *)
Definition checkHealth {number} (cannot_read_properties_of_null : string)
    (service : FacilitatorDiscovery.Discovery number)
    (this : CronosFacilitatorClient) (log : list Call) : bool * list Call :=
  match FacilitatorDiscovery.healthCheck service this log with
  | (Return health, log') =>
      match FacilitatorDiscovery.status_of cannot_read_properties_of_null
              health with
      | Return status => (JsValue.is_string status "healthy", log')
      | Throw _ => (false, log')
      end
  | (Throw _, log') => (false, log')
  end.

Record PaymentSigningResult : Type := {
  success : bool;
  signedPaymentHeader : option string;
  error : option string;
  walletAddress : option string
}.

(** [signUsdcPayment], which has no signing capability yet. *)
Definition signUsdcPayment (network amount recipient sender : string)
  : PaymentSigningResult :=
  {| success := false; signedPaymentHeader := None;
     error := Some "USDC.e payment signing requires wallet integration (coming soon). Please use the web interface with MetaMask or Crypto.com Wallet.";
     walletAddress := Some sender |}.

(** [signPayment]; [wallets] is what [txOperations.getWalletsByUser]
    answers for the user of the context. *)
Definition signPayment (wallets : Outcome (list Db.UserWallet))
    (context : PaymentSigningContext) : PaymentSigningResult :=
  let requirement := context.(paymentRequirement) in
  let network := requirement.(network) in
  let asset := requirement.(asset) in
  let amount := requirement.(maxAmountRequired) in
  let recipient := requirement.(payTo) in
  match wallets with
  | Throw e =>
      {| success := false; signedPaymentHeader := None;
         error := Some (PaymentRoutes.message_or e "Unknown payment signing error");
         walletAddress := None |}
  | Return [] =>
      {| success := false; signedPaymentHeader := None;
         error := Some "No wallet connected. Please connect a Cronos wallet.";
         walletAddress := None |}
  | Return (wallet :: _) =>
      let walletAddress := wallet.(Db.walletAddress) in
      let usdcAddress := getUsdcAddress network in
      let isUsdc := (toLowerCase asset =? toLowerCase usdcAddress)%string in
      if isUsdc then signUsdcPayment network amount recipient walletAddress
      else
        {| success := false; signedPaymentHeader := None;
           error := Some "Native CRO payments require wallet client (MetaMask, etc.). Please use the web interface to complete this payment.";
           walletAddress := Some walletAddress |}
  end.

End StrategyPayments.

(** ** src/lib/payment/cro-payment.ts: requirements and balances *)

Module CroRequirements.

Import JsString Js CronosConstants.

Record CroPaymentRequirement : Type := {
  type : string;
  network : string;
  token : string;
  symbol : string;
  amount : string;
  decimals : nat;
  recipient : string;
  chainId : Z;
  description : string;
  requiresSignature : bool;
  gasless : bool
}.

Record BalanceCheck : Type := {
  sufficient : bool;
  balance : string;
  required : string
}.

Section Requirements.

Variable round_Number : string -> Z.
Variable invalid_decimal_number : string -> Thrown.

(** [createCroPaymentRequirement]; [None] is the exception of
    [parseUnits]. *)
Definition createCroPaymentRequirement (recipient amountCro network : string)
    (description : option string) : option CroPaymentRequirement :=
  match Viem.parseUnits round_Number amountCro CRO_METADATA.DECIMALS with
  | None => None
  | Some value =>
      let chainId := getChainId network in
      let symbol := if (network =? CRONOS_NETWORK.MAINNET)%string
                    then "CRO" else "TCRO" in
      Some {| type := "crypto";
              network := network;
              token := CRO_ADDRESS;
              symbol := symbol;
              amount := of_Z value;
              decimals := CRO_METADATA.DECIMALS;
              recipient := recipient;
              chainId := chainId;
              description :=
                match PaymentRoutes.or_else description None with
                | Some d => d
                | None => "Pay " ++ amountCro ++ " " ++ symbol
                end;
              requiresSignature := true;
              gasless := false |}
  end.

(** [checkCroBalance]; [getBalance] is the balance query of the public
    client of the network.  Nothing is caught. *)
Definition checkCroBalance (getBalance : string -> Outcome Z)
    (address amountCro : string) : Outcome BalanceCheck :=
  match getBalance address with
  | Throw e => Throw e
  | Return balance =>
      match Viem.parseUnits round_Number amountCro CRO_METADATA.DECIMALS with
      | None => Throw (invalid_decimal_number amountCro)
      | Some required =>
          Return {| sufficient := required <=? balance;
                    balance := Viem.formatUnits balance CRO_METADATA.DECIMALS;
                    required := amountCro |}
      end
  end.

End Requirements.

End CroRequirements.

(** ** Reading the handlers *)

Module RouteSpec.

Import JsString Js CronosConstants FacilitatorClient PaymentRoutes.

(** The requests a handler adds to the log. *)
Definition requests_sent {A} (handler : list Call -> A * list Call)
    (log : list Call) : list Call :=
  skipn (List.length log) (snd (handler log)).

Definition response_of {A} (handler : list Call -> A * list Call)
    (log : list Call) : A :=
  fst (handler log).

(** The signed authorization a submitted document denotes: its three
    integers read by [BigInt], the other fields as they are. *)
Definition decode (j : AuthorizationJson.t)
  : option Eip3009Signer.SignedTransferAuthorization :=
  match JsBigInt.BigInt j.(AuthorizationJson.value),
        JsBigInt.BigInt j.(AuthorizationJson.validAfter),
        JsBigInt.BigInt j.(AuthorizationJson.validBefore) with
  | Some v, Some va, Some vb =>
      Some {| Eip3009Signer.authorization :=
                {| Eip3009Signer.from := j.(AuthorizationJson.from);
                   Eip3009Signer.to := j.(AuthorizationJson.to);
                   Eip3009Signer.value := v;
                   Eip3009Signer.validAfter := va;
                   Eip3009Signer.validBefore := vb;
                   Eip3009Signer.nonce := j.(AuthorizationJson.nonce) |};
              Eip3009Signer.signature := j.(AuthorizationJson.signature) |}
  | _, _, _ => None
  end.

(** The document a client posts for a signed authorization: the fields
    of the body the facilitator client serializes. *)
Definition encode (a : Eip3009Signer.SignedTransferAuthorization)
  : AuthorizationJson.t :=
  let b := request_body EmptyString EmptyString a None in
  {| AuthorizationJson.from := b.(from);
     AuthorizationJson.to := b.(to);
     AuthorizationJson.value := b.(value);
     AuthorizationJson.validAfter := b.(validAfter);
     AuthorizationJson.validBefore := b.(validBefore);
     AuthorizationJson.nonce := b.(nonce);
     AuthorizationJson.signature := b.(signature) |}.

(** A submission passes the local checks: the body has the shape of the
    schema, names a known network, its integers are integer literals and
    the authorization is valid at the time of the request. *)
Definition admitted (dateNow : Z) (body : RequestBody SubmitUsdcPaymentData.t)
  : option (string * Eip3009Signer.SignedTransferAuthorization) :=
  match body with
  | Parsed data =>
      if isCronosNetwork data.(SubmitUsdcPaymentData.network) then
        match decode data.(SubmitUsdcPaymentData.authorization) with
        | Some auth =>
            if (Eip3009Signer.validateTransferAuthorization dateNow
                  auth.(Eip3009Signer.authorization)).(Eip3009Signer.valid)
            then Some (data.(SubmitUsdcPaymentData.network), auth)
            else None
        | None => None
        end
      else None
  | _ => None
  end.

(** The service reports itself healthy: its document is an object whose
    [status] is the string "healthy". *)
Definition reports_healthy {number} (health : JsValue.t number) : bool :=
  match health with
  | JsValue.VObject properties =>
      match JsValue.get "status" properties with
      | Some (JsValue.VString s) => (s =? "healthy")%string
      | _ => false
      end
  | _ => false
  end.

End RouteSpec.

(** ** Reading the verdict of the direct transfer verifier *)

Module VerdictSpec.

Import Js CroPayment CronosConstants.

(** The conditions under which every check of [verifyCroPayment]
    passes. *)
Definition every_check_passes
    (round_Number : string -> Z) (Number : Z -> Z) (client : PublicClient)
    (hash expectedRecipient expectedAmount : string) (minConfirmations : Z)
    (the_receipt : TransactionReceipt) (tx : Transaction)
    (expectedValue currentBlock : Z) : Prop :=
  client.(getTransactionReceipt) hash = Return (Some the_receipt)
  /\ the_receipt.(status) = success
  /\ client.(getTransaction) hash = Return (Some tx)
  /\ (exists recipient, tx.(to) = Some recipient
                        /\ Spec.same_account recipient expectedRecipient)
  /\ Viem.parseUnits round_Number expectedAmount CRO_METADATA.DECIMALS
     = Some expectedValue
  /\ expectedValue <= tx.(value)
  /\ client.(getBlockNumber) = Return currentBlock
  /\ minConfirmations <= Number (currentBlock - the_receipt.(blockNumber)).

(** The same chain seen when its head is the block [currentBlock]. *)
Definition at_head (client : PublicClient) (currentBlock : Z) : PublicClient :=
  {| getTransactionReceipt := client.(getTransactionReceipt);
     getTransaction := client.(getTransaction);
     getBlockNumber := Return currentBlock |}.

End VerdictSpec.

(** ** src/lib/cronos-constants.ts: the remaining helpers *)

Module CronosNetworkHelpers.

Import CronosConstants.

Definition getRpcUrl (network : CronosNetwork) : string :=
  if (network =? CRONOS_NETWORK.MAINNET)%string
  then "https://evm.cronos.org" else "https://evm-t3.cronos.org".

Definition getExplorerUrl (network : CronosNetwork) : string :=
  if (network =? CRONOS_NETWORK.MAINNET)%string
  then "https://cronoscan.com" else "https://testnet.cronoscan.com".

Record Eip712Domain : Type := {
  name : string;
  version : string;
  chainId : Z;
  verifyingContract : string
}.

Definition getUsdcEip712Domain (network : CronosNetwork) : Eip712Domain :=
  {| name := "Bridged USDC (Stargate)";
     version := "1";
     chainId := getChainId network;
     verifyingContract := getUsdcAddress network |}.

End CronosNetworkHelpers.

(** ** Sample requests and services *)

Module RouteSamples.

Import FacilitatorClient PaymentRoutes.

(** A settlement service that accepts every authorization and settles
    it in the transaction 0x1234. *)
Definition accepting_service : Facilitator :=
  {| answer_verify := fun _ _ =>
       Json {| VerifyPaymentResponse.valid := true;
               VerifyPaymentResponse.reason := None;
               VerifyPaymentResponse.verificationId := Some "verification-1" |};
     answer_settle := fun _ _ =>
       Json {| SettlePaymentResponse.success := true;
               SettlePaymentResponse.txHash := Some "0x1234";
               SettlePaymentResponse.error := None;
               SettlePaymentResponse.reason := None |} |}.

(** The document of [Samples.signed_authorization], posted for the test
    network. *)
Definition sample_submission : RequestBody SubmitUsdcPaymentData.t :=
  Parsed {| SubmitUsdcPaymentData.network := "cronos-testnet";
            SubmitUsdcPaymentData.authorization :=
              RouteSpec.encode Samples.signed_authorization |}.

(** The same document with the amount written as a decimal fraction. *)
Definition fractional_submission : SubmitUsdcPaymentData.t :=
  {| SubmitUsdcPaymentData.network := "cronos-testnet";
     SubmitUsdcPaymentData.authorization :=
       {| AuthorizationJson.from := Samples.payer;
          AuthorizationJson.to := Samples.payee;
          AuthorizationJson.value := "1.5";
          AuthorizationJson.validAfter := "0";
          AuthorizationJson.validBefore := "1730003600";
          AuthorizationJson.nonce := Samples.sample_nonce;
          AuthorizationJson.signature := "0xsignature" |} |}.

Definition syntax_error (s : string) : Js.Thrown :=
  Js.ErrorObject "SyntaxError" ("Cannot convert " ++ s ++ " to a BigInt").

End RouteSamples.

(** * Properties *)

(** ** Facts about strings *)

Module StringFacts.

Import JsString.

Lemma length_append (s t : string) :
  String.length (s ++ t) = (String.length s + String.length t)%nat.
Proof. induction s as [|c s IH]; simpl; [reflexivity | now rewrite IH]. Qed.

Lemma length_repeat_char c n : String.length (repeat_char c n) = n.
Proof. induction n as [|n IH]; simpl; [reflexivity | now rewrite IH]. Qed.

Lemma length_padStart s n c :
  (String.length s <= n)%nat -> String.length (padStart s n c) = n.
Proof.
  intros H. unfold padStart.
  rewrite length_append, length_repeat_char. lia.
Qed.

Lemma append_cancel_l (a b c : string) : a ++ b = a ++ c -> b = c.
Proof.
  induction a as [|x a IH]; simpl; intros H; [exact H|].
  injection H as H. now apply IH.
Qed.

Lemma append_assoc (a b c : string) : (a ++ b) ++ c = a ++ (b ++ c).
Proof. induction a as [|x a IH]; simpl; [reflexivity | now rewrite IH]. Qed.

Lemma eqb_false_neq (a b : string) : (a =? b)%string = false <-> a <> b.
Proof. apply String.eqb_neq. Qed.

End StringFacts.

(** ** The authorization validator *)

Module ValidatorFacts.

Import Eip3009Signer.

(** Each check in turn, under the assumption that the earlier ones pass. *)

Lemma rejects_non_positive dateNow a :
  a.(value) <= 0 ->
  validateTransferAuthorization dateNow a = invalid "Transfer amount must be positive".
Proof.
  intros H. unfold validateTransferAuthorization, unix_seconds.
  destruct (Z.leb_spec a.(value) 0); [reflexivity | lia].
Qed.

Lemma rejects_self_transfer dateNow a :
  0 < a.(value) -> a.(from) = a.(to) ->
  validateTransferAuthorization dateNow a = invalid "Cannot transfer to self".
Proof.
  intros Hv He. unfold validateTransferAuthorization, unix_seconds.
  destruct (Z.leb_spec a.(value) 0); [lia|].
  rewrite He, String.eqb_refl. reflexivity.
Qed.

Lemma rejects_expired dateNow a :
  0 < a.(value) -> a.(from) <> a.(to) ->
  a.(validBefore) <= dateNow / 1000 ->
  validateTransferAuthorization dateNow a = invalid "Authorization has expired".
Proof.
  intros Hv Hne Hb. unfold validateTransferAuthorization, unix_seconds.
  destruct (Z.leb_spec a.(value) 0); [lia|].
  apply String.eqb_neq in Hne. rewrite Hne.
  destruct (Z.leb_spec a.(validBefore) (dateNow / 1000)); [reflexivity | lia].
Qed.

Lemma rejects_not_yet_valid dateNow a :
  0 < a.(value) -> a.(from) <> a.(to) ->
  dateNow / 1000 < a.(validBefore) ->
  dateNow / 1000 < a.(validAfter) ->
  validateTransferAuthorization dateNow a = invalid "Authorization not yet valid".
Proof.
  intros Hv Hne Hb Ha. unfold validateTransferAuthorization, unix_seconds.
  destruct (Z.leb_spec a.(value) 0); [lia|].
  apply String.eqb_neq in Hne. rewrite Hne.
  destruct (Z.leb_spec a.(validBefore) (dateNow / 1000)); [lia|].
  unfold Z.gtb. destruct (Z.compare_spec a.(validAfter) (dateNow / 1000));
    try lia; reflexivity.
Qed.

Lemma rejects_bad_nonce dateNow a :
  0 < a.(value) -> a.(from) <> a.(to) ->
  dateNow / 1000 < a.(validBefore) ->
  a.(validAfter) <= dateNow / 1000 ->
  String.length a.(nonce) <> 66%nat ->
  validateTransferAuthorization dateNow a = invalid "Invalid nonce format".
Proof.
  intros Hv Hne Hb Ha Hn. unfold validateTransferAuthorization, unix_seconds.
  destruct (Z.leb_spec a.(value) 0); [lia|].
  apply String.eqb_neq in Hne. rewrite Hne.
  destruct (Z.leb_spec a.(validBefore) (dateNow / 1000)); [lia|].
  unfold Z.gtb. destruct (Z.compare_spec a.(validAfter) (dateNow / 1000));
    try lia; apply Nat.eqb_neq in Hn; rewrite Hn; reflexivity.
Qed.

Lemma accepts_well_formed dateNow a :
  0 < a.(value) -> a.(from) <> a.(to) ->
  dateNow / 1000 < a.(validBefore) ->
  a.(validAfter) <= dateNow / 1000 ->
  String.length a.(nonce) = 66%nat ->
  validateTransferAuthorization dateNow a = ok.
Proof.
  intros Hv Hne Hb Ha Hn. unfold validateTransferAuthorization, unix_seconds.
  destruct (Z.leb_spec a.(value) 0); [lia|].
  apply String.eqb_neq in Hne. rewrite Hne.
  destruct (Z.leb_spec a.(validBefore) (dateNow / 1000)); [lia|].
  unfold Z.gtb. destruct (Z.compare_spec a.(validAfter) (dateNow / 1000));
    try lia; rewrite Hn; reflexivity.
Qed.

Lemma hex_digit_count_length (s : string) (digits : nat) :
  Spec.hex_digit_count s = Some digits -> String.length s = (digits + 2)%nat.
Proof.
  unfold Spec.hex_digit_count.
  destruct s as [|c0 [|c1 r]]; try discriminate.
  - change (prefix "0x" (String c0 EmptyString))
      with (if ascii_dec "0" c0 then false else false).
    destruct (ascii_dec "0" c0); discriminate.
  - destruct (_ && _); [|discriminate].
    intros H. injection H as <-. simpl. lia.
Qed.

Lemma follows_ordered_checks dateNow a :
  validateTransferAuthorization dateNow a =
  match Spec.first_violated (Spec.ordered_checks (unix_seconds dateNow) a) with
  | Some why => invalid why
  | None => ok
  end.
Proof.
  unfold validateTransferAuthorization, unix_seconds. unfold Spec.ordered_checks, Spec.first_violated, unix_seconds.
  destruct (a.(value) <=? 0); [reflexivity|].
  destruct (a.(from) =? a.(to))%string; [reflexivity|].
  destruct (a.(validBefore) <=? dateNow / 1000); [reflexivity|].
  rewrite Z.gtb_ltb.
  destruct (dateNow / 1000 <? a.(validAfter)); [reflexivity|].
  destruct (String.length a.(nonce) =? 66)%nat; reflexivity.
Qed.

(** C3: [validateTransferAuthorization] checks positive value, non-self
    transfer, not expired, not yet valid and nonce length in this order
    and reports the reason of the first check that fails: it agrees with
    the first violated entry of the specified list of checks; a value
    [<= 0] gives "Transfer amount must be positive"; otherwise equal
    [from] and [to] give "Cannot transfer to self"; otherwise
    [validBefore <= now] gives "Authorization has expired"; otherwise
    [validAfter > now] gives "Authorization not yet valid"; otherwise a
    nonce that is not 66 characters long (0x and the 64 hexadecimal
    digits of 32 bytes) gives "Invalid nonce format", so does, among
    the nonces that are hexadecimal data, every one that has not 64
    digits; otherwise the result is valid and carries no error. *)
Theorem validate_reports_first_violated_invariant :
  forall (dateNow : Z) (a : TransferAuthorization),
    let now := unix_seconds dateNow in
    let r := validateTransferAuthorization dateNow a in
    r = match Spec.first_violated (Spec.ordered_checks now a) with
        | Some why => {| valid := false; error := Some why |}
        | None => {| valid := true; error := None |}
        end
    /\ (a.(value) <= 0 ->
        r = {| valid := false; error := Some "Transfer amount must be positive" |})
    /\ (0 < a.(value) -> a.(from) = a.(to) ->
        r = {| valid := false; error := Some "Cannot transfer to self" |})
    /\ (0 < a.(value) -> a.(from) <> a.(to) -> a.(validBefore) <= now ->
        r = {| valid := false; error := Some "Authorization has expired" |})
    /\ (0 < a.(value) -> a.(from) <> a.(to) -> now < a.(validBefore) ->
        a.(validAfter) > now ->
        r = {| valid := false; error := Some "Authorization not yet valid" |})
    /\ (0 < a.(value) -> a.(from) <> a.(to) -> now < a.(validBefore) ->
        a.(validAfter) <= now -> String.length a.(nonce) <> 66%nat ->
        r = {| valid := false; error := Some "Invalid nonce format" |})
    /\ (0 < a.(value) -> a.(from) <> a.(to) -> now < a.(validBefore) ->
        a.(validAfter) <= now ->
        forall digits, Spec.hex_digit_count a.(nonce) = Some digits ->
        digits <> 64%nat ->
        r = {| valid := false; error := Some "Invalid nonce format" |})
    /\ (0 < a.(value) -> a.(from) <> a.(to) -> now < a.(validBefore) ->
        a.(validAfter) <= now -> String.length a.(nonce) = 66%nat ->
        r = {| valid := true; error := None |}).
Proof.
  intros dateNow a now r. subst now r. unfold unix_seconds.
  split; [apply follows_ordered_checks|].
  split; [apply rejects_non_positive|].
  split; [apply rejects_self_transfer|].
  split; [apply rejects_expired|].
  split; [intros; apply rejects_not_yet_valid; auto; lia|].
  split; [apply rejects_bad_nonce|].
  split; [|apply accepts_well_formed].
  intros Hv Hne Hb Ha digits Hd Hn.
  apply rejects_bad_nonce; auto.
  apply hex_digit_count_length in Hd. lia.
Qed.

End ValidatorFacts.

(** ** The two validators side by side *)

Module ValidatorComparison.

Import Eip3009Signer.

Lemma self_transfer_reason_iff dateNow a :
  0 < a.(value) ->
  validateTransferAuthorization dateNow a = invalid "Cannot transfer to self"
  <-> a.(from) = a.(to).
Proof.
  intros Hv. split.
  - rewrite ValidatorFacts.follows_ordered_checks.
    unfold Spec.ordered_checks, Spec.first_violated.
    destruct (Z.leb_spec a.(value) 0); [lia|].
    destruct (String.eqb_spec a.(from) a.(to)); [auto|].
    repeat match goal with
           | |- context [if ?b then _ else _] => destruct b
           end; discriminate.
  - now apply ValidatorFacts.rejects_self_transfer.
Qed.

Lemma cro_self_transfer_reason_iff (t : CroTransactions.CroTransaction) :
  0 < t.(CroTransactions.value) ->
  CroTransactions.validateCroTransaction t = invalid "Cannot transfer to self"
  <-> Spec.same_account t.(CroTransactions.from) t.(CroTransactions.to).
Proof.
  intros Hv. unfold CroTransactions.validateCroTransaction, Spec.same_account.
  destruct (Z.leb_spec t.(CroTransactions.value) 0); [lia|].
  destruct (String.eqb_spec (JsString.toLowerCase t.(CroTransactions.from))
                            (JsString.toLowerCase t.(CroTransactions.to))).
  - tauto.
  - split; [|tauto].
    destruct (t.(CroTransactions.to) =? CronosConstants.CRO_ADDRESS)%string;
      discriminate.
Qed.

(** C2: the authorization validator accepts an authorization whose
    recipient is the zero address: at [Samples.burn_authorization], which
    satisfies the five checks the validator makes, it answers valid,
    while the validator of direct transfers rejects the same recipient
    with "Cannot transfer to zero address". *)
Theorem validate_accepts_zero_address_recipient :
  Samples.burn_authorization.(to) = CronosConstants.CRO_ADDRESS
  /\ validateTransferAuthorization Samples.sample_clock Samples.burn_authorization
     = {| valid := true; error := None |}
  /\ CroTransactions.validateCroTransaction
       (Samples.as_cro_transaction Samples.burn_authorization)
     = {| valid := false; error := Some "Cannot transfer to zero address" |}.
Proof. repeat split; vm_compute; reflexivity. Qed.

(** C10: the self-transfer check of [validateTransferAuthorization]
    compares [from] and [to] as they are spelled: it reports "Cannot
    transfer to self" exactly when the two strings are equal, so there
    are two spellings of one account, different only in letter case, that
    it accepts as a valid authorization; [validateCroTransaction] lowers
    both sides first, reports the reason exactly when the lowered strings
    are equal, and rejects that pair. *)
Theorem self_transfer_check_is_case_sensitive :
  (forall dateNow a, 0 < a.(value) ->
     (validateTransferAuthorization dateNow a
        = {| valid := false; error := Some "Cannot transfer to self" |}
      <-> a.(from) = a.(to)))
  /\ (forall t, 0 < t.(CroTransactions.value) ->
     (CroTransactions.validateCroTransaction t
        = {| valid := false; error := Some "Cannot transfer to self" |}
      <-> Spec.same_account t.(CroTransactions.from) t.(CroTransactions.to)))
  /\ exists a : TransferAuthorization,
       a.(from) <> a.(to)
       /\ Spec.same_account a.(from) a.(to)
       /\ validateTransferAuthorization Samples.sample_clock a
          = {| valid := true; error := None |}
       /\ CroTransactions.validateCroTransaction (Samples.as_cro_transaction a)
          = {| valid := false; error := Some "Cannot transfer to self" |}.
Proof.
  split; [exact self_transfer_reason_iff|].
  split; [exact cro_self_transfer_reason_iff|].
  exists Samples.self_authorization.
  split; [vm_compute; discriminate|].
  repeat split; vm_compute; reflexivity.
Qed.

End ValidatorComparison.

(** ** The nonce generator *)

Module NonceFacts.

Import JsString Eip3009Signer StringFacts.

Lemma hex_digits_length_le (k : nat) :
  forall fuel n acc,
    (n < 16 ^ N.of_nat (S k))%N ->
    (String.length (hex_digits fuel n acc) <= String.length acc + S k)%nat.
Proof.
  induction k as [|k IH]; intros fuel n acc Hn.
  - destruct fuel as [|f]; simpl; [lia|].
    replace (n / 16)%N with 0%N; [simpl; lia|].
    symmetry. apply N.div_small. exact Hn.
  - destruct fuel as [|f]; simpl; [lia|].
    destruct (N.eqb_spec (n / 16) 0); [simpl; lia|].
    specialize (IH f (n / 16)%N (String (hex_digit (n mod 16)) acc)).
    simpl in IH. rewrite Nat.add_succ_r. apply IH.
    apply N.Div0.div_lt_upper_bound.
    replace (N.of_nat (S (S k))) with (N.succ (N.of_nat (S k))) in Hn by lia.
    rewrite N.pow_succ_r' in Hn. exact Hn.
Qed.

Lemma hex_digit_lower (d : N) :
  (d < 16)%N -> Spec.is_lower_hex (hex_digit d) = true.
Proof.
  intros H.
  assert (Hc : In d [0;1;2;3;4;5;6;7;8;9;10;11;12;13;14;15]%N).
  { simpl.
    destruct d as [|p]; [auto|].
    do 16 (try (destruct p as [p|p|]; try lia; simpl; auto 20)). }
  simpl in Hc.
  repeat (destruct Hc as [<-|Hc]; [reflexivity|]). contradiction.
Qed.

Lemma hex_digits_lower :
  forall fuel n acc,
    Spec.all_lower_hex acc = true ->
    Spec.all_lower_hex (hex_digits fuel n acc) = true.
Proof.
  induction fuel as [|f IH]; intros n acc Hacc; simpl; [exact Hacc|].
  assert (Hd : Spec.all_lower_hex (String (hex_digit (n mod 16)) acc) = true).
  { simpl. rewrite Hacc, hex_digit_lower; [reflexivity|].
    apply N.mod_lt. discriminate. }
  destruct (n / 16 =? 0)%N; [exact Hd | now apply IH].
Qed.

Lemma all_lower_hex_append (s t : string) :
  Spec.all_lower_hex (s ++ t) = Spec.all_lower_hex s && Spec.all_lower_hex t.
Proof.
  induction s as [|c s IH]; simpl; [reflexivity|].
  rewrite IH. now rewrite andb_assoc.
Qed.

Lemma all_lower_hex_zeros n : Spec.all_lower_hex (repeat_char "0" n) = true.
Proof. induction n as [|n IH]; simpl; [reflexivity | exact IH]. Qed.

Lemma byte_hex_shape (b : Byte.byte) :
  String.length (byte_hex b) = 2%nat /\ Spec.all_lower_hex (byte_hex b) = true.
Proof. destruct b; split; vm_compute; reflexivity. Qed.

Lemma random_hex_shape (randomBytes : list Byte.byte) :
  String.length (String.concat "" (map byte_hex randomBytes))
    = (2 * List.length randomBytes)%nat
  /\ Spec.all_lower_hex (String.concat "" (map byte_hex randomBytes)) = true.
Proof.
  induction randomBytes as [|b rest [IHl IHh]]; [split; reflexivity|].
  destruct (byte_hex_shape b) as [Hl Hh].
  destruct rest as [|b' rest'].
  - simpl. rewrite Hl, Hh. split; reflexivity.
  - change (String.concat "" (map byte_hex (b :: b' :: rest')))
      with (byte_hex b ++ "" ++ String.concat "" (map byte_hex (b' :: rest'))).
    change ("" ++ ?s) with s.
    rewrite length_append, all_lower_hex_append, Hl, Hh, IHl, IHh.
    split; [simpl List.length; lia | reflexivity].
Qed.

Lemma timestamp_hex_shape (dateNow : Z) :
  Spec.clock_reading dateNow ->
  String.length (padStart (toString16 dateNow) 16 "0") = 16%nat
  /\ Spec.all_lower_hex (padStart (toString16 dateNow) 16 "0") = true.
Proof.
  intros [Hlo Hhi]. unfold toString16.
  destruct (Z.ltb_spec dateNow 0); [lia|].
  set (n := Z.to_N (Z.abs dateNow)).
  assert (Hn : (n < 16 ^ N.of_nat 16)%N).
  { subst n. change (16 ^ N.of_nat 16)%N with 18446744073709551616%N. lia. }
  pose proof (hex_digits_length_le 15 (S (N.size_nat n)) n EmptyString Hn) as Hlen.
  change (String.length EmptyString) with 0%nat in Hlen.
  split.
  - apply length_padStart. lia.
  - unfold padStart. rewrite all_lower_hex_append, all_lower_hex_zeros.
    apply hex_digits_lower. reflexivity.
Qed.

Lemma substring_all (s : string) : substring 0 (String.length s) s = s.
Proof. induction s as [|c s IH]; simpl; [reflexivity | now rewrite IH]. Qed.

(** A generated nonce is 0x and 64 lower-case hexadecimal digits: 16 of
    the timestamp and two of each of the 24 random bytes. *)
Lemma generateNonce_shape (dateNow : Z) (randomBytes : list Byte.byte) :
  Spec.clock_reading dateNow ->
  List.length randomBytes = 24%nat ->
  String.length (generateNonce dateNow randomBytes) = 66%nat
  /\ Spec.is_bytes32_hex (generateNonce dateNow randomBytes) = true.
Proof.
  intros Hc Hr. unfold generateNonce.
  destruct (timestamp_hex_shape dateNow Hc) as [Htl Hth].
  destruct (random_hex_shape randomBytes) as [Hrl Hrh].
  set (ts := padStart (toString16 dateNow) 16 "0") in *.
  set (rh := String.concat "" (map byte_hex randomBytes)) in *.
  assert (Hlen : String.length (ts ++ rh) = 64%nat).
  { rewrite length_append, Htl, Hrl, Hr. reflexivity. }
  split.
  - change ("0x" ++ ts ++ rh) with (String "0" (String "x" (ts ++ rh))).
    simpl String.length. rewrite Hlen. reflexivity.
  - unfold Spec.is_bytes32_hex, drop.
    change ("0x" ++ ts ++ rh) with (String "0" (String "x" (ts ++ rh))).
    simpl String.length. rewrite Hlen. simpl.
    replace 64%nat with (String.length (ts ++ rh)) at 1 by exact Hlen.
    rewrite substring_all, all_lower_hex_append, Hth, Hrh.
    now destruct (ts ++ rh).
Qed.

End NonceFacts.

(** ** Decimal conversion *)

Module ViemFacts.

Import JsString Viem StringFacts.

Lemma split_dot_digits (i : string) :
  all_digits i = true ->
  split_dot i = (i, None)
  /\ forall f, split_dot (i ++ String "." f) = (i, Some f).
Proof.
  induction i as [|c i IH]; simpl; intros H; [split; reflexivity|].
  apply andb_prop in H as [Hc Hi]. destruct (IH Hi) as [IH1 IH2].
  assert (Hdot : (c =? ".")%char = false).
  { apply Ascii.eqb_neq. intros ->. discriminate Hc. }
  rewrite Hdot, IH1. split; [reflexivity|]. intros f. now rewrite IH2.
Qed.

Lemma prefix_minus_digit (c : ascii) (r : string) :
  is_digit c = true -> prefix "-" (String c r) = false.
Proof.
  intros Hc.
  change (prefix "-" (String c r))
    with (if ascii_dec "-" c then prefix EmptyString r else false).
  destruct (ascii_dec "-" c) as [<-|]; [discriminate Hc | reflexivity].
Qed.

Lemma digits_unsigned (i : string) :
  all_digits i = true -> prefix "-" i = false.
Proof.
  destruct i as [|c i]; [reflexivity|]. cbn [all_digits]. intros H.
  apply andb_prop in H as [Hc _]. now apply prefix_minus_digit.
Qed.

Lemma digits_then_dot_unsigned (i f : string) :
  all_digits i = true -> prefix "-" (i ++ String "." f) = false.
Proof.
  destruct i as [|c i]; [reflexivity|]. cbn [all_digits append]. intros H.
  apply andb_prop in H as [Hc _]. now apply prefix_minus_digit.
Qed.

Lemma BigInt_digits_fold (l : list ascii) (acc : Z) :
  fold_left (fun a c => 10 * a + digit_value c) l acc
  = acc * 10 ^ Z.of_nat (List.length l)
    + fold_left (fun a c => 10 * a + digit_value c) l 0.
Proof.
  revert acc. induction l as [|c l IH]; intros acc.
  - simpl. lia.
  - cbn [fold_left List.length]. rewrite IH, (IH (10 * 0 + digit_value c)).
    rewrite Nat2Z.inj_succ, Z.pow_succ_r by lia. ring.
Qed.

Lemma list_ascii_append (a b : string) :
  list_ascii_of_string (a ++ b)
  = (list_ascii_of_string a ++ list_ascii_of_string b)%list.
Proof. induction a as [|c a IH]; simpl; [reflexivity | now rewrite IH]. Qed.

Lemma list_ascii_length (a : string) :
  List.length (list_ascii_of_string a) = String.length a.
Proof. induction a as [|c a IH]; simpl; [reflexivity | now rewrite IH]. Qed.

Lemma BigInt_digits_append (a b : string) :
  BigInt_digits (a ++ b)
  = BigInt_digits a * 10 ^ Z.of_nat (String.length b) + BigInt_digits b.
Proof.
  unfold BigInt_digits.
  rewrite list_ascii_append, fold_left_app, BigInt_digits_fold, list_ascii_length.
  reflexivity.
Qed.

Lemma BigInt_digits_zeros (n : nat) : BigInt_digits (repeat_char "0" n) = 0.
Proof.
  induction n as [|n IH]; [reflexivity|].
  change (repeat_char "0" (S n)) with ("0" ++ repeat_char "0" n).
  rewrite BigInt_digits_append, IH. reflexivity.
Qed.

(** Dropping the trailing zeros of a fraction divides its digits, read as
    an integer, by the matching power of ten. *)
Lemma trim_trailing_zeros_spec (f : string) :
  (String.length (trim_trailing_zeros f) <= String.length f)%nat
  /\ BigInt_digits f
     = BigInt_digits (trim_trailing_zeros f)
       * 10 ^ Z.of_nat (String.length f - String.length (trim_trailing_zeros f)).
Proof.
  induction f as [|c f [IHl IHv]]; [split; reflexivity|].
  cbn [trim_trailing_zeros].
  destruct (Ascii.eqb_spec c "0") as [->|Hc]; cbn [andb].
  - destruct (String.eqb_spec (trim_trailing_zeros f) EmptyString) as [He|He].
    + rewrite He in IHv. split; [simpl; lia|].
      change (String "0" f) with ("0" ++ f).
      rewrite BigInt_digits_append, IHv. reflexivity.
    + split; [simpl; lia|].
      change (String "0" f) with ("0" ++ f).
      change (String "0" (trim_trailing_zeros f)) with ("0" ++ trim_trailing_zeros f).
      rewrite !BigInt_digits_append, IHv. simpl String.length.
      replace (S (String.length f) - S (String.length (trim_trailing_zeros f)))%nat
        with (String.length f - String.length (trim_trailing_zeros f))%nat by lia.
      reflexivity.
  - split; [simpl; lia|].
    change (String c f) with (String c EmptyString ++ f).
    change (String c (trim_trailing_zeros f))
      with (String c EmptyString ++ trim_trailing_zeros f).
    rewrite !BigInt_digits_append, IHv. simpl String.length.
    replace (S (String.length f) - S (String.length (trim_trailing_zeros f)))%nat
      with (String.length f - String.length (trim_trailing_zeros f))%nat by lia.
    set (t := trim_trailing_zeros f) in *.
    replace (Z.of_nat (String.length f))
      with (Z.of_nat (String.length t)
            + Z.of_nat (String.length f - String.length t)) by lia.
    rewrite Z.pow_add_r by lia. ring.
Qed.

Lemma padded_fraction_value (f : string) (decimals : nat) :
  (String.length f <= decimals)%nat ->
  String.length (padEnd (trim_trailing_zeros f) decimals "0") = decimals
  /\ BigInt_digits (padEnd (trim_trailing_zeros f) decimals "0")
     = BigInt_digits f * 10 ^ Z.of_nat (decimals - String.length f).
Proof.
  intros Hl. destruct (trim_trailing_zeros_spec f) as [Htl Htv].
  set (t := trim_trailing_zeros f) in *. unfold padEnd.
  rewrite length_append, length_repeat_char.
  split; [lia|].
  rewrite BigInt_digits_append, BigInt_digits_zeros, length_repeat_char, Htv.
  rewrite Z.add_0_r, <- Z.mul_assoc, <- Z.pow_add_r by lia.
  f_equal. f_equal. lia.
Qed.

Section Exactness.

Variable round_Number : string -> Z.

(** An amount with no more fractional digits than the scale converts
    without rounding: its integer part times ten to the scale, plus its
    fraction shifted to the scale. *)
Lemma parseUnits_exact (i f : string) (decimals : nat) :
  all_digits i = true -> all_digits f = true ->
  (0 < decimals)%nat -> (String.length f <= decimals)%nat ->
  parseUnits round_Number (i ++ String "." f) decimals
  = Some (BigInt_digits i * 10 ^ Z.of_nat decimals
          + BigInt_digits f * 10 ^ Z.of_nat (decimals - String.length f)).
Proof.
  intros Hi Hf Hd Hl. unfold parseUnits, is_decimal_number.
  destruct (split_dot_digits i Hi) as [_ Hs].
  rewrite (digits_then_dot_unsigned i f Hi), Hs, Hi, Hf. cbn [andb negb].
  rewrite (digits_unsigned i Hi).
  destruct (trim_trailing_zeros_spec f) as [Htl _].
  destruct (Nat.eqb_spec decimals 0); [lia|].
  destruct (Nat.ltb_spec decimals (String.length (trim_trailing_zeros f))); [lia|].
  destruct (padded_fraction_value f decimals Hl) as [Hpl Hpv].
  unfold BigInt_signed. rewrite BigInt_digits_append, Hpl, Hpv. reflexivity.
Qed.

Lemma parseUnits_exact_integer (i : string) (decimals : nat) :
  all_digits i = true -> (0 < decimals)%nat ->
  parseUnits round_Number i decimals
  = Some (BigInt_digits i * 10 ^ Z.of_nat decimals).
Proof.
  intros Hi Hd. unfold parseUnits, is_decimal_number.
  destruct (split_dot_digits i Hi) as [Hs _].
  rewrite (digits_unsigned i Hi), Hs, Hi. cbn [negb].
  rewrite (digits_unsigned i Hi).
  destruct (Nat.eqb_spec decimals 0); [lia|].
  change (trim_trailing_zeros "0") with EmptyString.
  destruct (Nat.ltb_spec decimals (String.length EmptyString)); [simpl in *; lia|].
  unfold BigInt_signed, padEnd.
  change (String.length EmptyString) with 0%nat.
  change (EmptyString ++ ?s) with s.
  rewrite Nat.sub_0_r.
  rewrite BigInt_digits_append, BigInt_digits_zeros, length_repeat_char.
  f_equal. ring.
Qed.

End Exactness.

End ViemFacts.

(** ** The builders *)

Module BuilderFacts.

Import JsString Eip3009Signer.

(** C4: amounts are converted to base units by exact integer arithmetic
    on the decimal scale of the asset, whatever the rounding of overlong
    fractions does: an authorization built for the amount "1" carries
    the value 1000000 (six decimals), a direct transfer built for "1"
    carries 10^18 (eighteen decimals), and in general an amount written
    as an integer part, a dot and at most as many fractional digits as
    the scale has converts to the integer part times ten to the scale
    plus the fraction shifted to the scale. *)
Theorem amount_conversion_is_exact :
  forall (round_Number : string -> Z) (dateNow nonceDateNow : Z)
         (randomBytes : list Byte.byte) (from to : string)
         (validityWindow : Z) (network : string),
    option_map value
      (createTransferAuthorization round_Number dateNow nonceDateNow randomBytes
                                   from to "1" validityWindow)
    = Some 1000000
    /\ option_map CroTransactions.value
         (CroTransactions.buildCroTransaction round_Number from to "1" network)
       = Some (10 ^ 18)
    /\ (forall i f : string,
          Viem.all_digits i = true -> Viem.all_digits f = true ->
          (String.length f <= 6)%nat ->
          option_map value
            (createTransferAuthorization round_Number dateNow nonceDateNow
               randomBytes from to (i ++ String "." f) validityWindow)
          = Some (Viem.BigInt_digits i * 10 ^ 6
                  + Viem.BigInt_digits f * 10 ^ Z.of_nat (6 - String.length f)))
    /\ (forall i f : string,
          Viem.all_digits i = true -> Viem.all_digits f = true ->
          (String.length f <= 18)%nat ->
          option_map CroTransactions.value
            (CroTransactions.buildCroTransaction round_Number from to
               (i ++ String "." f) network)
          = Some (Viem.BigInt_digits i * 10 ^ 18
                  + Viem.BigInt_digits f * 10 ^ Z.of_nat (18 - String.length f))).
Proof.
  intros rn dateNow nonceDateNow rb from to w network.
  split; [reflexivity|]. split; [reflexivity|]. split.
  - intros i f Hi Hf Hl. unfold createTransferAuthorization.
    rewrite (ViemFacts.parseUnits_exact rn i f 6 Hi Hf) by lia. reflexivity.
  - intros i f Hi Hf Hl.
    unfold CroTransactions.buildCroTransaction, CronosConstants.CRO_METADATA.DECIMALS.
    rewrite (ViemFacts.parseUnits_exact rn i f 18 Hi Hf) by lia. reflexivity.
Qed.

(** The theorem at the amount "0.01" of the tests: 10000 base units of
    the stable asset, 10^16 of the native asset. *)
Lemma amount_conversion_is_exact_witness :
  option_map value
    (createTransferAuthorization (fun _ => 0) Samples.sample_clock
       Samples.sample_clock (repeat Byte.xab 24) Samples.payer Samples.payee
       "0.01" 3600)
  = Some 10000
  /\ option_map CroTransactions.value
       (CroTransactions.buildCroTransaction (fun _ => 0) Samples.payer
          Samples.payee "0.01" "cronos-testnet")
     = Some 10000000000000000.
Proof.
  destruct (amount_conversion_is_exact (fun _ => 0) Samples.sample_clock
              Samples.sample_clock (repeat Byte.xab 24) Samples.payer
              Samples.payee 3600 "cronos-testnet") as (_ & _ & H6 & H18).
  split.
  - exact (H6 "0" "01" eq_refl eq_refl (le_S _ _ (le_S _ _ (le_S _ _ (le_S _ _ (le_n 2)))))).
  - refine (H18 "0" "01" eq_refl eq_refl _). vm_compute. repeat constructor.
Defined.

Section Builder.

Variable round_Number : string -> Z.

Lemma builder_copies_converted_value
    (dateNow nonceDateNow : Z) (randomBytes : list Byte.byte)
    (from to amount : string) (validityWindow : Z) :
  createTransferAuthorization round_Number dateNow nonceDateNow randomBytes
                              from to amount validityWindow
  = match Viem.parseUnits round_Number amount 6 with
    | None => None
    | Some v =>
        Some {| from := from; to := to; value := v; validAfter := 0;
                validBefore := dateNow / 1000 + validityWindow;
                nonce := generateNonce nonceDateNow randomBytes |}
    end.
Proof. reflexivity. Qed.

End Builder.




End BuilderFacts.

(** ** The settlement client *)

Module SettlementFacts.

Import JsString Js FacilitatorClient.

Lemma skipn_own_length {A} (l r : list A) :
  skipn (List.length l) (l ++ r)%list = r.
Proof. induction l as [|x l IH]; simpl; [reflexivity | exact IH]. Qed.

Lemma verify_call_is_not_settle this network token authorization :
  is_settle_call this (verify_call this network token authorization) = false.
Proof.
  unfold is_settle_call, verify_call. cbn [url].
  apply String.eqb_neq. intros H.
  apply StringFacts.append_cancel_l in H. discriminate H.
Qed.

Lemma settle_call_is_settle this network token authorization vid :
  is_settle_call this (settle_call this network token authorization vid) = true.
Proof. unfold is_settle_call, settle_call. cbn [url]. apply String.eqb_refl. Qed.

Section Client.

Variable service : Facilitator.
Variable this : CronosFacilitatorClient.
Variables network token : string.
Variable authorization : Eip3009Signer.SignedTransferAuthorization.
Variable log : list Call.

Local Abbreviation verify_body := (request_body network token authorization None).
Local Abbreviation the_verify_call := (verify_call this network token authorization).

(** One request goes out for a verification, whatever the answer. *)
Lemma verifyPayment_calls_once :
  calls_made (verifyPayment service this network token authorization) log
  = [the_verify_call].
Proof.
  unfold calls_made, verifyPayment, fetch.
  destruct (answer_verify service log _) as [[name message|]|st text|data];
    try destruct (name =? "AbortError")%string;
    cbn [snd]; apply skipn_own_length.
Qed.

(** A verification that answers [valid = false] ends the exchange. *)
Lemma verifyAndSettle_rejected (vr : VerifyPaymentResponse.t) :
  answer_verify service log verify_body = Json vr ->
  vr.(VerifyPaymentResponse.valid) = false ->
  verifyAndSettle service this network token authorization log
  = (Return {| SettlePaymentResponse.success := false;
               SettlePaymentResponse.txHash := None;
               SettlePaymentResponse.error := Some "Verification failed";
               SettlePaymentResponse.reason := vr.(VerifyPaymentResponse.reason) |},
     (log ++ [the_verify_call])%list).
Proof.
  intros Ha Hv. unfold verifyAndSettle, bind, verifyPayment, fetch.
  rewrite Ha, Hv. reflexivity.
Qed.

(** A verification that does not answer at all ends the exchange too. *)
Lemma verifyAndSettle_verify_throws :
  (forall vr, answer_verify service log verify_body <> Json vr) ->
  exists e,
    verifyAndSettle service this network token authorization log
    = (Throw e, (log ++ [the_verify_call])%list).
Proof.
  intros Hn. unfold verifyAndSettle, bind, verifyPayment, fetch.
  destruct (answer_verify service log verify_body)
    as [[name message|]|st text|data].
  - destruct (name =? "AbortError")%string; eexists; reflexivity.
  - eexists; reflexivity.
  - eexists; reflexivity.
  - exfalso. now apply (Hn data).
Qed.

(** A verification that answers [valid = true] is followed by one
    settlement request, which carries the verification id. *)
Lemma verifyAndSettle_accepted (vr : VerifyPaymentResponse.t) :
  answer_verify service log verify_body = Json vr ->
  vr.(VerifyPaymentResponse.valid) = true ->
  calls_made (verifyAndSettle service this network token authorization) log
  = [the_verify_call;
     settle_call this network token authorization
                 vr.(VerifyPaymentResponse.verificationId)].
Proof.
  intros Ha Hv.
  unfold calls_made, verifyAndSettle, bind, verifyPayment, settlePayment, fetch.
  rewrite Ha, Hv. cbn [negb].
  destruct (answer_settle service _ _) as [[name message|]|st text|data];
    try destruct (name =? "AbortError")%string;
    cbn [snd ret]; rewrite <- app_assoc; apply skipn_own_length.
Qed.

End Client.

(** C1: [verifyAndSettle] sends a settlement request only after a
    verification that answered [valid = true]; when the verification
    answers [valid = false], the only request it sends is the
    verification request, none goes to the settle endpoint, and it
    returns [success = false] with the error "Verification failed" and
    the reason the verification gave. *)
Theorem verifyAndSettle_settles_only_after_valid_verification :
  forall (service : Facilitator) (this : CronosFacilitatorClient)
         (network token : string)
         (authorization : Eip3009Signer.SignedTransferAuthorization)
         (log : list Call),
    let exchange := verifyAndSettle service this network token authorization in
    let answer :=
      answer_verify service log (request_body network token authorization None) in
    (existsb (is_settle_call this) (calls_made exchange log) = true ->
     exists vr, answer = Json vr /\ vr.(VerifyPaymentResponse.valid) = true)
    /\ (forall vr,
          answer = Json vr -> vr.(VerifyPaymentResponse.valid) = false ->
          calls_made exchange log = [verify_call this network token authorization]
          /\ existsb (is_settle_call this) (calls_made exchange log) = false
          /\ List.length (calls_made exchange log) = 1%nat
          /\ result_of exchange log
             = Return {| SettlePaymentResponse.success := false;
                         SettlePaymentResponse.txHash := None;
                         SettlePaymentResponse.error := Some "Verification failed";
                         SettlePaymentResponse.reason :=
                           vr.(VerifyPaymentResponse.reason) |}).
Proof.
  intros service this network token authorization log exchange answer.
  assert (Hrej : forall vr,
             answer = Json vr -> vr.(VerifyPaymentResponse.valid) = false ->
             calls_made exchange log = [verify_call this network token authorization]
             /\ result_of exchange log
                = Return {| SettlePaymentResponse.success := false;
                            SettlePaymentResponse.txHash := None;
                            SettlePaymentResponse.error := Some "Verification failed";
                            SettlePaymentResponse.reason :=
                              vr.(VerifyPaymentResponse.reason) |}).
  { intros vr Ha Hv. unfold calls_made, result_of, exchange.
    rewrite (verifyAndSettle_rejected service this network token authorization
               log vr Ha Hv).
    cbn [fst snd]. split; [apply skipn_own_length | reflexivity]. }
  split.
  - intros Hsettle.
    destruct answer as [e|st text|vr] eqn:Ha.
    + exfalso.
      destruct (verifyAndSettle_verify_throws service this network token
                  authorization log) as [e' He'].
      { intros vr Hvr. unfold answer in Ha. rewrite Ha in Hvr. discriminate Hvr. }
      unfold calls_made, exchange in Hsettle. rewrite He' in Hsettle.
      cbn [snd] in Hsettle. rewrite skipn_own_length in Hsettle.
      cbn [existsb] in Hsettle.
      rewrite verify_call_is_not_settle in Hsettle. discriminate Hsettle.
    + exfalso.
      destruct (verifyAndSettle_verify_throws service this network token
                  authorization log) as [e' He'].
      { intros vr Hvr. unfold answer in Ha. rewrite Ha in Hvr. discriminate Hvr. }
      unfold calls_made, exchange in Hsettle. rewrite He' in Hsettle.
      cbn [snd] in Hsettle. rewrite skipn_own_length in Hsettle.
      cbn [existsb] in Hsettle.
      rewrite verify_call_is_not_settle in Hsettle. discriminate Hsettle.
    + exists vr. split; [reflexivity|].
      destruct (VerifyPaymentResponse.valid vr) eqn:Hv; [reflexivity|].
      exfalso. destruct (Hrej vr eq_refl Hv) as [Hc _].
      rewrite Hc in Hsettle. cbn [existsb] in Hsettle.
      rewrite verify_call_is_not_settle in Hsettle. discriminate Hsettle.
  - intros vr Ha Hv. destruct (Hrej vr Ha Hv) as [Hc Hr].
    rewrite Hc. cbn [existsb List.length].
    rewrite verify_call_is_not_settle. repeat split; assumption.
Qed.

(** The theorem at a service that rejects the authorization for
    insufficient balance: one request, to the verify endpoint, and the
    failure carries that reason. *)
Lemma verifyAndSettle_settles_only_after_valid_verification_witness :
  let exchange :=
    verifyAndSettle Samples.rejecting_service Samples.default_client
      "cronos-testnet" CronosConstants.USDC_ADDRESS.TESTNET
      Samples.signed_authorization in
  calls_made exchange []
  = [verify_call Samples.default_client "cronos-testnet"
       CronosConstants.USDC_ADDRESS.TESTNET Samples.signed_authorization]
  /\ existsb (is_settle_call Samples.default_client) (calls_made exchange []) = false
  /\ List.length (calls_made exchange []) = 1%nat
  /\ result_of exchange []
     = Return {| SettlePaymentResponse.success := false;
                 SettlePaymentResponse.txHash := None;
                 SettlePaymentResponse.error := Some "Verification failed";
                 SettlePaymentResponse.reason := Some "Insufficient balance" |}.
Proof.
  exact (proj2 (verifyAndSettle_settles_only_after_valid_verification
                  Samples.rejecting_service Samples.default_client
                  "cronos-testnet" CronosConstants.USDC_ADDRESS.TESTNET
                  Samples.signed_authorization [])
               _ eq_refl eq_refl).
Defined.

End SettlementFacts.

(** ** Verification of a direct transfer *)

Module DirectTransferFacts.

Import JsString Js CroPayment CronosConstants.

Lemma substring_prefix (s b : string) :
  substring 0 (String.length s) (s ++ b) = s.
Proof. induction s as [|c s IH]; simpl; [now destruct b | now rewrite IH]. Qed.

Lemma substring_middle (a s b : string) :
  substring (String.length a) (String.length s) (a ++ s ++ b) = s.
Proof. induction a as [|c a IH]; simpl; [apply substring_prefix | exact IH]. Qed.

Lemma includes_middle (a s b : string) : includes (a ++ s ++ b) s = true.
Proof.
  unfold includes.
  destruct (index 0 s (a ++ s ++ b)) eqn:Hi; [reflexivity|]. exfalso.
  destruct s as [|c s].
  - apply index_correct4 in Hi. lia.
  - apply (index_correct3 0 (String.length a)) in Hi; [|discriminate|lia].
    apply Hi. apply substring_middle.
Qed.

Lemma includes_after (a b c s d : string) :
  includes (a ++ b ++ c ++ s ++ d) s = true.
Proof.
  replace (a ++ b ++ c ++ s ++ d) with ((a ++ b ++ c) ++ s ++ d)
    by now rewrite !StringFacts.append_assoc.
  apply includes_middle.
Qed.

Section Verifier.

Variable round_Number : string -> Z.
Variable invalid_decimal_number : string -> Thrown.
Variable Number : Z -> Z.

(** A double holds a safe integer exactly. *)
Hypothesis Number_exact : forall z, Spec.safe_integer z -> Number z = z.

Variable client : PublicClient.
Variables hash expectedRecipient expectedAmount : string.
Variable minConfirmations : Z.
Variable the_receipt : TransactionReceipt.
Variable tx : Transaction.
Variable expectedValue : Z.

(** The receipt, status and recipient checks pass and the expected
    amount is a decimal number. *)
Hypothesis receipt_found :
  client.(getTransactionReceipt) hash = Return (Some the_receipt).
Hypothesis receipt_succeeded : the_receipt.(status) = success.
Hypothesis transaction_found : client.(getTransaction) hash = Return (Some tx).
Hypothesis recipient_matches : recipient_differs tx.(to) expectedRecipient = false.
Hypothesis expected_converts :
  Viem.parseUnits round_Number expectedAmount CRO_METADATA.DECIMALS
  = Some expectedValue.

Local Abbreviation verdict :=
  (verifyCroPayment round_Number invalid_decimal_number Number client hash
                    expectedRecipient expectedAmount minConfirmations).

Lemma underpayment_rejected :
  tx.(value) < expectedValue ->
  verdict
  = {| valid := false; txHash := Some hash; receipt := Some the_receipt;
       error := Some "Insufficient amount";
       reason := Some ("Expected "
                       ++ Viem.formatUnits expectedValue CRO_METADATA.DECIMALS
                       ++ " CRO, got "
                       ++ Viem.formatUnits tx.(value) CRO_METADATA.DECIMALS
                       ++ " CRO") |}.
Proof.
  intros Hlt. unfold verifyCroPayment, verifyCroPayment_try, bind.
  rewrite receipt_found, receipt_succeeded, transaction_found,
    recipient_matches, expected_converts.
  destruct (Z.ltb_spec tx.(value) expectedValue); [reflexivity | lia].
Qed.

(** Once the amount suffices the verdict is the one of the confirmation
    check, or the failure of the block number query. *)
Lemma sufficient_amount_verdict :
  expectedValue <= tx.(value) ->
  verdict
  = match client.(getBlockNumber) with
    | Return currentBlock =>
        let confirmations := Number (currentBlock - the_receipt.(blockNumber)) in
        if confirmations <? minConfirmations then
          {| valid := false; txHash := Some hash; receipt := Some the_receipt;
             error := Some "Insufficient confirmations";
             reason := Some ("Transaction has " ++ of_Z confirmations
                             ++ " confirmations, need " ++ of_Z minConfirmations) |}
        else
          {| valid := true; txHash := Some hash; receipt := Some the_receipt;
             error := None; reason := None |}
    | Throw e =>
        {| valid := false; txHash := None; receipt := None;
           error := Some "Verification failed";
           reason := Some (match e with
                           | ErrorObject _ message => message
                           | OtherValue => "Unknown error"
                           end) |}
    end.
Proof.
  intros Hle. unfold verifyCroPayment, verifyCroPayment_try, bind.
  rewrite receipt_found, receipt_succeeded, transaction_found,
    recipient_matches, expected_converts.
  destruct (Z.ltb_spec tx.(value) expectedValue); [lia|].
  destruct client.(getBlockNumber) as [currentBlock|e]; [|reflexivity].
  cbv zeta. destruct (_ <? minConfirmations); reflexivity.
Qed.

Lemma amount_error_iff :
  verdict.(error) = Some "Insufficient amount" <-> tx.(value) < expectedValue.
Proof.
  split.
  - intros He. destruct (Z.lt_ge_cases tx.(value) expectedValue) as [|Hle]; [assumption|].
    rewrite (sufficient_amount_verdict Hle) in He.
    destruct client.(getBlockNumber) as [currentBlock|e].
    + cbv zeta in He. destruct (_ <? minConfirmations); discriminate He.
    + discriminate He.
  - intros Hlt. now rewrite (underpayment_rejected Hlt).
Qed.

Variable currentBlock : Z.
Hypothesis amount_suffices : expectedValue <= tx.(value).
Hypothesis block_number_read : client.(getBlockNumber) = Return currentBlock.
Hypothesis depth_is_safe :
  Spec.safe_integer (currentBlock - the_receipt.(blockNumber)).

Lemma shallow_transfer_rejected :
  currentBlock - the_receipt.(blockNumber) < minConfirmations ->
  verdict
  = {| valid := false; txHash := Some hash; receipt := Some the_receipt;
       error := Some "Insufficient confirmations";
       reason := Some ("Transaction has "
                       ++ of_Z (currentBlock - the_receipt.(blockNumber))
                       ++ " confirmations, need " ++ of_Z minConfirmations) |}.
Proof.
  intros Hlt. rewrite (sufficient_amount_verdict amount_suffices), block_number_read.
  cbv zeta. rewrite (Number_exact _ depth_is_safe).
  destruct (Z.ltb_spec (currentBlock - the_receipt.(blockNumber)) minConfirmations);
    [reflexivity | lia].
Qed.

Lemma deep_transfer_accepted :
  minConfirmations <= currentBlock - the_receipt.(blockNumber) ->
  verdict
  = {| valid := true; txHash := Some hash; receipt := Some the_receipt;
       error := None; reason := None |}.
Proof.
  intros Hle. rewrite (sufficient_amount_verdict amount_suffices), block_number_read.
  cbv zeta. rewrite (Number_exact _ depth_is_safe).
  destruct (Z.ltb_spec (currentBlock - the_receipt.(blockNumber)) minConfirmations);
    [lia | reflexivity].
Qed.

End Verifier.

(** C5: for a transaction that passes the receipt, status, recipient and
    amount checks, the number of confirmations is the current block
    number minus the block number of the receipt (a safe integer, which
    the conversion to a number keeps); [verifyCroPayment] rejects with
    the error "Insufficient confirmations" exactly when that difference
    is below [minConfirmations], its reason then reports the difference
    and the required count, and it accepts otherwise, in particular
    when the two are equal.  The default of [minConfirmations] is 2. *)
Theorem confirmations_below_minimum_are_rejected :
  forall (round_Number : string -> Z) (invalid_decimal_number : string -> Thrown)
         (Number : Z -> Z) (client : PublicClient)
         (hash expectedRecipient expectedAmount : string) (minConfirmations : Z)
         (the_receipt : TransactionReceipt) (tx : Transaction)
         (expectedValue currentBlock : Z),
    (forall z, Spec.safe_integer z -> Number z = z) ->
    client.(getTransactionReceipt) hash = Return (Some the_receipt) ->
    the_receipt.(status) = success ->
    client.(getTransaction) hash = Return (Some tx) ->
    recipient_differs tx.(to) expectedRecipient = false ->
    Viem.parseUnits round_Number expectedAmount CRO_METADATA.DECIMALS
      = Some expectedValue ->
    expectedValue <= tx.(value) ->
    client.(getBlockNumber) = Return currentBlock ->
    Spec.safe_integer (currentBlock - the_receipt.(blockNumber)) ->
    let confirmations := currentBlock - the_receipt.(blockNumber) in
    let verdict :=
      verifyCroPayment round_Number invalid_decimal_number Number client hash
                       expectedRecipient expectedAmount minConfirmations in
    (verdict.(error) = Some "Insufficient confirmations"
     <-> confirmations < minConfirmations)
    /\ (confirmations < minConfirmations ->
        verdict
        = {| valid := false; txHash := Some hash; receipt := Some the_receipt;
             error := Some "Insufficient confirmations";
             reason := Some ("Transaction has " ++ of_Z confirmations
                             ++ " confirmations, need "
                             ++ of_Z minConfirmations) |})
    /\ (minConfirmations <= confirmations ->
        verdict
        = {| valid := true; txHash := Some hash; receipt := Some the_receipt;
             error := None; reason := None |})
    /\ (confirmations = minConfirmations -> verdict.(valid) = true)
    /\ default_minConfirmations = 2.
Proof.
  intros rn idn Number client hash expectedRecipient expectedAmount
         minConfirmations the_receipt tx expectedValue currentBlock
         Hexact Hr Hs Ht Hto Hv Hamount Hb Hsafe confirmations verdict.
  assert (Hshallow := shallow_transfer_rejected rn idn Number Hexact client hash
            expectedRecipient expectedAmount minConfirmations the_receipt tx
            expectedValue Hr Hs Ht Hto Hv currentBlock Hamount Hb Hsafe).
  assert (Hdeep := deep_transfer_accepted rn idn Number Hexact client hash
            expectedRecipient expectedAmount minConfirmations the_receipt tx
            expectedValue Hr Hs Ht Hto Hv currentBlock Hamount Hb Hsafe).
  fold confirmations verdict in Hshallow, Hdeep.
  split; [|split; [exact Hshallow|split; [exact Hdeep|split; [|reflexivity]]]].
  - split.
    + intros He. destruct (Z.lt_ge_cases confirmations minConfirmations) as [|Hle];
        [assumption|].
      rewrite (Hdeep Hle) in He. discriminate He.
    + intros Hlt. now rewrite (Hshallow Hlt).
  - intros Heq. rewrite Hdeep by lia. reflexivity.
Qed.

(** The theorem at a transfer with one confirmation where two are
    required: rejected, and the reason names 1 and 2. *)
Lemma confirmations_below_minimum_are_rejected_witness :
  verifyCroPayment Samples.no_rounding Samples.invalid_decimal
    Samples.Number_of_safe_integer (Samples.sample_chain (10 ^ 17) 101)
    Samples.sample_hash Samples.payee "0.1" default_minConfirmations
  = {| valid := false; txHash := Some Samples.sample_hash;
       receipt := Some Samples.sample_receipt;
       error := Some "Insufficient confirmations";
       reason := Some "Transaction has 1 confirmations, need 2" |}.
Proof.
  refine (proj1 (proj2 (confirmations_below_minimum_are_rejected
                  Samples.no_rounding Samples.invalid_decimal
                  Samples.Number_of_safe_integer
                  (Samples.sample_chain (10 ^ 17) 101)
                  Samples.sample_hash Samples.payee "0.1" default_minConfirmations
                  Samples.sample_receipt
                  {| to := Some Samples.payee; value := 10 ^ 17 |}
                  (10 ^ 17) 101
                  (fun z _ => eq_refl) eq_refl eq_refl eq_refl eq_refl eq_refl
                  _ eq_refl _)) _).
  - vm_compute. discriminate.
  - unfold Spec.safe_integer. vm_compute. split; reflexivity.
  - vm_compute. reflexivity.
Defined.

(** C6: for a transaction that passes the receipt, status and recipient
    checks, the expected amount is converted to base units on the scale
    of the native asset and compared with the value transferred:
    [verifyCroPayment] rejects with the error "Insufficient amount"
    exactly when the value is below the expected one, and its reason then
    contains both amounts in human-readable form; a value equal to or
    above the expected one passes on to the confirmation check and is
    accepted when the confirmations suffice. *)
Theorem underpayment_is_rejected_overpayment_accepted :
  forall (round_Number : string -> Z) (invalid_decimal_number : string -> Thrown)
         (Number : Z -> Z) (client : PublicClient)
         (hash expectedRecipient expectedAmount : string) (minConfirmations : Z)
         (the_receipt : TransactionReceipt) (tx : Transaction)
         (expectedValue : Z),
    (forall z, Spec.safe_integer z -> Number z = z) ->
    client.(getTransactionReceipt) hash = Return (Some the_receipt) ->
    the_receipt.(status) = success ->
    client.(getTransaction) hash = Return (Some tx) ->
    recipient_differs tx.(to) expectedRecipient = false ->
    Viem.parseUnits round_Number expectedAmount CRO_METADATA.DECIMALS
      = Some expectedValue ->
    let verdict :=
      verifyCroPayment round_Number invalid_decimal_number Number client hash
                       expectedRecipient expectedAmount minConfirmations in
    let expected_text := Viem.formatUnits expectedValue CRO_METADATA.DECIMALS in
    let actual_text := Viem.formatUnits tx.(value) CRO_METADATA.DECIMALS in
    (verdict.(error) = Some "Insufficient amount" <-> tx.(value) < expectedValue)
    /\ (tx.(value) < expectedValue ->
        verdict.(valid) = false
        /\ verdict.(error) = Some "Insufficient amount"
        /\ verdict.(reason)
           = Some ("Expected " ++ expected_text ++ " CRO, got "
                   ++ actual_text ++ " CRO")
        /\ exists why, verdict.(reason) = Some why
             /\ includes why expected_text = true
             /\ includes why actual_text = true)
    /\ (expectedValue <= tx.(value) ->
        forall currentBlock,
          client.(getBlockNumber) = Return currentBlock ->
          Spec.safe_integer (currentBlock - the_receipt.(blockNumber)) ->
          minConfirmations <= currentBlock - the_receipt.(blockNumber) ->
          verdict
          = {| valid := true; txHash := Some hash; receipt := Some the_receipt;
               error := None; reason := None |}).
Proof.
  intros rn idn Number client hash expectedRecipient expectedAmount
         minConfirmations the_receipt tx expectedValue
         Hexact Hr Hs Ht Hto Hv verdict expected_text actual_text.
  assert (Hunder := underpayment_rejected rn idn Number client hash
            expectedRecipient expectedAmount minConfirmations the_receipt tx
            expectedValue Hr Hs Ht Hto Hv).
  fold verdict expected_text actual_text in Hunder.
  split; [|split].
  - exact (amount_error_iff rn idn Number client hash expectedRecipient
             expectedAmount minConfirmations the_receipt tx expectedValue
             Hr Hs Ht Hto Hv).
  - intros Hlt. rewrite (Hunder Hlt). cbn [valid error reason].
    repeat (split; [reflexivity|]).
    eexists. split; [reflexivity|]. split.
    + apply includes_middle.
    + apply includes_after.
  - intros Hle currentBlock Hb Hsafe Hdepth.
    exact (deep_transfer_accepted rn idn Number Hexact client hash
             expectedRecipient expectedAmount minConfirmations the_receipt tx
             expectedValue Hr Hs Ht Hto Hv currentBlock Hle Hb Hsafe Hdepth).
Qed.

(** The theorem at a transfer of 0.05 where 0.1 is expected: rejected,
    and the reason shows both amounts. *)
Lemma underpayment_is_rejected_overpayment_accepted_witness :
  let verdict :=
    verifyCroPayment Samples.no_rounding Samples.invalid_decimal
      Samples.Number_of_safe_integer (Samples.sample_chain (5 * 10 ^ 16) 200)
      Samples.sample_hash Samples.payee "0.1" default_minConfirmations in
  verdict.(valid) = false
  /\ verdict.(error) = Some "Insufficient amount"
  /\ verdict.(reason) = Some "Expected 0.1 CRO, got 0.05 CRO".
Proof.
  destruct (proj1 (proj2 (underpayment_is_rejected_overpayment_accepted
                  Samples.no_rounding Samples.invalid_decimal
                  Samples.Number_of_safe_integer
                  (Samples.sample_chain (5 * 10 ^ 16) 200)
                  Samples.sample_hash Samples.payee "0.1" default_minConfirmations
                  Samples.sample_receipt
                  {| to := Some Samples.payee; value := 5 * 10 ^ 16 |}
                  (10 ^ 17)
                  (fun z _ => eq_refl) eq_refl eq_refl eq_refl eq_refl eq_refl))
             eq_refl)
    as (Hvalid & Herror & Hreason & _).
  exact (conj Hvalid (conj Herror Hreason)).
Defined.

End DirectTransferFacts.

(** ** The capability check of the signing strategy *)

Module StrategyFacts.

Import JsString CronosConstants CronosStrategy.

Lemma userHasWallets_iff (userWallets : list Db.UserWallet) (uid : string) :
  Db.userHasWallets userWallets uid = true
  <-> Spec.has_usable_wallet userWallets uid.
Proof.
  unfold Db.userHasWallets, Spec.has_usable_wallet.
  set (p := fun w => ((Db.userId w =? uid)%string && Db.isActive w)%bool).
  split.
  - intros H. destruct (filter p userWallets) as [|w rest] eqn:Hf;
      [discriminate H|].
    assert (Hin : In w (filter p userWallets)) by (rewrite Hf; now left).
    apply filter_In in Hin as [Hin Hp]. unfold p in Hp.
    apply andb_prop in Hp as [Hu Ha]. apply String.eqb_eq in Hu.
    exists w. auto.
  - intros (w & Hin & Hu & Ha).
    assert (Hf : In w (filter p userWallets)).
    { apply filter_In. split; [exact Hin|]. unfold p.
      rewrite Ha. apply String.eqb_eq in Hu. now rewrite Hu. }
    destruct (filter p userWallets); [contradiction | reflexivity].
Qed.

Lemma isCronosNetwork_iff (network : string) :
  isCronosNetwork network = true <-> Spec.known_network network.
Proof.
  unfold isCronosNetwork, Spec.known_network.
  rewrite orb_true_iff, !String.eqb_eq. reflexivity.
Qed.

(** C8, as stated, fails: with a usable wallet and a known network the
    check answers true for the asset "0x0", which is neither the stable
    asset of the network nor the zero address. *)
Lemma canSign_accepts_short_zero_asset :
  canSign Samples.one_wallet Samples.short_zero_context = true
  /\ Spec.has_usable_wallet Samples.one_wallet "user-1"
  /\ Spec.known_network "cronos-mainnet"
  /\ ~ (Spec.is_stable_asset "cronos-mainnet" "0x0"
        \/ Spec.is_native_sentinel "0x0").
Proof.
  split; [reflexivity|].
  split; [apply userHasWallets_iff; reflexivity|].
  split; [now left|].
  intros [H|H]; vm_compute in H; discriminate H.
Qed.

(** C8, amended: [canSign] answers true exactly when the payer has an
    active wallet, the network of the requirement is one of the two
    Cronos networks, and the asset of the requirement is the stable asset
    of that network or the zero address, either compared without regard
    to letter case, or is the literal "0x0". *)
Theorem canSign_iff :
  forall (userWallets : list Db.UserWallet) (context : PaymentSigningContext),
    let requirement := context.(paymentRequirement) in
    canSign userWallets context = true
    <-> Spec.has_usable_wallet userWallets context.(user).(id)
        /\ Spec.known_network requirement.(network)
        /\ (Spec.is_stable_asset requirement.(network) requirement.(asset)
            \/ Spec.is_native_sentinel requirement.(asset)
            \/ requirement.(asset) = "0x0").
Proof.
  intros userWallets context requirement. subst requirement.
  rewrite <- userHasWallets_iff, <- isCronosNetwork_iff.
  unfold canSign, Spec.is_stable_asset, Spec.is_native_sentinel.
  destruct (Db.userHasWallets userWallets _); cbn [negb];
    [|split; [discriminate | intros [H _]; discriminate H]].
  destruct (isCronosNetwork _); cbn [negb];
    [|split; [discriminate | intros (_ & H & _); discriminate H]].
  rewrite !orb_true_iff, !String.eqb_eq.
  split.
  - intros [H|[[H|H]|H]]; repeat split; auto.
    right. left. now rewrite H.
  - intros (_ & _ & [H|[H|H]]); auto.
Qed.

End StrategyFacts.

(** ** The repository's unit tests, replayed on the model *)

Module UnitTests.

Import Eip3009Signer.

(** eip3009-signer.test.ts, "should handle different USDC amounts
    correctly". *)
Example usdc_amounts :
  map (fun amount => Viem.parseUnits Samples.no_rounding amount 6)
      ["0.01"; "1"; "100"; "0.001"]
  = [Some 10000; Some 1000000; Some 100000000; Some 1000].
Proof. reflexivity. Qed.

(** "should generate a 32-byte hex nonce" *)
Example nonce_matches_pattern :
  Spec.is_bytes32_hex (generateNonce Samples.sample_clock (repeat Byte.xab 24))
  = true.
Proof. reflexivity. Qed.

(** "should reject negative amount", "should reject expired
    authorization", "should reject not-yet-valid authorization" and
    "should reject invalid nonce format", each on the sample
    authorization with one field changed. *)
Example validator_rejections :
  let a := Samples.signed_authorization.(authorization) in
  let at_clock := validateTransferAuthorization Samples.sample_clock in
  at_clock a = ok
  /\ at_clock {| from := a.(from); to := a.(to); value := -100;
                 validAfter := a.(validAfter); validBefore := a.(validBefore);
                 nonce := a.(nonce) |}
     = invalid "Transfer amount must be positive"
  /\ at_clock {| from := a.(from); to := a.(to); value := a.(value);
                 validAfter := a.(validAfter);
                 validBefore := 1730000000 - 3600;
                 nonce := a.(nonce) |}
     = invalid "Authorization has expired"
  /\ at_clock {| from := a.(from); to := a.(to); value := a.(value);
                 validAfter := 1730000000 + 3600;
                 validBefore := a.(validBefore);
                 nonce := a.(nonce) |}
     = invalid "Authorization not yet valid"
  /\ at_clock {| from := a.(from); to := a.(to); value := a.(value);
                 validAfter := a.(validAfter); validBefore := a.(validBefore);
                 nonce := "0x123" |}
     = invalid "Invalid nonce format".
Proof. repeat split; reflexivity. Qed.

(** cro-payment.test.ts, "should reject transfer to zero address" and
    "should build valid CRO transaction". *)
Example cro_transaction_tests :
  option_map CroTransactions.validateCroTransaction
    (CroTransactions.buildCroTransaction Samples.no_rounding Samples.payer
       CronosConstants.CRO_ADDRESS "1" "cronos-testnet")
  = Some (invalid "Cannot transfer to zero address")
  /\ CroTransactions.buildCroTransaction Samples.no_rounding Samples.payer
       Samples.payee "0.1" "cronos-testnet"
     = Some {| CroTransactions.from := Samples.payer;
               CroTransactions.to := Samples.payee;
               CroTransactions.value := 100000000000000000;
               CroTransactions.chainId := 338;
               CroTransactions.nonce := None;
               CroTransactions.gasLimit := Some 21000;
               CroTransactions.maxFeePerGas := None;
               CroTransactions.maxPriorityFeePerGas := None |}.
Proof. split; reflexivity. Qed.

(** A transfer with exactly the required two confirmations is accepted,
    and an overpayment is. *)
Example direct_transfer_accepted :
  (CroPayment.verifyCroPayment Samples.no_rounding Samples.invalid_decimal
     Samples.Number_of_safe_integer (Samples.sample_chain (2 * 10 ^ 17) 102)
     Samples.sample_hash Samples.payee "0.1"
     CroPayment.default_minConfirmations).(CroPayment.valid)
  = true.
Proof. reflexivity. Qed.

End UnitTests.

(** ** Decimal strings and BigInt *)

Module BigIntFacts.

Import JsString JsBigInt.

Lemma digit_is_decimal (c : ascii) :
  Viem.is_digit c = true ->
  digit_of 10 c = Some (Viem.digit_value c) /\ is_white_space c = false.
Proof.
  unfold Viem.is_digit, digit_of, Viem.digit_value, is_white_space.
  set (n := N_of_ascii c). intros H.
  apply andb_prop in H as [H1 H2].
  apply N.leb_le in H1. apply N.leb_le in H2.
  split.
  - destruct (Z.leb_spec 48 (Z.of_N n)); [|lia].
    destruct (Z.leb_spec (Z.of_N n) 57); [|lia]. cbn [andb].
    destruct (Z.ltb_spec (Z.of_N n - 48) 10); [reflexivity | lia].
  - destruct (N.leb_spec 9 n); [|lia].
    destruct (N.leb_spec n 13); [lia|].
    destruct (N.eqb_spec n 32); [lia|].
    destruct (N.eqb_spec n 160); [lia | reflexivity].
Qed.

Lemma digits_value_decimal (s : string) :
  Viem.all_digits s = true ->
  forall acc,
    digits_value 10 s acc
    = Some (fold_left (fun a c => 10 * a + Viem.digit_value c)
                      (list_ascii_of_string s) acc).
Proof.
  induction s as [|c s IH]; intros H acc; [reflexivity|].
  cbn [Viem.all_digits] in H. apply andb_prop in H as [Hc Hs].
  cbn [digits_value list_ascii_of_string fold_left].
  destruct (digit_is_decimal c Hc) as [-> _]. now apply IH.
Qed.

Lemma trim_end_digits (s : string) :
  Viem.all_digits s = true -> trim_end s = s.
Proof.
  induction s as [|c s IH]; intros H; [reflexivity|].
  cbn [Viem.all_digits] in H. apply andb_prop in H as [Hc Hs].
  cbn [trim_end]. destruct (digit_is_decimal c Hc) as [_ ->].
  cbn [andb]. now rewrite IH.
Qed.

Lemma radix_letter_is_no_digit (c : ascii) :
  Viem.is_digit c = true ->
  ((c =? "x") || (c =? "X"))%char = false
  /\ ((c =? "o") || (c =? "O"))%char = false
  /\ ((c =? "b") || (c =? "B"))%char = false
  /\ (c =? "-")%char = false /\ (c =? "+")%char = false.
Proof.
  intros H.
  repeat split;
    repeat match goal with
           | |- (_ || _)%bool = false => apply orb_false_intro
           end;
    apply Ascii.eqb_neq; intros ->; discriminate H.
Qed.

(** [BigInt] reads a run of decimal digits, and one behind a minus
    sign, as [parseUnits] does. *)
Lemma BigInt_decimal (s : string) :
  Viem.all_digits s = true -> s <> EmptyString ->
  BigInt s = Some (Viem.BigInt_digits s)
  /\ BigInt (String "-" s) = Some (- Viem.BigInt_digits s).
Proof.
  intros Hs Hne.
  destruct s as [|c0 r0]; [contradiction|].
  pose proof Hs as Hs'. cbn [Viem.all_digits] in Hs'.
  apply andb_prop in Hs' as [Hc0 Hr0].
  destruct (digit_is_decimal c0 Hc0) as [_ Hw0].
  destruct (radix_letter_is_no_digit c0 Hc0) as (_ & _ & _ & Hm & Hp).
  assert (Hv : digits1 10 (String c0 r0) = Some (Viem.BigInt_digits (String c0 r0))).
  { unfold digits1, Viem.BigInt_digits. now apply digits_value_decimal. }
  assert (Ht : trim_end (String c0 r0) = String c0 r0) by now apply trim_end_digits.
  split.
  - unfold BigInt. cbn [trim_start]. rewrite Hw0, Ht.
    destruct r0 as [|c1 r1]; [exact Hv|].
    cbn [Viem.all_digits] in Hr0. apply andb_prop in Hr0 as [Hc1 _].
    destruct (radix_letter_is_no_digit c1 Hc1) as (Hx & Ho & Hb & _ & _).
    unfold integer_literal, radix_of. rewrite Hx, Ho, Hb, Hm, Hp.
    destruct (c0 =? "0")%char; exact Hv.
  - unfold BigInt.
    change (trim_start (String "-" (String c0 r0))) with (String "-" (String c0 r0)).
    change (trim_end (String "-" (String c0 r0)))
      with (String "-" (trim_end (String c0 r0))).
    rewrite Ht.
    change (integer_literal (String "-" (String c0 r0)))
      with (option_map Z.opp (digits1 10 (String c0 r0))).
    rewrite Hv. reflexivity.
Qed.

Lemma uint_digits (d : Decimal.uint) :
  Viem.all_digits (NilEmpty.string_of_uint d) = true.
Proof. induction d; simpl; auto. Qed.

Lemma uint_value_acc (d : Decimal.uint) :
  forall acc : positive,
    digits_value 10 (NilEmpty.string_of_uint d) (Z.pos acc)
    = Some (Z.pos (Pos.of_uint_acc d acc)).
Proof.
  induction d; intros acc; cbn [NilEmpty.string_of_uint Pos.of_uint_acc];
    [reflexivity| | | | | | | | | |];
    cbn [digits_value];
    match goal with
    | |- match digit_of 10 ?c with _ => _ end = _ =>
        change (digit_of 10 c) with (Some (Viem.digit_value c))
    end;
    cbv beta iota;
    match goal with
    | |- digits_value 10 _ ?z = Some (Z.pos (Pos.of_uint_acc _ ?p)) =>
        replace z with (Z.pos p)
          by (set (k := Viem.digit_value _); vm_compute in k; subst k; lia)
    end;
    apply IHd.
Qed.

Lemma uint_value (d : Decimal.uint) :
  digits_value 10 (NilEmpty.string_of_uint d) 0 = Some (Z.of_N (Pos.of_uint d)).
Proof.
  induction d; cbn [NilEmpty.string_of_uint Pos.of_uint];
    [reflexivity | exact IHd | | | | | | | | |];
    cbn [digits_value];
    match goal with
    | |- match digit_of 10 ?c with _ => _ end = _ =>
        change (digit_of 10 c) with (Some (Viem.digit_value c))
    end;
    cbv beta iota;
    match goal with
    | |- digits_value 10 _ ?z = Some (Z.of_N (N.pos (Pos.of_uint_acc _ ?p))) =>
        change z with (Z.pos p)
    end;
    apply uint_value_acc.
Qed.

(** The decimal text of a positive number: digits, at least one, whose
    value is the number. *)
Lemma positive_text (p : positive) :
  let s := NilEmpty.string_of_uint (Pos.to_uint p) in
  Viem.all_digits s = true /\ s <> EmptyString
  /\ Viem.BigInt_digits s = Z.pos p.
Proof.
  intros s. subst s.
  pose proof (uint_digits (Pos.to_uint p)) as Hd.
  split; [exact Hd|]. split.
  - pose proof (DecimalPos.Unsigned.to_uint_nonnil p) as Hn.
    destruct (Pos.to_uint p); [contradiction | discriminate..].
  - pose proof (uint_value (Pos.to_uint p)) as Hv.
    rewrite (digits_value_decimal _ Hd), DecimalPos.Unsigned.of_to in Hv.
    injection Hv as Hv. exact Hv.
Qed.

Lemma of_Z_shape (z : Z) :
  of_Z z = match z with
           | 0 => "0"
           | Z.pos p => NilEmpty.string_of_uint (Pos.to_uint p)
           | Z.neg p => String "-" (NilEmpty.string_of_uint (Pos.to_uint p))
           end.
Proof.
  unfold of_Z, NilZero.string_of_int, NilZero.string_of_uint.
  destruct z as [|p|p]; [reflexivity| |]; cbn [Z.to_int];
    pose proof (DecimalPos.Unsigned.to_uint_nonnil p) as Hn;
    destruct (Pos.to_uint p); (contradiction || reflexivity).
Qed.

(** Writing an integer as a decimal string and reading it back with
    [BigInt] gives the integer. *)
Lemma BigInt_of_Z (z : Z) : BigInt (of_Z z) = Some z.
Proof.
  rewrite of_Z_shape. destruct z as [|p|p]; [reflexivity| |];
    destruct (positive_text p) as (Hd & Hne & Hv);
    destruct (BigInt_decimal _ Hd Hne) as [Hpos Hneg].
  - rewrite Hpos, Hv. reflexivity.
  - rewrite Hneg, Hv. reflexivity.
Qed.

End BigIntFacts.

(** ** The transport of the settlement client *)

Module TransportFacts.

Import JsString Js FacilitatorClient.

(** X1: the transport of the client sends exactly one request for a
    call, whatever comes back; it returns exactly when the service
    answers with a JSON document; and whatever it throws is an [Error]:
    a timeout is reported with the configured timeout, a response that
    is not ok with its status and text, any other [Error] is passed on
    as it is, and a thrown value that is no [Error] is replaced. *)
Theorem transport_sends_one_request_and_throws_errors :
  forall (T : Type) (this : CronosFacilitatorClient)
         (answer : list Call -> FetchResult T)
         (endpoint method : string) (body : option RequestBody)
         (log : list Call),
    let call := fetch this answer endpoint method body in
    calls_made call log
    = [{| url := this.(baseUrl) ++ endpoint; method := method; body := body |}]
    /\ (forall data, result_of call log = Return data <-> answer log = Json data)
    /\ result_of call log <> Throw OtherValue
    /\ (forall message,
          answer log = Rejected (ErrorObject "AbortError" message) ->
          result_of call log
          = Throw (ErrorObject "Error"
                     ("Facilitator request timeout after "
                      ++ of_Z this.(timeout) ++ "ms")))
    /\ (forall name message,
          answer log = Rejected (ErrorObject name message) ->
          name <> "AbortError" ->
          result_of call log = Throw (ErrorObject name message))
    /\ (forall httpStatus text,
          answer log = NotOk httpStatus text ->
          result_of call log
          = Throw (ErrorObject "Error"
                     ("Facilitator API error (" ++ of_Z httpStatus ++ "): "
                      ++ match text with
                         | Some t => t
                         | None => "Unknown error"
                         end))).
Proof.
  intros T this answer endpoint method body log call.
  unfold call, calls_made, result_of, fetch.
  destruct (answer log) as [[name message|]|st text|data] eqn:Ha.
  - destruct (String.eqb_spec name "AbortError") as [->|Hn]; cbn [fst snd].
    + split; [apply SettlementFacts.skipn_own_length|].
      split; [intros d; split; discriminate|].
      split; [discriminate|].
      split; [reflexivity|].
      split; [intros n m Hm Hne; now injection Hm as <- _ | discriminate].
    + split; [apply SettlementFacts.skipn_own_length|].
      split; [intros d; split; discriminate|].
      split; [discriminate|].
      split; [intros m Hm; injection Hm as Hname _; now destruct Hn|].
      split; [intros n m Hm _; now injection Hm as <- <- | discriminate].
  - cbn [fst snd].
    split; [apply SettlementFacts.skipn_own_length|].
    split; [intros d; split; discriminate|].
    repeat split; discriminate.
  - cbn [fst snd].
    split; [apply SettlementFacts.skipn_own_length|].
    split; [intros d; split; discriminate|].
    split; [discriminate|].
    split; [discriminate|]. split; [discriminate|].
    intros st' text' H. now injection H as <- <-.
  - cbn [fst snd].
    split; [apply SettlementFacts.skipn_own_length|].
    split; [intros d; split; intros H; now injection H as <-|].
    repeat split; discriminate.
Qed.

(** Every failure of the transport carries a message. *)
Lemma fetch_throws_error_objects {T} (this : CronosFacilitatorClient)
    (answer : list Call -> FetchResult T) (endpoint method : string)
    (body : option RequestBody) (log : list Call) (e : Thrown) :
  fst (fetch this answer endpoint method body log) = Throw e ->
  exists name message, e = ErrorObject name message.
Proof.
  unfold fetch.
  destruct (answer log) as [[name message|]|st text|data];
    try destruct (name =? "AbortError")%string;
    cbn [fst]; intros H; try discriminate H;
    injection H as <-; eauto.
Qed.

(** The whole of an exchange whose verification is accepted: the
    settlement call, made on the log the verification left. *)
Lemma verifyAndSettle_continues_with_settle
    (service : Facilitator) (this : CronosFacilitatorClient)
    (network token : string)
    (authorization : Eip3009Signer.SignedTransferAuthorization)
    (log : list Call) (vr : VerifyPaymentResponse.t) :
  answer_verify service log (request_body network token authorization None)
    = Json vr ->
  vr.(VerifyPaymentResponse.valid) = true ->
  verifyAndSettle service this network token authorization log
  = settlePayment service this network token authorization
      vr.(VerifyPaymentResponse.verificationId)
      (log ++ [verify_call this network token authorization])%list.
Proof.
  intros Ha Hv.
  unfold verifyAndSettle, bind, verifyPayment, fetch at 1.
  rewrite Ha, Hv. cbn [negb].
  unfold verify_call.
  destruct (settlePayment service this network token authorization _ _)
    as [[r|e] l]; reflexivity.
Qed.

(** X2: when the verification answers [valid = true], [verifyAndSettle]
    sends two requests, the verification and then the settlement; the
    settlement repeats the body of the verification and adds the
    verification id the service returned; and the exchange ends as the
    settlement call ends, with its answer or with its failure. *)
Theorem accepted_verification_is_followed_by_one_settlement :
  forall (service : Facilitator) (this : CronosFacilitatorClient)
         (network token : string)
         (authorization : Eip3009Signer.SignedTransferAuthorization)
         (log : list Call) (vr : VerifyPaymentResponse.t),
    answer_verify service log (request_body network token authorization None)
      = Json vr ->
    vr.(VerifyPaymentResponse.valid) = true ->
    let exchange := verifyAndSettle service this network token authorization in
    let vid := vr.(VerifyPaymentResponse.verificationId) in
    let settle_body := request_body network token authorization vid in
    let log1 := (log ++ [verify_call this network token authorization])%list in
    calls_made exchange log
    = [verify_call this network token authorization;
       settle_call this network token authorization vid]
    /\ settle_body
       = {| network := network; token := token;
            from := (request_body network token authorization None).(from);
            to := (request_body network token authorization None).(to);
            value := (request_body network token authorization None).(value);
            validAfter :=
              (request_body network token authorization None).(validAfter);
            validBefore :=
              (request_body network token authorization None).(validBefore);
            nonce := (request_body network token authorization None).(nonce);
            signature :=
              (request_body network token authorization None).(signature);
            verificationId := vid |}
    /\ (forall sr, answer_settle service log1 settle_body = Json sr ->
                   result_of exchange log = Return sr)
    /\ ((forall sr, answer_settle service log1 settle_body <> Json sr) ->
        exists name message,
          result_of exchange log = Throw (ErrorObject name message)).
Proof.
  intros service this network token authorization log vr Ha Hv
         exchange vid settle_body log1.
  split.
  - exact (SettlementFacts.verifyAndSettle_accepted service this network token
             authorization log vr Ha Hv).
  - split; [reflexivity|].
    unfold exchange, result_of.
    rewrite (verifyAndSettle_continues_with_settle service this network token
               authorization log vr Ha Hv).
    fold vid log1. unfold settlePayment. fold settle_body.
    split.
    + intros sr Hs. unfold fetch. rewrite Hs. reflexivity.
    + intros Hn.
      destruct (fst (fetch this (fun l => answer_settle service l settle_body)
                       CRONOS_FACILITATOR.ENDPOINTS.SETTLE "POST"
                       (Some settle_body) log1)) as [sr|e] eqn:He.
      * exfalso. apply (Hn sr).
        unfold fetch in He.
        destruct (answer_settle service log1 settle_body)
          as [[name message|]|st text|data];
          try destruct (name =? "AbortError")%string;
          cbn [fst] in He; try discriminate He.
        now injection He as <-.
      * destruct (fetch_throws_error_objects _ _ _ _ _ _ _ He)
          as (name & message & ->).
        eauto.
Qed.

(** The theorem at a service that accepts the sample authorization. *)
Lemma accepted_verification_is_followed_by_one_settlement_witness :
  calls_made
    (verifyAndSettle RouteSamples.accepting_service Samples.default_client
       "cronos-testnet" CronosConstants.USDC_ADDRESS.TESTNET
       Samples.signed_authorization) []
  = [verify_call Samples.default_client "cronos-testnet"
       CronosConstants.USDC_ADDRESS.TESTNET Samples.signed_authorization;
     settle_call Samples.default_client "cronos-testnet"
       CronosConstants.USDC_ADDRESS.TESTNET Samples.signed_authorization
       (Some "verification-1")].
Proof.
  exact (proj1 (accepted_verification_is_followed_by_one_settlement
                  RouteSamples.accepting_service Samples.default_client
                  "cronos-testnet" CronosConstants.USDC_ADDRESS.TESTNET
                  Samples.signed_authorization [] _ eq_refl eq_refl)).
Defined.

End TransportFacts.

(** ** POST /api/payment/usdc/submit *)

Module SubmitRouteFacts.

Import JsString Js CronosConstants FacilitatorClient PaymentRoutes RouteSpec.

Section Handler.

Variable bigint_syntax_error : string -> Thrown.
Variable service : Facilitator.
Variable dateNow : Z.

Local Abbreviation handler :=
  (submitUsdcPayment bigint_syntax_error service dateNow).

Lemma decode_some (j : AuthorizationJson.t)
    (a : Eip3009Signer.SignedTransferAuthorization) :
  decode j = Some a ->
  exists v va vb,
    JsBigInt.BigInt j.(AuthorizationJson.value) = Some v
    /\ JsBigInt.BigInt j.(AuthorizationJson.validAfter) = Some va
    /\ JsBigInt.BigInt j.(AuthorizationJson.validBefore) = Some vb
    /\ a = {| Eip3009Signer.authorization :=
                {| Eip3009Signer.from := j.(AuthorizationJson.from);
                   Eip3009Signer.to := j.(AuthorizationJson.to);
                   Eip3009Signer.value := v;
                   Eip3009Signer.validAfter := va;
                   Eip3009Signer.validBefore := vb;
                   Eip3009Signer.nonce := j.(AuthorizationJson.nonce) |};
              Eip3009Signer.signature := j.(AuthorizationJson.signature) |}.
Proof.
  unfold decode.
  destruct (JsBigInt.BigInt _) as [v|]; [|discriminate].
  destruct (JsBigInt.BigInt _) as [va|]; [|discriminate].
  destruct (JsBigInt.BigInt _) as [vb|]; [|discriminate].
  intros H. injection H as <-. now exists v, va, vb.
Qed.

(** A body whose integers cannot be read ends in the [catch] clause
    before anything is validated or sent. *)
Lemma unreadable_integer (data : SubmitUsdcPaymentData.t) (log : list Call) :
  isCronosNetwork data.(SubmitUsdcPaymentData.network) = true ->
  decode data.(SubmitUsdcPaymentData.authorization) = None ->
  exists s,
    handler (Parsed data) log
    = (respond (SubmitJson.failure "Internal server error" None None
                  (Some (message_or (bigint_syntax_error s) "Unknown error")))
               500, log).
Proof.
  intros Hn Hd.
  unfold submitUsdcPayment, submitUsdcPayment_try, bind, BigInt_or_throw,
    ret, throw.
  rewrite Hn. cbn [negb]. unfold decode in Hd.
  destruct (JsBigInt.BigInt _) as [v|]; [|eexists; reflexivity].
  destruct (JsBigInt.BigInt _) as [va|]; [|eexists; reflexivity].
  destruct (JsBigInt.BigInt _) as [vb|]; [discriminate Hd | eexists; reflexivity].
Qed.

Lemma invalid_authorization (data : SubmitUsdcPaymentData.t)
    (auth : Eip3009Signer.SignedTransferAuthorization) (log : list Call) :
  isCronosNetwork data.(SubmitUsdcPaymentData.network) = true ->
  decode data.(SubmitUsdcPaymentData.authorization) = Some auth ->
  (Eip3009Signer.validateTransferAuthorization dateNow
     auth.(Eip3009Signer.authorization)).(Eip3009Signer.valid) = false ->
  handler (Parsed data) log
  = (respond (SubmitJson.failure "Invalid authorization" None
                (Eip3009Signer.validateTransferAuthorization dateNow
                   auth.(Eip3009Signer.authorization)).(Eip3009Signer.error)
                None) 400, log).
Proof.
  intros Hn Hd Hv.
  apply decode_some in Hd as (v & va & vb & Hv1 & Hv2 & Hv3 & ->).
  unfold submitUsdcPayment, submitUsdcPayment_try, bind, BigInt_or_throw,
    ret, throw.
  rewrite Hn, Hv1, Hv2, Hv3. cbn [negb Eip3009Signer.authorization] in *.
  rewrite Hv. reflexivity.
Qed.

(** An admitted submission is handed to [verifyAndSettle] with the
    default client and the stable asset of the network; the handler
    answers by what comes back. *)
Lemma admitted_submission (body : RequestBody SubmitUsdcPaymentData.t)
    (network : string) (auth : Eip3009Signer.SignedTransferAuthorization)
    (log : list Call) :
  admitted dateNow body = Some (network, auth) ->
  handler body log
  = match verifyAndSettle service FacilitatorDiscovery.defaultClient network
            (getUsdcAddress network) auth log with
    | (Return result, log') =>
        (if negb result.(SettlePaymentResponse.success)
            || falsy result.(SettlePaymentResponse.txHash)
         then respond
                (SubmitJson.failure "Payment settlement failed" None
                   (or_else result.(SettlePaymentResponse.reason)
                            result.(SettlePaymentResponse.error)) None) 500
         else respond
                {| SubmitJson.success := true;
                   SubmitJson.error := None;
                   SubmitJson.details := None;
                   SubmitJson.reason := None;
                   SubmitJson.txHash :=
                     Some (match result.(SettlePaymentResponse.txHash) with
                           | Some h => h
                           | None => EmptyString
                           end);
                   SubmitJson.message := Some "Payment settled successfully";
                   SubmitJson.network := Some network;
                   SubmitJson.explorerUrl :=
                     Some (getExplorerUrl network
                             (match result.(SettlePaymentResponse.txHash) with
                              | Some h => h
                              | None => EmptyString
                              end)) |} 200,
         log')
    | (Throw e, log') =>
        (respond (SubmitJson.failure "Internal server error" None None
                    (Some (message_or e "Unknown error"))) 500, log')
    end.
Proof.
  unfold admitted. destruct body as [e|issues|data]; try discriminate.
  destruct (isCronosNetwork _) eqn:Hn; [|discriminate].
  destruct (decode _) as [a|] eqn:Hd; [|discriminate].
  destruct (Eip3009Signer.valid _) eqn:Hv; [|discriminate].
  intros H. injection H as <- <-.
  apply decode_some in Hd as (v & va & vb & Hv1 & Hv2 & Hv3 & ->).
  unfold submitUsdcPayment, submitUsdcPayment_try, BigInt_or_throw.
  rewrite Hn, Hv1, Hv2, Hv3. cbn [negb].
  unfold bind at 1 2 3. unfold ret at 1 2 3.
  cbn [Eip3009Signer.authorization] in *. rewrite Hv. cbn [negb].
  unfold bind.
  destruct (verifyAndSettle _ _ _ _ _ log) as [[result|e] log']; [|reflexivity].
  destruct (negb _ || falsy _); reflexivity.
Qed.

(** Whatever is not admitted is answered without a request. *)
Lemma not_admitted (body : RequestBody SubmitUsdcPaymentData.t)
    (log : list Call) :
  admitted dateNow body = None ->
  snd (handler body log) = log
  /\ (fst (handler body log)).(json).(SubmitJson.success) = false
  /\ (fst (handler body log)).(json).(SubmitJson.txHash) = None
  /\ ((fst (handler body log)).(httpStatus) = 400
      \/ (fst (handler body log)).(httpStatus) = 500).
Proof.
  unfold admitted. destruct body as [e|issues|data].
  - intros _. cbn. auto.
  - intros _. cbn. auto.
  - destruct (isCronosNetwork _) eqn:Hn.
    + destruct (decode _) as [a|] eqn:Hd.
      * destruct (Eip3009Signer.valid _) eqn:Hv; [discriminate|].
        intros _. rewrite (invalid_authorization data a log Hn Hd Hv).
        cbn. auto.
      * intros _. destruct (unreadable_integer data log Hn Hd) as [s ->].
        cbn. auto.
    + intros _.
      unfold submitUsdcPayment, submitUsdcPayment_try. rewrite Hn.
      cbn. auto.
Qed.

End Handler.

(** The log an exchange leaves starts with the verification request. *)
Lemma verifyAndSettle_log (service : Facilitator)
    (this : CronosFacilitatorClient) (network token : string)
    (authorization : Eip3009Signer.SignedTransferAuthorization)
    (log : list Call) :
  exists rest,
    snd (verifyAndSettle service this network token authorization log)
    = (log ++ verify_call this network token authorization :: rest)%list.
Proof.
  destruct (answer_verify service log
              (request_body network token authorization None))
    as [e|st text|vr] eqn:Ha.
  - destruct (SettlementFacts.verifyAndSettle_verify_throws service this
                network token authorization log) as [e' ->];
      [intros vr Hvr; rewrite Ha in Hvr; discriminate Hvr|].
    now exists [].
  - destruct (SettlementFacts.verifyAndSettle_verify_throws service this
                network token authorization log) as [e' ->];
      [intros vr Hvr; rewrite Ha in Hvr; discriminate Hvr|].
    now exists [].
  - destruct (VerifyPaymentResponse.valid vr) eqn:Hv.
    + pose proof (SettlementFacts.verifyAndSettle_accepted service this network
                    token authorization log vr Ha Hv) as Hc.
      unfold calls_made in Hc.
      exists [settle_call this network token authorization
                vr.(VerifyPaymentResponse.verificationId)].
      rewrite (TransportFacts.verifyAndSettle_continues_with_settle service this
                 network token authorization log vr Ha Hv).
      unfold settlePayment, fetch.
      destruct (answer_settle service _ _) as [[name message|]|st text|data];
        try destruct (name =? "AbortError")%string;
        cbn [snd]; now rewrite <- app_assoc.
    + rewrite (SettlementFacts.verifyAndSettle_rejected service this network
                 token authorization log vr Ha Hv).
      now exists [].
Qed.

(** X3: [submitUsdcPayment] contacts the facilitator only for a
    submission that passes the local checks.  A body that is unreadable
    or does not match the schema, an unknown network, an integer that
    cannot be read or an authorization the validator rejects is answered
    with [success = false] and status 400 or 500 without any request;
    every answer with status 400 was given without a request; and an
    admitted submission is sent on, first of all as a verification
    request for the stable asset of its network, and answered with
    status 200 or 500. *)
Theorem submission_is_checked_before_any_request :
  forall (bigint_syntax_error : string -> Thrown) (service : Facilitator)
         (dateNow : Z) (body : RequestBody SubmitUsdcPaymentData.t)
         (log : list Call),
    let handler := submitUsdcPayment bigint_syntax_error service dateNow body in
    let answer := response_of handler log in
    (admitted dateNow body = None ->
     requests_sent handler log = []
     /\ answer.(json).(SubmitJson.success) = false
     /\ (answer.(httpStatus) = 400 \/ answer.(httpStatus) = 500))
    /\ (answer.(httpStatus) = 400 -> requests_sent handler log = [])
    /\ (forall network auth,
          admitted dateNow body = Some (network, auth) ->
          (exists rest,
             requests_sent handler log
             = verify_call FacilitatorDiscovery.defaultClient network
                 (getUsdcAddress network) auth :: rest)
          /\ (answer.(httpStatus) = 200 \/ answer.(httpStatus) = 500)).
Proof.
  intros bse service dateNow body log handler answer.
  assert (Hnone : admitted dateNow body = None ->
                  requests_sent handler log = []
                  /\ answer.(json).(SubmitJson.success) = false
                  /\ (answer.(httpStatus) = 400 \/ answer.(httpStatus) = 500)).
  { intros Hn.
    destruct (not_admitted bse service dateNow body log Hn) as (Hl & Hs & _ & Hc).
    unfold requests_sent, answer, response_of, handler. rewrite Hl.
    split; [|split; assumption].
    rewrite <- (app_nil_r log) at 2. apply SettlementFacts.skipn_own_length. }
  assert (Hsome : forall network auth,
            admitted dateNow body = Some (network, auth) ->
            (exists rest,
               requests_sent handler log
               = verify_call FacilitatorDiscovery.defaultClient network
                   (getUsdcAddress network) auth :: rest)
            /\ (answer.(httpStatus) = 200 \/ answer.(httpStatus) = 500)).
  { intros network auth Ha.
    unfold requests_sent, answer, response_of, handler.
    rewrite (admitted_submission bse service dateNow body network auth log Ha).
    destruct (verifyAndSettle_log service FacilitatorDiscovery.defaultClient
                network (getUsdcAddress network) auth log) as [rest Hrest].
    destruct (verifyAndSettle _ _ _ _ _ log) as [[result|e] log'];
      cbn [snd] in Hrest; subst log'; cbn [fst snd].
    - split; [exists rest; apply SettlementFacts.skipn_own_length|].
      destruct (negb _ || falsy _); cbn; auto.
    - split; [exists rest; apply SettlementFacts.skipn_own_length|].
      cbn. auto. }
  split; [exact Hnone|]. split; [|exact Hsome].
  intros H400.
  destruct (admitted dateNow body) as [[network auth]|] eqn:Ha.
  - destruct (Hsome network auth eq_refl) as [_ [H|H]]; congruence.
  - now apply Hnone.
Qed.

(** X4: [submitUsdcPayment] answers with status 200 exactly when the
    submission passes the local checks, the verification answers
    [valid = true], and the settlement answers [success = true] with a
    transaction hash that is not empty; the answer then carries that
    hash, the network and the explorer address of the transaction. *)
Theorem submission_succeeds_exactly_when_settled :
  forall (bigint_syntax_error : string -> Thrown) (service : Facilitator)
         (dateNow : Z) (body : RequestBody SubmitUsdcPaymentData.t)
         (log : list Call),
    let answer :=
      response_of (submitUsdcPayment bigint_syntax_error service dateNow body)
                  log in
    answer.(httpStatus) = 200
    <-> exists network auth vr sr hash,
          admitted dateNow body = Some (network, auth)
          /\ answer_verify service log
               (request_body network (getUsdcAddress network) auth None)
             = Json vr
          /\ vr.(VerifyPaymentResponse.valid) = true
          /\ answer_settle service
               (log ++ [verify_call FacilitatorDiscovery.defaultClient network
                          (getUsdcAddress network) auth])%list
               (request_body network (getUsdcAddress network) auth
                  vr.(VerifyPaymentResponse.verificationId))
             = Json sr
          /\ sr.(SettlePaymentResponse.success) = true
          /\ sr.(SettlePaymentResponse.txHash) = Some hash
          /\ hash <> EmptyString
          /\ answer.(json)
             = {| SubmitJson.success := true;
                  SubmitJson.error := None;
                  SubmitJson.details := None;
                  SubmitJson.reason := None;
                  SubmitJson.txHash := Some hash;
                  SubmitJson.message := Some "Payment settled successfully";
                  SubmitJson.network := Some network;
                  SubmitJson.explorerUrl :=
                    Some (getExplorerUrl network hash) |}.
Proof.
  intros bse service dateNow body log answer. unfold answer, response_of.
  destruct (admitted dateNow body) as [[network auth]|] eqn:Ha.
  2:{ destruct (not_admitted bse service dateNow body log Ha) as (_ & _ & _ & Hc).
      split.
      - intros H. destruct Hc as [Hc|Hc]; congruence.
      - intros (n & a & vr & sr & h & Hx & _). discriminate Hx. }
  rewrite (admitted_submission bse service dateNow body network auth log Ha).
  set (this := FacilitatorDiscovery.defaultClient).
  set (token := getUsdcAddress network).
  destruct (answer_verify service log (request_body network token auth None))
    as [e|st text|vr] eqn:Hverify.
  - destruct (SettlementFacts.verifyAndSettle_verify_throws service this
                network token auth log) as [e' ->];
      [intros vr Hvr; rewrite Hverify in Hvr; discriminate Hvr|].
    split; [discriminate|].
    intros (n & a & vr & sr & h & Hx & Hy & _).
    injection Hx as <- <-. fold token in Hy. rewrite Hverify in Hy. discriminate Hy.
  - destruct (SettlementFacts.verifyAndSettle_verify_throws service this
                network token auth log) as [e' ->];
      [intros vr Hvr; rewrite Hverify in Hvr; discriminate Hvr|].
    split; [discriminate|].
    intros (n & a & vr & sr & h & Hx & Hy & _).
    injection Hx as <- <-. fold token in Hy. rewrite Hverify in Hy. discriminate Hy.
  - destruct (VerifyPaymentResponse.valid vr) eqn:Hvalid.
    + rewrite (TransportFacts.verifyAndSettle_continues_with_settle service this
                 network token auth log vr Hverify Hvalid).
      unfold settlePayment, fetch.
      destruct (answer_settle service _ _) as [[name message|]|st text|sr]
        eqn:Hsettle.
      * split.
        -- destruct (name =? "AbortError")%string; discriminate.
        -- intros (n & a & vr' & sr & h & Hx & Hy & _ & Hz & _).
           injection Hx as <- <-. fold token this in Hy, Hz.
           rewrite Hverify in Hy. injection Hy as <-.
           rewrite Hsettle in Hz. discriminate Hz.
      * split; [discriminate|].
        intros (n & a & vr' & sr & h & Hx & Hy & _ & Hz & _).
        injection Hx as <- <-. fold token this in Hy, Hz.
        rewrite Hverify in Hy. injection Hy as <-.
        rewrite Hsettle in Hz. discriminate Hz.
      * split; [discriminate|].
        intros (n & a & vr' & sr & h & Hx & Hy & _ & Hz & _).
        injection Hx as <- <-. fold token this in Hy, Hz.
        rewrite Hverify in Hy. injection Hy as <-.
        rewrite Hsettle in Hz. discriminate Hz.
      * cbn [fst].
        destruct (SettlePaymentResponse.success sr) eqn:Hsuccess; cbn [negb orb].
        -- destruct (SettlePaymentResponse.txHash sr) as [h|] eqn:Hhash;
             cbn [falsy].
           ++ destruct (String.eqb_spec h EmptyString) as [->|Hne].
              ** split; [discriminate|].
                 intros (n & a & vr' & sr' & h' & Hx & Hy & _ & Hz & _ & Hh & Hne & _).
                 injection Hx as <- <-. fold token this in Hy, Hz.
                 rewrite Hverify in Hy. injection Hy as <-.
                 rewrite Hsettle in Hz. injection Hz as <-.
                 rewrite Hhash in Hh. injection Hh as <-. now destruct Hne.
              ** split; [|reflexivity].
                 intros _. exists network, auth, vr, sr, h.
                 fold token this. repeat split; auto.
           ++ split; [discriminate|].
              intros (n & a & vr' & sr' & h' & Hx & Hy & _ & Hz & _ & Hh & _).
              injection Hx as <- <-. fold token this in Hy, Hz.
              rewrite Hverify in Hy. injection Hy as <-.
              rewrite Hsettle in Hz. injection Hz as <-.
              rewrite Hhash in Hh. discriminate Hh.
        -- split; [discriminate|].
           intros (n & a & vr' & sr' & h' & Hx & Hy & _ & Hz & Hs & _).
           injection Hx as <- <-. fold token this in Hy, Hz.
           rewrite Hverify in Hy. injection Hy as <-.
           rewrite Hsettle in Hz. injection Hz as <-.
           rewrite Hsuccess in Hs. discriminate Hs.
    + rewrite (SettlementFacts.verifyAndSettle_rejected service this network
                 token auth log vr Hverify Hvalid).
      cbn. split; [discriminate|].
      intros (n & a & vr' & sr & h & Hx & Hy & Hv & _).
      injection Hx as <- <-. fold token in Hy.
      rewrite Hverify in Hy. injection Hy as <-.
      rewrite Hvalid in Hv. discriminate Hv.
Qed.

(** X5: when the submission passes the local checks and the
    verification answers [valid = false], [submitUsdcPayment] answers
    with status 500 and the error "Payment settlement failed"; its
    reason is the reason of the verification, or "Verification failed"
    when the verification gave none or an empty one; and only the
    verification request was sent. *)
Theorem rejected_verification_is_a_settlement_failure :
  forall (bigint_syntax_error : string -> Thrown) (service : Facilitator)
         (dateNow : Z) (body : RequestBody SubmitUsdcPaymentData.t)
         (log : list Call) (network : string)
         (auth : Eip3009Signer.SignedTransferAuthorization)
         (vr : VerifyPaymentResponse.t),
    admitted dateNow body = Some (network, auth) ->
    answer_verify service log
      (request_body network (getUsdcAddress network) auth None) = Json vr ->
    vr.(VerifyPaymentResponse.valid) = false ->
    let handler := submitUsdcPayment bigint_syntax_error service dateNow body in
    response_of handler log
    = respond (SubmitJson.failure "Payment settlement failed" None
                 (or_else vr.(VerifyPaymentResponse.reason)
                          (Some "Verification failed")) None) 500
    /\ requests_sent handler log
       = [verify_call FacilitatorDiscovery.defaultClient network
            (getUsdcAddress network) auth].
Proof.
  intros bse service dateNow body log network auth vr Ha Hverify Hvalid handler.
  unfold response_of, requests_sent, handler.
  rewrite (admitted_submission bse service dateNow body network auth log Ha).
  rewrite (SettlementFacts.verifyAndSettle_rejected service
             FacilitatorDiscovery.defaultClient network (getUsdcAddress network)
             auth log vr Hverify Hvalid).
  cbn [fst snd SettlePaymentResponse.success SettlePaymentResponse.txHash
       SettlePaymentResponse.reason SettlePaymentResponse.error negb orb].
  split; [reflexivity | apply SettlementFacts.skipn_own_length].
Qed.

(** The theorem at the sample submission and a service that rejects it
    for insufficient balance. *)
Lemma rejected_verification_is_a_settlement_failure_witness :
  let handler :=
    submitUsdcPayment RouteSamples.syntax_error Samples.rejecting_service
      Samples.sample_clock RouteSamples.sample_submission in
  response_of handler []
  = respond (SubmitJson.failure "Payment settlement failed" None
               (Some "Insufficient balance") None) 500
  /\ requests_sent handler []
     = [verify_call FacilitatorDiscovery.defaultClient "cronos-testnet"
          (getUsdcAddress "cronos-testnet") Samples.signed_authorization].
Proof.
  exact (rejected_verification_is_a_settlement_failure
           RouteSamples.syntax_error Samples.rejecting_service
           Samples.sample_clock RouteSamples.sample_submission []
           "cronos-testnet" Samples.signed_authorization _
           eq_refl eq_refl eq_refl).
Defined.

(** X6: the schema asks only that the three integers of an
    authorization be strings.  When one of them is not an integer
    literal, the conversion throws inside the handler, which answers
    with status 500 and "Internal server error", not with 400, and
    sends no request. *)
Theorem unreadable_integer_is_an_internal_error :
  forall (bigint_syntax_error : string -> Thrown) (service : Facilitator)
         (dateNow : Z) (data : SubmitUsdcPaymentData.t) (log : list Call),
    isCronosNetwork data.(SubmitUsdcPaymentData.network) = true ->
    decode data.(SubmitUsdcPaymentData.authorization) = None ->
    let handler :=
      submitUsdcPayment bigint_syntax_error service dateNow (Parsed data) in
    (response_of handler log).(httpStatus) = 500
    /\ (response_of handler log).(json).(SubmitJson.error)
       = Some "Internal server error"
    /\ (response_of handler log).(json).(SubmitJson.success) = false
    /\ requests_sent handler log = [].
Proof.
  intros bse service dateNow data log Hn Hd handler.
  unfold response_of, requests_sent, handler.
  destruct (unreadable_integer bse service dateNow data log Hn Hd) as [s ->].
  cbn [fst snd]. repeat split.
  rewrite <- (app_nil_r log) at 2. apply SettlementFacts.skipn_own_length.
Qed.

(** The theorem at a submission whose amount is written "1.5". *)
Lemma unreadable_integer_is_an_internal_error_witness :
  let handler :=
    submitUsdcPayment RouteSamples.syntax_error RouteSamples.accepting_service
      Samples.sample_clock (Parsed RouteSamples.fractional_submission) in
  (response_of handler []).(httpStatus) = 500
  /\ (response_of handler []).(json).(SubmitJson.error)
     = Some "Internal server error"
  /\ (response_of handler []).(json).(SubmitJson.success) = false
  /\ requests_sent handler [] = [].
Proof.
  exact (unreadable_integer_is_an_internal_error RouteSamples.syntax_error
           RouteSamples.accepting_service Samples.sample_clock
           RouteSamples.fractional_submission [] eq_refl eq_refl).
Defined.

(** X7: the handler reads back what the client writes.  The document of
    a signed authorization, with its integers as the facilitator client
    serializes them, decodes to that authorization; so such a document
    passes the local checks of the handler exactly when its network is
    known and the validator accepts the authorization. *)
Theorem handler_decodes_what_the_client_encodes :
  forall (a : Eip3009Signer.SignedTransferAuthorization)
         (network : string) (dateNow : Z),
    decode (encode a) = Some a
    /\ admitted dateNow
         (Parsed {| SubmitUsdcPaymentData.network := network;
                    SubmitUsdcPaymentData.authorization := encode a |})
       = if isCronosNetwork network
            && (Eip3009Signer.validateTransferAuthorization dateNow
                  a.(Eip3009Signer.authorization)).(Eip3009Signer.valid)
         then Some (network, a) else None.
Proof.
  intros [[from to value validAfter validBefore nonce] signature] network dateNow.
  assert (Hd : decode (encode
                 {| Eip3009Signer.authorization :=
                      {| Eip3009Signer.from := from; Eip3009Signer.to := to;
                         Eip3009Signer.value := value;
                         Eip3009Signer.validAfter := validAfter;
                         Eip3009Signer.validBefore := validBefore;
                         Eip3009Signer.nonce := nonce |};
                    Eip3009Signer.signature := signature |})
               = Some {| Eip3009Signer.authorization :=
                           {| Eip3009Signer.from := from; Eip3009Signer.to := to;
                              Eip3009Signer.value := value;
                              Eip3009Signer.validAfter := validAfter;
                              Eip3009Signer.validBefore := validBefore;
                              Eip3009Signer.nonce := nonce |};
                         Eip3009Signer.signature := signature |}).
  { unfold decode, encode, request_body.
    cbn [AuthorizationJson.value AuthorizationJson.validAfter
         AuthorizationJson.validBefore AuthorizationJson.from
         AuthorizationJson.to AuthorizationJson.nonce
         AuthorizationJson.signature
         FacilitatorClient.value FacilitatorClient.validAfter
         FacilitatorClient.validBefore FacilitatorClient.from
         FacilitatorClient.to FacilitatorClient.nonce
         FacilitatorClient.signature
         Eip3009Signer.authorization Eip3009Signer.signature
         Eip3009Signer.from Eip3009Signer.to Eip3009Signer.value
         Eip3009Signer.validAfter Eip3009Signer.validBefore Eip3009Signer.nonce].
    rewrite !BigIntFacts.BigInt_of_Z. reflexivity. }
  split; [exact Hd|].
  unfold admitted.
  cbn [SubmitUsdcPaymentData.network SubmitUsdcPaymentData.authorization].
  rewrite Hd. destruct (isCronosNetwork network); [|reflexivity].
  cbn [andb]. destruct (Eip3009Signer.valid _); reflexivity.
Qed.

End SubmitRouteFacts.

(** ** What a valid verdict of the direct transfer verifier means *)

Module VerdictFacts.

Import JsString Js CroPayment CronosConstants.

Section Verifier.

Variable round_Number : string -> Z.
Variable invalid_decimal_number : string -> Thrown.
Variable Number : Z -> Z.
Variable client : PublicClient.
Variables hash expectedRecipient expectedAmount : string.
Variable minConfirmations : Z.

Local Abbreviation verdict :=
  (verifyCroPayment round_Number invalid_decimal_number Number client hash
                    expectedRecipient expectedAmount minConfirmations).

Local Abbreviation every_check_passes :=
  (VerdictSpec.every_check_passes round_Number Number client hash
     expectedRecipient expectedAmount minConfirmations).

Lemma recipient_matches_iff (a : option string) :
  recipient_differs a expectedRecipient = false
  <-> exists recipient, a = Some recipient
                        /\ Spec.same_account recipient expectedRecipient.
Proof.
  unfold recipient_differs, Spec.same_account. destruct a as [s|].
  - rewrite negb_false_iff, String.eqb_eq. split.
    + intros H. now exists s.
    + intros (r & Hr & H). now injection Hr as ->.
  - split; [discriminate | intros (r & Hr & _); discriminate Hr].
Qed.

Lemma valid_verdict_inversion :
  verdict.(valid) = true ->
  exists the_receipt tx expectedValue currentBlock,
    every_check_passes the_receipt tx expectedValue currentBlock
    /\ verdict = {| valid := true; txHash := Some hash;
                    receipt := Some the_receipt;
                    error := None; reason := None |}.
Proof.
  unfold verifyCroPayment, verifyCroPayment_try, bind,
    VerdictSpec.every_check_passes.
  destruct (client.(getTransactionReceipt) hash) as [[r|]|e] eqn:Hr;
    try discriminate.
  destruct (status r) eqn:Hs; try discriminate.
  destruct (client.(getTransaction) hash) as [[t|]|e] eqn:Ht; try discriminate.
  destruct (recipient_differs (to t) expectedRecipient) eqn:Hto; try discriminate.
  destruct (Viem.parseUnits round_Number expectedAmount CRO_METADATA.DECIMALS)
    as [ev|] eqn:Hv; try discriminate.
  destruct (Z.ltb_spec (value t) ev); try discriminate.
  destruct client.(getBlockNumber) as [cb|e] eqn:Hb; try discriminate.
  cbv zeta.
  destruct (Z.ltb_spec (Number (cb - blockNumber r)) minConfirmations);
    try discriminate.
  intros _. exists r, t, ev, cb.
  apply recipient_matches_iff in Hto. repeat split; auto.
Qed.

Lemma passing_checks_give_valid_verdict
    (the_receipt : TransactionReceipt) (tx : Transaction)
    (expectedValue currentBlock : Z) :
  every_check_passes the_receipt tx expectedValue currentBlock ->
  verdict = {| valid := true; txHash := Some hash; receipt := Some the_receipt;
               error := None; reason := None |}.
Proof.
  intros (Hr & Hs & Ht & Hto & Hv & Hle & Hb & Hc).
  apply recipient_matches_iff in Hto.
  unfold verifyCroPayment, verifyCroPayment_try, bind.
  rewrite Hr, Hs, Ht, Hto, Hv.
  destruct (Z.ltb_spec (value tx) expectedValue); [lia|].
  rewrite Hb. cbv zeta.
  destruct (Z.ltb_spec (Number (currentBlock - blockNumber the_receipt))
                       minConfirmations); [lia | reflexivity].
Qed.

Lemma invalid_verdict_has_error :
  verdict.(valid) = false ->
  exists why, verdict.(error) = Some why /\ why <> EmptyString.
Proof.
  unfold verifyCroPayment, verifyCroPayment_try, bind.
  assert (Hgo : forall why : string,
             why <> EmptyString ->
             exists w, Some why = Some w /\ w <> EmptyString) by eauto.
  destruct (client.(getTransactionReceipt) hash) as [[r|]|e];
    cbn; try (intros _; apply Hgo; discriminate).
  destruct (status r); cbn; try (intros _; apply Hgo; discriminate).
  destruct (client.(getTransaction) hash) as [[t|]|e];
    cbn; try (intros _; apply Hgo; discriminate).
  destruct (recipient_differs (to t) expectedRecipient);
    cbn; try (intros _; apply Hgo; discriminate).
  destruct (Viem.parseUnits round_Number expectedAmount CRO_METADATA.DECIMALS)
    as [ev|]; cbn; try (intros _; apply Hgo; discriminate).
  destruct (value t <? ev); cbn; try (intros _; apply Hgo; discriminate).
  destruct client.(getBlockNumber) as [cb|e];
    cbn; try (intros _; apply Hgo; discriminate).
  destruct (_ <? minConfirmations); cbn;
    [intros _; apply Hgo; discriminate | discriminate].
Qed.

End Verifier.

(** X8: [verifyCroPayment] answers valid exactly when every check
    passes: the receipt exists and reports success, the transaction
    exists and its recipient is the expected one up to letter case, the
    expected amount is a decimal number that the transferred value
    reaches, the block number can be read and the confirmations reach
    the minimum.  A valid verdict carries the hash and the receipt and
    no error; a verdict that is not valid always names an error, which
    is not the empty string. *)
Theorem verdict_is_valid_exactly_when_every_check_passes :
  forall (round_Number : string -> Z) (invalid_decimal_number : string -> Thrown)
         (Number : Z -> Z) (client : PublicClient)
         (hash expectedRecipient expectedAmount : string) (minConfirmations : Z),
    let verdict :=
      verifyCroPayment round_Number invalid_decimal_number Number client hash
                       expectedRecipient expectedAmount minConfirmations in
    (verdict.(valid) = true
     <-> exists the_receipt tx expectedValue currentBlock,
           VerdictSpec.every_check_passes round_Number Number client hash
             expectedRecipient expectedAmount minConfirmations the_receipt tx
             expectedValue currentBlock)
    /\ (verdict.(valid) = true ->
        verdict.(txHash) = Some hash
        /\ (exists the_receipt,
              client.(getTransactionReceipt) hash = Return (Some the_receipt)
              /\ verdict.(receipt) = Some the_receipt)
        /\ verdict.(error) = None /\ verdict.(reason) = None)
    /\ (verdict.(valid) = false ->
        exists why, verdict.(error) = Some why /\ why <> EmptyString).
Proof.
  intros rn idn Number client hash rec amt minc verdict. subst verdict.
  split; [split|split].
  - intros H.
    destruct (valid_verdict_inversion rn idn Number client hash rec amt minc H)
      as (r & t & ev & cb & Hp & _).
    now exists r, t, ev, cb.
  - intros (r & t & ev & cb & Hp).
    now rewrite (passing_checks_give_valid_verdict rn idn Number client hash rec
                   amt minc r t ev cb Hp).
  - intros H.
    destruct (valid_verdict_inversion rn idn Number client hash rec amt minc H)
      as (r & t & ev & cb & Hp & ->).
    cbn. repeat split; auto. exists r. split; [apply Hp | reflexivity].
  - apply invalid_verdict_has_error.
Qed.

(** X9: the expected recipient is compared without regard to letter
    case: two spellings of one address give verdicts that agree on
    validity, error, hash and receipt (the reason of a recipient
    mismatch quotes the spelling it was given). *)
Theorem verdict_ignores_case_of_expected_recipient :
  forall (round_Number : string -> Z) (invalid_decimal_number : string -> Thrown)
         (Number : Z -> Z) (client : PublicClient)
         (hash recipient1 recipient2 expectedAmount : string)
         (minConfirmations : Z),
    Spec.same_account recipient1 recipient2 ->
    let verdict1 :=
      verifyCroPayment round_Number invalid_decimal_number Number client hash
                       recipient1 expectedAmount minConfirmations in
    let verdict2 :=
      verifyCroPayment round_Number invalid_decimal_number Number client hash
                       recipient2 expectedAmount minConfirmations in
    verdict1.(valid) = verdict2.(valid)
    /\ verdict1.(error) = verdict2.(error)
    /\ verdict1.(txHash) = verdict2.(txHash)
    /\ verdict1.(receipt) = verdict2.(receipt).
Proof.
  intros rn idn Number client hash r1 r2 amt minc Hsame v1 v2. subst v1 v2.
  unfold verifyCroPayment, verifyCroPayment_try, bind.
  destruct (client.(getTransactionReceipt) hash) as [[r|]|e]; cbn; auto.
  destruct (status r); cbn; auto.
  destruct (client.(getTransaction) hash) as [[t|]|e]; cbn; auto.
  assert (Hd : recipient_differs (to t) r1 = recipient_differs (to t) r2).
  { unfold recipient_differs, Spec.same_account in *.
    destruct (to t); [now rewrite Hsame | reflexivity]. }
  rewrite Hd. destruct (recipient_differs (to t) r2); cbn; auto.
Qed.

(** X20: a transfer that has been verified stays verified as the chain
    grows: if [verifyCroPayment] answers valid when the head of the
    chain is one block, it answers valid, with the same verdict, when
    the head is any later block (the depths being safe integers). *)
Theorem verified_transfer_stays_verified :
  forall (round_Number : string -> Z) (invalid_decimal_number : string -> Thrown)
         (Number : Z -> Z) (client : PublicClient)
         (hash expectedRecipient expectedAmount : string)
         (minConfirmations head later : Z),
    (forall z, Spec.safe_integer z -> Number z = z) ->
    head <= later ->
    (forall the_receipt,
       client.(getTransactionReceipt) hash = Return (Some the_receipt) ->
       Spec.safe_integer (head - the_receipt.(blockNumber))
       /\ Spec.safe_integer (later - the_receipt.(blockNumber))) ->
    (verifyCroPayment round_Number invalid_decimal_number Number
       (VerdictSpec.at_head client head) hash expectedRecipient expectedAmount
       minConfirmations).(valid) = true ->
    verifyCroPayment round_Number invalid_decimal_number Number
      (VerdictSpec.at_head client later) hash expectedRecipient expectedAmount
      minConfirmations
    = verifyCroPayment round_Number invalid_decimal_number Number
        (VerdictSpec.at_head client head) hash expectedRecipient expectedAmount
        minConfirmations.
Proof.
  intros rn idn Number client hash rec amt minc head later Hexact Hle Hsafe Hv.
  destruct (valid_verdict_inversion rn idn Number _ hash rec amt minc Hv)
    as (r & t & ev & cb & Hp & ->).
  destruct Hp as (Hr & Hs & Ht & Hto & Hev & Hamt & Hb & Hc).
  cbn [VerdictSpec.at_head getTransactionReceipt getTransaction getBlockNumber]
    in Hr, Ht, Hb.
  injection Hb as <-.
  destruct (Hsafe r Hr) as [Hs1 Hs2].
  rewrite (Hexact _ Hs1) in Hc.
  apply (passing_checks_give_valid_verdict rn idn Number
           (VerdictSpec.at_head client later) hash rec amt minc r t ev later).
  unfold VerdictSpec.every_check_passes.
  cbn [VerdictSpec.at_head getTransactionReceipt getTransaction getBlockNumber].
  rewrite (Hexact _ Hs2). repeat split; auto. lia.
Qed.

(** The theorem at the sample transfer, mined in block 100, seen at the
    heads 102 and 150. *)
Lemma verified_transfer_stays_verified_witness :
  verifyCroPayment Samples.no_rounding Samples.invalid_decimal
    Samples.Number_of_safe_integer
    (VerdictSpec.at_head (Samples.sample_chain (10 ^ 17) 0) 150)
    Samples.sample_hash Samples.payee "0.1" 2
  = verifyCroPayment Samples.no_rounding Samples.invalid_decimal
      Samples.Number_of_safe_integer
      (VerdictSpec.at_head (Samples.sample_chain (10 ^ 17) 0) 102)
      Samples.sample_hash Samples.payee "0.1" 2.
Proof.
  apply (verified_transfer_stays_verified Samples.no_rounding
           Samples.invalid_decimal Samples.Number_of_safe_integer
           (Samples.sample_chain (10 ^ 17) 0) Samples.sample_hash Samples.payee
           "0.1" 2 102 150).
  - intros z _. reflexivity.
  - lia.
  - intros r Hr. injection Hr as <-.
    unfold Spec.safe_integer. cbn. lia.
  - reflexivity.
Defined.

(** The theorem at the sample chain, with the recipient spelled in
    capitals and in lower case. *)
Lemma verdict_ignores_case_of_expected_recipient_witness :
  let verdict1 :=
    verifyCroPayment Samples.no_rounding Samples.invalid_decimal
      Samples.Number_of_safe_integer (Samples.sample_chain (10 ^ 17) 102)
      Samples.sample_hash Samples.payer "0.1" 2 in
  let verdict2 :=
    verifyCroPayment Samples.no_rounding Samples.invalid_decimal
      Samples.Number_of_safe_integer (Samples.sample_chain (10 ^ 17) 102)
      Samples.sample_hash Samples.payer_lower "0.1" 2 in
  verdict1.(valid) = verdict2.(valid)
  /\ verdict1.(error) = verdict2.(error)
  /\ verdict1.(txHash) = verdict2.(txHash)
  /\ verdict1.(receipt) = verdict2.(receipt).
Proof.
  exact (verdict_ignores_case_of_expected_recipient Samples.no_rounding
           Samples.invalid_decimal Samples.Number_of_safe_integer
           (Samples.sample_chain (10 ^ 17) 102) Samples.sample_hash
           Samples.payer Samples.payer_lower "0.1" 2 eq_refl).
Defined.

End VerdictFacts.

(** ** Documents and their serialization *)

Module JsValueFacts.

Import JsString Js JsValue.

Section Values.

Context {number : Type}.

Lemma serializable_members (ps : list (string * JsValue.t number)) :
  (forall k x, In (k, x) ps -> serializable x = true) ->
  serializable (VObject ps) = true.
Proof.
  cbn [serializable].
  induction ps as [|[k x] rest IH]; intros H; [reflexivity|].
  rewrite (H k x (or_introl eq_refl)), orb_true_r. cbn [andb].
  apply IH. intros k' x' Hin. apply (H k' x'). now right.
Qed.

Lemma serializable_items (items : list (JsValue.t number)) :
  (forall x, In x items -> serializable x = true) ->
  serializable (VArray items) = true.
Proof.
  cbn [serializable]. intros H. apply forallb_forall. exact H.
Qed.

(** What [JSON.parse] yields can be written again. *)
Lemma json_is_serializable :
  forall v : JsValue.t number, is_json v = true -> serializable v = true.
Proof.
  fix IH 1. intros [ | |b|n|s|z|items|ps] H; try reflexivity; try discriminate H.
  - apply serializable_items. cbn [is_json] in H.
    induction items as [|x rest IHr]; intros y Hin; [destruct Hin|].
    cbn [forallb] in H. apply andb_prop in H as [Hx Hrest].
    destruct Hin as [<-|Hin]; [apply IH, Hx | apply (IHr Hrest y Hin)].
  - apply serializable_members. cbn [is_json] in H.
    induction ps as [|[k x] rest IHr]; intros k' y Hin; [destruct Hin|].
    cbn [forallb] in H. apply andb_prop in H as [Hx Hrest].
    destruct Hin as [Heq|Hin].
    + injection Heq as _ <-. apply IH, Hx.
    + apply (IHr Hrest k' y Hin).
Qed.

Lemma indexed_values (items : list (JsValue.t number)) :
  forall i k x, In (k, x) (indexed i items) -> In x items.
Proof.
  induction items as [|y rest IH]; intros i k x Hin; [destruct Hin|].
  destruct Hin as [Heq|Hin].
  - injection Heq as _ <-. now left.
  - right. apply (IH (S i) k x Hin).
Qed.

Lemma characters_are_strings (s : string) :
  forall x : JsValue.t number, In x (characters s) -> is_json x = true.
Proof.
  induction s as [|c rest IH]; intros x Hin; [destruct Hin|].
  destruct Hin as [<-|Hin]; [reflexivity | apply IH, Hin].
Qed.

(** The properties a spread copies out of a parsed value are parsed
    values. *)
Lemma own_properties_json (v : JsValue.t number) :
  is_json v = true ->
  forall k x, In (k, x) (own_properties v) -> is_json x = true.
Proof.
  destruct v as [ | |b|n|s|z|items|ps]; intros H k x Hin;
    try (destruct Hin; fail).
  - apply indexed_values in Hin. now apply (characters_are_strings s).
  - apply indexed_values in Hin. cbn [is_json] in H.
    rewrite forallb_forall in H. now apply H.
  - cbn [is_json] in H. rewrite forallb_forall in H. exact (H (k, x) Hin).
Qed.

Lemma serializable_strings (l : list string) :
  serializable (VArray (number:=number) (map VString l)) = true.
Proof.
  apply serializable_items. intros x Hin.
  apply in_map_iff in Hin as (s & <- & _). reflexivity.
Qed.

End Values.

End JsValueFacts.

(** ** POST /api/payment/cro/verify and the liveness handlers *)

Module EndpointFacts.

Import JsString Js CronosConstants FacilitatorClient PaymentRoutes RouteSpec.
Import JsValue.

Lemma optional_string_serializable {number} (a : option string) :
  serializable (optional_string (number:=number) a) = true.
Proof. now destruct a. Qed.

(** The document of a verified payment cannot be written: its receipt
    holds a bigint. *)
Lemma receipt_is_not_serializable {number}
    (r : CroPayment.TransactionReceipt) (before after : list (string * JsValue.t number)) :
  has "receipt" after = false ->
  serializable (VObject (before ++ ("receipt", receipt_value r) :: after)%list)
  = false.
Proof.
  intros Hafter. cbn [serializable].
  induction before as [|[k x] rest IH]; cbn [app].
  - rewrite Hafter. cbn [orb].
    change (serializable (receipt_value (number:=number) r)) with false.
    reflexivity.
  - cbn [app] in IH. rewrite IH. apply andb_false_r.
Qed.

(** X10: [verifyCroPaymentEndpoint] cannot confirm a payment.  The
    handler always answers, with status 400 or 500 and never 200.  A
    transfer that [verifyCroPayment] finds valid is answered with 500
    "Internal server error": the document for it holds the receipt of
    the chain client, whose block number is a bigint, so writing it
    throws a TypeError inside the [try], and the [catch] answers with the
    message of that error.  Status 500 is given in exactly this case and
    when the body cannot be read.  A transfer found invalid is answered
    with 400, the error of the verdict (which is never missing, so the
    fallback text is not used), its reason and its hash. *)
Theorem cro_endpoint_cannot_confirm_a_payment :
  forall (number : Type) (round_Number : string -> Z)
         (invalid_decimal_number : string -> Thrown) (Number : Z -> Z)
         (cannot_serialize_bigint : string)
         (getPublicClient : string -> CroPayment.PublicClient)
         (body : RequestBody VerifyCroPaymentData.t),
    let verdict_of (data : VerifyCroPaymentData.t) :=
      CroPayment.verifyCroPayment round_Number invalid_decimal_number Number
        (getPublicClient data.(VerifyCroPaymentData.network))
        data.(VerifyCroPaymentData.txHash)
        data.(VerifyCroPaymentData.expectedRecipient)
        data.(VerifyCroPaymentData.expectedAmount)
        (match data.(VerifyCroPaymentData.minConfirmations) with
         | Some n => n
         | None => CroPayment.default_minConfirmations
         end) in
    let internal_error (message : string) : Response (JsValue.t number) :=
      respond (VObject [ ("valid", VBool false);
                         ("error", VString "Internal server error");
                         ("message", VString message) ]) 500 in
    exists answer,
      verifyCroPaymentEndpoint number round_Number invalid_decimal_number Number
        cannot_serialize_bigint getPublicClient body = Return answer
      /\ answer.(httpStatus) <> 200
      /\ (answer.(httpStatus) = 400 \/ answer.(httpStatus) = 500)
      /\ (answer.(httpStatus) = 500
          <-> (exists e, body = Unreadable e)
              \/ exists data,
                   body = Parsed data
                   /\ isCronosNetwork data.(VerifyCroPaymentData.network) = true
                   /\ (verdict_of data).(CroPayment.valid) = true)
      /\ (forall e, body = Unreadable e ->
            answer = internal_error (message_or e "Unknown error"))
      /\ (forall data,
            body = Parsed data ->
            isCronosNetwork data.(VerifyCroPaymentData.network) = true ->
            (verdict_of data).(CroPayment.valid) = true ->
            verifyCroPaymentEndpoint_try number round_Number
              invalid_decimal_number Number cannot_serialize_bigint
              getPublicClient body
            = Throw (ErrorObject "TypeError" cannot_serialize_bigint)
            /\ answer = internal_error cannot_serialize_bigint)
      /\ (forall data,
            body = Parsed data ->
            isCronosNetwork data.(VerifyCroPaymentData.network) = true ->
            (verdict_of data).(CroPayment.valid) = false ->
            exists why,
              (verdict_of data).(CroPayment.error) = Some why
              /\ answer
                 = respond
                     (VObject
                        [ ("valid", VBool false);
                          ("error", VString why);
                          ("reason",
                           optional_string (verdict_of data).(CroPayment.reason));
                          ("txHash",
                           optional_string (verdict_of data).(CroPayment.txHash)) ])
                     400).
Proof.
  intros number rn idn Number msg gpc body verdict_of internal_error.
  unfold verifyCroPaymentEndpoint.
  destruct body as [e|issues|data]; cbn [verifyCroPaymentEndpoint_try].
  - eexists. split; [reflexivity|]. cbn [httpStatus respond].
    split; [discriminate|]. split; [auto|].
    split; [split; [eauto | reflexivity]|].
    split; [intros e' H; injection H as <-; reflexivity|].
    split; intros d H; discriminate H.
  - unfold c_json at 1.
    assert (Hs : serializable
                   (VObject (number:=number)
                      [ ("success", VBool false);
                        ("error", VString "Invalid request body");
                        ("details", VArray (map VString issues)) ]) = true).
    { apply JsValueFacts.serializable_members. intros k x Hin.
      cbn [In] in Hin.
      destruct Hin as [H|[H|[H|[]]]]; injection H as _ <-;
        [reflexivity | reflexivity | apply JsValueFacts.serializable_strings]. }
    rewrite Hs.
    eexists. split; [reflexivity|]. cbn [httpStatus respond].
    split; [discriminate|]. split; [auto|].
    split; [split; [discriminate|]|].
    { intros [(x & H)|(d & H & _)]; discriminate H. }
    split; [intros e' H; discriminate H|].
    split; intros d H; discriminate H.
  - destruct (isCronosNetwork (VerifyCroPaymentData.network data)) eqn:Hn;
      cbn [negb].
    + change (match VerifyCroPaymentData.minConfirmations data with
              | Some n => n
              | None => 2
              end)
        with (match VerifyCroPaymentData.minConfirmations data with
              | Some n => n
              | None => CroPayment.default_minConfirmations
              end).
      fold (verdict_of data).
      destruct (CroPayment.valid (verdict_of data)) eqn:Hv; cbn [negb].
      * destruct (VerdictFacts.valid_verdict_inversion rn idn Number _ _ _ _ _ Hv)
          as (r & t & ev & cb & _ & Heq).
        fold (verdict_of data) in Heq. rewrite Heq.
        cbn [CroPayment.txHash CroPayment.receipt].
        assert (Hns : serializable
                        (VObject (number:=number)
                           [ ("valid", VBool true);
                             ("txHash", optional_string
                                          (Some (VerifyCroPaymentData.txHash data)));
                             ("receipt", receipt_value r);
                             ("message", VString "Payment verified successfully");
                             ("network",
                              VString (VerifyCroPaymentData.network data));
                             ("explorerUrl",
                              VString
                                (getExplorerUrl
                                   (VerifyCroPaymentData.network data)
                                   (VerifyCroPaymentData.txHash data))) ])
                      = false).
        { apply (receipt_is_not_serializable r
                   [ ("valid", VBool true);
                     ("txHash", optional_string
                                  (Some (VerifyCroPaymentData.txHash data))) ]).
          reflexivity. }
        unfold c_json at 1 3. rewrite Hns.
        eexists. split; [reflexivity|]. cbn [httpStatus respond].
        split; [discriminate|]. split; [auto|].
        split; [split; [intros _; right; exists data; auto | reflexivity]|].
        split; [intros e' H; discriminate H|].
        split.
        { intros d H _ _. split; reflexivity. }
        intros d H _ Hf. injection H as <-. rewrite Heq in Hf. discriminate Hf.
      * destruct (VerdictFacts.invalid_verdict_has_error rn idn Number _ _ _ _ _ Hv)
          as (why & Hw & Hne).
        fold (verdict_of data) in Hw. rewrite Hw.
        assert (Hor : or_else (Some why) (Some "Payment verification failed")
                      = Some why).
        { unfold or_else. apply String.eqb_neq in Hne. now rewrite Hne. }
        rewrite Hor. unfold c_json at 1.
        assert (Hs : serializable
                       (VObject (number:=number)
                          [ ("valid", VBool false);
                            ("error", optional_string (Some why));
                            ("reason", optional_string
                                         (CroPayment.reason (verdict_of data)));
                            ("txHash", optional_string
                                         (CroPayment.txHash (verdict_of data))) ])
                     = true).
        { apply JsValueFacts.serializable_members. intros k x Hin.
          cbn [In] in Hin.
          destruct Hin as [H|[H|[H|[H|[]]]]]; injection H as _ <-;
            first [reflexivity | apply optional_string_serializable]. }
        rewrite Hs.
        eexists. split; [reflexivity|]. cbn [httpStatus respond].
        split; [discriminate|]. split; [auto|].
        split; [split; [discriminate|]|].
        { intros [(x & H)|(d & H & _ & Hd)]; [discriminate H|].
          injection H as <-. rewrite Hv in Hd. discriminate Hd. }
        split; [intros e' H; discriminate H|].
        split.
        { intros d H _ Hd. injection H as <-. rewrite Hv in Hd. discriminate Hd. }
        intros d H _ _. injection H as <-. exists why. split; [exact Hw | reflexivity].
    + eexists. split; [reflexivity|]. cbn [httpStatus respond].
      split; [discriminate|]. split; [auto|].
      split; [split; [discriminate|]|].
      { intros [(x & H)|(d & H & Hd & _)]; [discriminate H|].
        injection H as <-. rewrite Hn in Hd. discriminate Hd. }
      split; [intros e' H; discriminate H|].
      split; intros d H Hd; injection H as <-; rewrite Hn in Hd; discriminate Hd.
Qed.

Lemma status_read {number} (message : string) (health : JsValue.t number) :
  match health with
  | VUndefined | VNull =>
      FacilitatorDiscovery.status_of message health
      = Throw (ErrorObject "TypeError" message)
  | _ =>
      exists status,
        FacilitatorDiscovery.status_of message health = Return status
        /\ is_string status "healthy" = reports_healthy health
  end.
Proof.
  destruct health as [ | |b|n|s|z|items|ps]; try reflexivity;
    try (eexists; split; reflexivity).
  cbn [FacilitatorDiscovery.status_of reports_healthy].
  eexists. split; [reflexivity|].
  destruct (get "status" ps) as [[ | |b|n|s|z|items|ps']|]; reflexivity.
Qed.

(** X11: the liveness check.  [checkFacilitatorHealth] sends one GET
    request to the health endpoint of the default service and always
    answers, with status 200 or 503.  When the service answers with a
    document other than [null], the handler answers 200 with a copy of
    that document, to which it adds [healthy], true exactly when the
    status of the document is the string "healthy", unless the
    document has a property [healthy] of its own, which then stands.
    On [null] and on any failure of the request it answers 503 with
    [healthy = false], the status "unhealthy" and the message of the
    error.  The strategy's [checkHealth] is true exactly when the
    service answers with a document whose status is "healthy"; the
    [healthy] of the handler agrees with it for every document that
    has no [healthy] of its own. *)
Theorem health_handler_reports_the_service :
  forall (number : Type)
         (cannot_read_properties_of_null cannot_serialize_bigint : string)
         (service : FacilitatorDiscovery.Discovery number) (log : list Call),
    let handler :=
      checkFacilitatorHealth cannot_read_properties_of_null
                             cannot_serialize_bigint service in
    let answer := response_of handler log in
    let alive :=
      fst (StrategyPayments.checkHealth cannot_read_properties_of_null service
             FacilitatorDiscovery.defaultClient log) in
    let failure (message : string) : Response (JsValue.t number) :=
      respond (VObject [ ("healthy", VBool false);
                         ("status", VString "unhealthy");
                         ("error", VString message) ]) 503 in
    requests_sent handler log
    = [{| url := CRONOS_FACILITATOR.BASE_URL ++ "/healthcheck";
          method := "GET"; body := None |}]
    /\ (exists r, answer = Return r
                  /\ (r.(httpStatus) = 200 \/ r.(httpStatus) = 503))
    /\ (forall health,
          FacilitatorDiscovery.answer_health service log = Json health ->
          is_json health = true -> health <> VNull ->
          exists document,
            answer = Return (respond (VObject document) 200)
            /\ forall k,
                 get k document
                 = match get k (own_properties health) with
                   | Some v => Some v
                   | None =>
                       if (k =? "healthy")%string
                       then Some (VBool (reports_healthy health))
                       else None
                   end)
    /\ (FacilitatorDiscovery.answer_health service log = Json VNull ->
        answer = Return (failure cannot_read_properties_of_null))
    /\ ((forall health,
           FacilitatorDiscovery.answer_health service log <> Json health) ->
        exists name message,
          result_of (FacilitatorDiscovery.healthCheck service
                       FacilitatorDiscovery.defaultClient) log
          = Throw (ErrorObject name message)
          /\ answer = Return (failure message))
    /\ (alive = true
        <-> exists health,
              FacilitatorDiscovery.answer_health service log = Json health
              /\ reports_healthy health = true)
    /\ (forall health document,
          FacilitatorDiscovery.answer_health service log = Json health ->
          answer = Return (respond (VObject document) 200) ->
          get "healthy" (own_properties health) = None ->
          get "healthy" document = Some (VBool alive)).
Proof.
  intros number nullmsg bigmsg service log handler answer alive failure.
  subst handler answer alive failure.
  unfold requests_sent, response_of, checkFacilitatorHealth,
    checkFacilitatorHealth_try, StrategyPayments.checkHealth, result_of,
    FacilitatorDiscovery.healthCheck, FacilitatorClient.bind, settled, fetch.
  destruct (FacilitatorDiscovery.answer_health service log)
    as [[name message|]|st text|health] eqn:Ha.
  - destruct (name =? "AbortError")%string; cbn [fst snd];
      (split; [apply SettlementFacts.skipn_own_length|]);
      (split; [eexists; split; [reflexivity | cbn; auto]|]);
      (split; [intros h H; discriminate H|]);
      (split; [intros H; discriminate H|]);
      (split; [intros _; eexists; eexists; split; reflexivity|]);
      (split; [split; [discriminate | intros (h & H & _); discriminate H]|]);
      intros h d H; discriminate H.
  - cbn [fst snd].
    split; [apply SettlementFacts.skipn_own_length|].
    split; [eexists; split; [reflexivity | cbn; auto]|].
    split; [intros h H; discriminate H|].
    split; [intros H; discriminate H|].
    split; [intros _; eexists; eexists; split; reflexivity|].
    split; [split; [discriminate | intros (h & H & _); discriminate H]|].
    intros h d H; discriminate H.
  - cbn [fst snd].
    split; [apply SettlementFacts.skipn_own_length|].
    split; [eexists; split; [reflexivity | cbn; auto]|].
    split; [intros h H; discriminate H|].
    split; [intros H; discriminate H|].
    split; [intros _; eexists; eexists; split; reflexivity|].
    split; [split; [discriminate | intros (h & H & _); discriminate H]|].
    intros h d H; discriminate H.
  - pose proof (status_read nullmsg health) as Hst.
    assert (Hnull :
              (health = VUndefined \/ health = VNull)
              \/ (health <> VUndefined /\ health <> VNull)).
    { destruct health; auto; right; split; discriminate. }
    destruct Hnull as [Hnull|[Hu Hn]].
    + assert (Hthrow : FacilitatorDiscovery.status_of nullmsg health
                       = Throw (ErrorObject "TypeError" nullmsg))
        by (destruct Hnull as [-> | ->]; exact Hst).
      assert (Hrep : reports_healthy health = false)
        by (destruct Hnull as [-> | ->]; reflexivity).
      assert (Hjson : is_json health = true -> health = VNull)
        by (destruct Hnull as [-> | ->]; [discriminate | reflexivity]).
      rewrite Hthrow. cbn [fst snd].
      split; [apply SettlementFacts.skipn_own_length|].
      split; [eexists; split; [reflexivity | cbn; auto]|].
      split; [intros h H Hj Hne; injection H as <-; now destruct (Hne (Hjson Hj))|].
      split; [intros _; reflexivity|].
      split; [intros H; now destruct (H health)|].
      split; [split; [discriminate|]|].
      { intros (h & H & Hh). injection H as <-. rewrite Hrep in Hh. discriminate Hh. }
      intros h d _ H. discriminate H.
    + assert (Hok : exists status,
                 FacilitatorDiscovery.status_of nullmsg health = Return status
                 /\ is_string status "healthy" = reports_healthy health)
        by (destruct health; try exact Hst; congruence).
      destruct Hok as (status & Hstatus & His). rewrite Hstatus, His.
      cbn [fst snd]. unfold c_json.
      destruct (serializable
                  (VObject (("healthy", VBool (reports_healthy health))
                            :: own_properties health))) eqn:Hs.
      * cbn [fst snd].
        split; [apply SettlementFacts.skipn_own_length|].
        split; [eexists; split; [reflexivity | cbn; auto]|].
        split.
        { intros h H _ _. injection H as <-. eexists. split; [reflexivity|].
          intros k. cbn [get].
          destruct (get k (own_properties health)); [reflexivity|].
          rewrite String.eqb_sym. reflexivity. }
        split; [intros H; injection H as H; now destruct (Hn H)|].
        split; [intros H; now destruct (H health)|].
        split.
        { split; [intros H; now exists health|].
          intros (h & H & Hh). now injection H as <-. }
        intros h d H Hd Hnone. injection H as <-.
        injection Hd as <-. cbn [get]. rewrite Hnone. reflexivity.
      * cbn [fst snd].
        split; [apply SettlementFacts.skipn_own_length|].
        split; [eexists; split; [reflexivity | cbn; auto]|].
        split.
        { intros h H Hj _. injection H as <-. exfalso.
          assert (Ht : serializable
                         (VObject (("healthy", VBool (reports_healthy health))
                                   :: own_properties health)) = true).
          { apply JsValueFacts.serializable_members. intros k x [Heq|Hin].
            - injection Heq as _ <-. reflexivity.
            - apply JsValueFacts.json_is_serializable.
              apply (JsValueFacts.own_properties_json health Hj k x Hin). }
          rewrite Ht in Hs. discriminate Hs. }
        split; [intros H; injection H as H; now destruct (Hn H)|].
        split; [intros H; now destruct (H health)|].
        split.
        { split; [intros H; now exists health|].
          intros (h & H & Hh). now injection H as <-. }
        intros h d _ H. discriminate H.
Qed.

End EndpointFacts.

(** ** Reading a nonce back *)

Module NonceReading.

Import JsString JsBigInt Eip3009Signer StringFacts.

Lemma hex_digit_value (d : N) :
  (d < 16)%N -> digit_of 16 (hex_digit d) = Some (Z.of_N d).
Proof.
  intros H.
  assert (Hc : In d [0;1;2;3;4;5;6;7;8;9;10;11;12;13;14;15]%N).
  { simpl.
    destruct d as [|p]; [auto|].
    do 16 (try (destruct p as [p|p|]; try lia; simpl; auto 20)). }
  simpl in Hc.
  repeat (destruct Hc as [<-|Hc]; [reflexivity|]). contradiction.
Qed.

Lemma digits_value_app (radix : Z) (a b : string) :
  forall acc,
    digits_value radix (a ++ b) acc
    = match digits_value radix a acc with
      | Some x => digits_value radix b x
      | None => None
      end.
Proof.
  induction a as [|c a IH]; intros acc; [reflexivity|].
  cbn [append digits_value]. destruct (digit_of radix c); [apply IH | reflexivity].
Qed.

Lemma hex_digits_value (fuel : nat) :
  forall n acc,
    (n < 16 ^ N.of_nat (S fuel))%N ->
    exists s,
      hex_digits (S fuel) n acc = s ++ acc
      /\ digits_value 16 s 0 = Some (Z.of_N n).
Proof.
  induction fuel as [|f IH]; intros n acc Hn.
  - cbn [hex_digits].
    assert (Hq : (n / 16 = 0)%N) by (apply N.div_small; exact Hn).
    rewrite Hq. cbn [N.eqb].
    exists (String (hex_digit (n mod 16)) EmptyString). split; [reflexivity|].
    cbn [digits_value]. rewrite hex_digit_value by (apply N.mod_lt; discriminate).
    rewrite N.mod_small by exact Hn. reflexivity.
  - change (hex_digits (S (S f)) n acc)
      with (let acc' := String (hex_digit (n mod 16)) acc in
            if (n / 16 =? 0)%N then acc' else hex_digits (S f) (n / 16) acc').
    cbv zeta.
    destruct (N.eqb_spec (n / 16) 0) as [Hq|Hq].
    + exists (String (hex_digit (n mod 16)) EmptyString). split; [reflexivity|].
      cbn [digits_value]. rewrite hex_digit_value by (apply N.mod_lt; discriminate).
      f_equal. pose proof (N.div_mod n 16). lia.
    + destruct (IH (n / 16)%N (String (hex_digit (n mod 16)) acc)) as (s & Hs & Hv).
      { apply N.Div0.div_lt_upper_bound.
        replace (N.of_nat (S (S f))) with (N.succ (N.of_nat (S f))) in Hn by lia.
        rewrite N.pow_succ_r' in Hn. exact Hn. }
      exists (s ++ String (hex_digit (n mod 16)) EmptyString). split.
      * rewrite Hs, append_assoc. reflexivity.
      * rewrite digits_value_app, Hv. cbn [digits_value].
        rewrite hex_digit_value by (apply N.mod_lt; discriminate).
        f_equal. pose proof (N.div_mod n 16). lia.
Qed.

Lemma size_nat_bound (n : N) : (n < 2 ^ N.of_nat (N.size_nat n))%N.
Proof.
  destruct n as [|p]; [reflexivity|]. cbn [N.size_nat].
  induction p as [p IH|p IH|]; cbn [Pos.size_nat].
  - replace (N.of_nat (S (Pos.size_nat p)))
      with (N.succ (N.of_nat (Pos.size_nat p))) by lia.
    rewrite N.pow_succ_r'. lia.
  - replace (N.of_nat (S (Pos.size_nat p)))
      with (N.succ (N.of_nat (Pos.size_nat p))) by lia.
    rewrite N.pow_succ_r'. lia.
  - reflexivity.
Qed.

Lemma fuel_suffices (n : N) : (n < 16 ^ N.of_nat (S (N.size_nat n)))%N.
Proof.
  pose proof (size_nat_bound n) as H.
  replace (N.of_nat (S (N.size_nat n)))
    with (N.succ (N.of_nat (N.size_nat n))) by lia.
  set (k := N.of_nat (N.size_nat n)) in *.
  rewrite N.pow_succ_r'.
  assert (2 ^ k <= 16 ^ k)%N by (apply N.pow_le_mono_l; lia).
  assert (0 < 16 ^ k)%N by (apply N.neq_0_lt_0, N.pow_nonzero; discriminate).
  lia.
Qed.

(** [toString(16)] of a number that is not negative, read in base 16,
    is the number. *)
Lemma toString16_value (z : Z) :
  0 <= z -> digits_value 16 (toString16 z) 0 = Some z.
Proof.
  intros Hz. unfold toString16.
  destruct (Z.ltb_spec z 0); [lia|].
  destruct (hex_digits_value (N.size_nat (Z.to_N (Z.abs z))) (Z.to_N (Z.abs z))
              EmptyString (fuel_suffices _)) as (s & Hs & Hv).
  rewrite Hs.
  replace (s ++ EmptyString) with s
    by (clear; induction s as [|c s IH]; simpl; [reflexivity | now rewrite <- IH]).
  rewrite Hv. f_equal. lia.
Qed.

Lemma leading_zeros_value (n : nat) (s : string) :
  digits_value 16 (repeat_char "0" n ++ s) 0 = digits_value 16 s 0.
Proof. induction n as [|n IH]; [reflexivity | exact IH]. Qed.

Lemma timestamp_value (dateNow : Z) :
  0 <= dateNow ->
  digits_value 16 (padStart (toString16 dateNow) 16 "0") 0 = Some dateNow.
Proof.
  intros H. unfold padStart. rewrite leading_zeros_value.
  now apply toString16_value.
Qed.

Lemma random_hex_cons (b : Byte.byte) (rest : list Byte.byte) :
  String.concat "" (map byte_hex (b :: rest))
  = byte_hex b ++ String.concat "" (map byte_hex rest).
Proof.
  destruct rest as [|b' rest']; cbn [map String.concat].
  - clear. induction (byte_hex b) as [|c s IH]; simpl; [reflexivity | now rewrite <- IH].
  - reflexivity.
Qed.

Lemma append_eq_same_length (a b s t : string) :
  String.length a = String.length b -> a ++ s = b ++ t -> a = b /\ s = t.
Proof.
  revert b. induction a as [|c a IH]; intros [|d b] Hl H; try discriminate Hl.
  - auto.
  - cbn [append] in H. injection H as <- H. cbn [String.length] in Hl.
    injection Hl as Hl. destruct (IH b Hl H) as [-> ->]. auto.
Qed.

Lemma byte_hex_value (b : Byte.byte) :
  digits_value 16 (byte_hex b) 0 = Some (Z.of_N (Byte.to_N b)).
Proof. destruct b; vm_compute; reflexivity. Qed.

Lemma byte_hex_injective (b1 b2 : Byte.byte) :
  byte_hex b1 = byte_hex b2 -> b1 = b2.
Proof.
  intros H. pose proof (byte_hex_value b1) as H1.
  rewrite H, byte_hex_value in H1. injection H1 as H1.
  apply N2Z.inj in H1.
  pose proof (Byte.of_to_N b1) as Hb1. rewrite <- H1, Byte.of_to_N in Hb1.
  now injection Hb1.
Qed.

Lemma random_hex_injective (r1 : list Byte.byte) :
  forall r2,
    String.concat "" (map byte_hex r1) = String.concat "" (map byte_hex r2) ->
    r1 = r2.
Proof.
  induction r1 as [|b1 r1 IH]; intros [|b2 r2] H.
  - reflexivity.
  - rewrite random_hex_cons in H. exfalso.
    apply (f_equal String.length) in H. rewrite length_append in H.
    destruct (NonceFacts.byte_hex_shape b2) as [Hl _]. rewrite Hl in H.
    discriminate H.
  - rewrite random_hex_cons in H. exfalso.
    apply (f_equal String.length) in H. rewrite length_append in H.
    destruct (NonceFacts.byte_hex_shape b1) as [Hl _]. rewrite Hl in H.
    discriminate H.
  - rewrite !random_hex_cons in H.
    apply append_eq_same_length in H as [Hb Hr].
    + apply byte_hex_injective in Hb. apply IH in Hr. now subst.
    + destruct (NonceFacts.byte_hex_shape b1) as [-> _].
      destruct (NonceFacts.byte_hex_shape b2) as [-> _]. reflexivity.
Qed.

(** X12: the first sixteen hexadecimal digits of a generated nonce,
    read in base 16, are the clock reading it was generated at. *)
Theorem nonce_starts_with_its_timestamp :
  forall (dateNow : Z) (randomBytes : list Byte.byte),
    Spec.clock_reading dateNow ->
    digits_value 16 (take 16 (drop 2 (generateNonce dateNow randomBytes))) 0
    = Some dateNow.
Proof.
  intros dateNow rb Hc. unfold generateNonce.
  destruct (NonceFacts.timestamp_hex_shape dateNow Hc) as [Hlen _].
  set (ts := padStart (toString16 dateNow) 16 "0") in *.
  set (rh := String.concat "" (map byte_hex rb)).
  assert (Hd : drop 2 ("0x" ++ ts ++ rh) = ts ++ rh).
  { unfold drop.
    change ("0x" ++ ts ++ rh) with (String "0" (String "x" (ts ++ rh))).
    cbn [String.length Nat.sub substring].
    rewrite Nat.sub_0_r. apply NonceFacts.substring_all. }
  rewrite Hd. unfold take. rewrite <- Hlen.
  rewrite DirectTransferFacts.substring_prefix.
  apply timestamp_value. apply Hc.
Qed.

(** The theorem at the sample clock reading. *)
Lemma nonce_starts_with_its_timestamp_witness :
  digits_value 16
    (take 16 (drop 2 (generateNonce Samples.sample_clock (repeat Byte.xab 24)))) 0
  = Some Samples.sample_clock.
Proof.
  apply (nonce_starts_with_its_timestamp Samples.sample_clock (repeat Byte.xab 24)).
  unfold Spec.clock_reading, Samples.sample_clock. lia.
Defined.

(** X13: different inputs give different nonces: two generated nonces
    are equal only if they were generated at the same clock reading
    from the same random bytes. *)
Theorem equal_nonces_have_equal_origins :
  forall (dateNow1 dateNow2 : Z) (randomBytes1 randomBytes2 : list Byte.byte),
    Spec.clock_reading dateNow1 -> Spec.clock_reading dateNow2 ->
    generateNonce dateNow1 randomBytes1 = generateNonce dateNow2 randomBytes2 ->
    dateNow1 = dateNow2 /\ randomBytes1 = randomBytes2.
Proof.
  intros t1 t2 r1 r2 Hc1 Hc2 H. unfold generateNonce in H.
  destruct (NonceFacts.timestamp_hex_shape t1 Hc1) as [Hl1 _].
  destruct (NonceFacts.timestamp_hex_shape t2 Hc2) as [Hl2 _].
  pose proof (timestamp_value t1 (proj1 Hc1)) as Hv1.
  pose proof (timestamp_value t2 (proj1 Hc2)) as Hv2.
  set (ts1 := padStart (toString16 t1) 16 "0") in *.
  set (ts2 := padStart (toString16 t2) 16 "0") in *.
  change ("0x" ++ ?a ++ ?b) with (String "0" (String "x" (a ++ b))) in H.
  injection H as H.
  apply append_eq_same_length in H as [Hts Hr]; [|congruence].
  split.
  - rewrite Hts, Hv2 in Hv1. now injection Hv1.
  - now apply random_hex_injective.
Qed.

(** The theorem at two equal nonces. *)
Lemma equal_nonces_have_equal_origins_witness :
  Samples.sample_clock = Samples.sample_clock
  /\ repeat Byte.xab 24 = repeat Byte.xab 24.
Proof.
  apply (equal_nonces_have_equal_origins Samples.sample_clock
           Samples.sample_clock (repeat Byte.xab 24) (repeat Byte.xab 24)).
  - unfold Spec.clock_reading, Samples.sample_clock. lia.
  - unfold Spec.clock_reading, Samples.sample_clock. lia.
  - reflexivity.
Defined.

Lemma lower_hex_digit (c : ascii) :
  Spec.is_lower_hex c = true ->
  exists d,
    digit_of 16 c = Some d /\ 0 <= d < 16
    /\ let n := Z.of_N (N_of_ascii c) in
       (48 <= n <= 57 /\ d = n - 48) \/ (97 <= n <= 102 /\ d = n - 87).
Proof.
  unfold Spec.is_lower_hex, digit_of. set (n := N_of_ascii c). intros H.
  apply orb_prop in H as [H|H]; apply andb_prop in H as [H1 H2];
    apply N.leb_le in H1; apply N.leb_le in H2.
  - destruct (Z.leb_spec 48 (Z.of_N n)); [|lia].
    destruct (Z.leb_spec (Z.of_N n) 57); [|lia]. cbn [andb].
    destruct (Z.ltb_spec (Z.of_N n - 48) 16); [|lia].
    eexists. split; [reflexivity|]. cbv zeta. lia.
  - destruct (Z.leb_spec 48 (Z.of_N n)); [|lia].
    destruct (Z.leb_spec (Z.of_N n) 57); [lia|]. cbn [andb].
    destruct (Z.leb_spec 97 (Z.of_N n)); [|lia].
    destruct (Z.leb_spec (Z.of_N n) 102); [|lia]. cbn [andb].
    destruct (Z.ltb_spec (Z.of_N n - 87) 16); [|lia].
    eexists. split; [reflexivity|]. cbv zeta. lia.
Qed.

(** The value of a run of hexadecimal digits, by position. *)
Lemma lower_hex_positional (s : string) :
  Spec.all_lower_hex s = true ->
  exists v,
    0 <= v < 16 ^ Z.of_nat (String.length s)
    /\ forall acc,
         digits_value 16 s acc = Some (acc * 16 ^ Z.of_nat (String.length s) + v).
Proof.
  induction s as [|c s IH]; intros H.
  - exists 0. split; [simpl; lia|]. intros acc. cbn. f_equal. lia.
  - cbn [Spec.all_lower_hex] in H. apply andb_prop in H as [Hc Hs].
    destruct (IH Hs) as (v & Hv & Hacc).
    destruct (lower_hex_digit c Hc) as (d & Hd & Hr & _).
    set (k := Z.of_nat (String.length s)) in *.
    exists (d * 16 ^ k + v). split.
    + cbn [String.length]. rewrite Nat2Z.inj_succ. fold k.
      rewrite Z.pow_succ_r by lia. nia.
    + intros acc. cbn [digits_value String.length]. rewrite Hd, Hacc.
      rewrite Nat2Z.inj_succ. fold k. rewrite Z.pow_succ_r by lia.
      f_equal. ring.
Qed.

(** Among runs of lower-case hexadecimal digits of one length, the
    smaller value comes first in the order of strings, whatever
    follows. *)
Lemma fixed_width_hex_order (a : string) :
  forall b x y s t,
    String.length a = String.length b ->
    Spec.all_lower_hex a = true -> Spec.all_lower_hex b = true ->
    digits_value 16 a 0 = Some x -> digits_value 16 b 0 = Some y ->
    x < y ->
    String.compare (a ++ s) (b ++ t) = Lt.
Proof.
  induction a as [|c1 a IH]; intros [|c2 b] x y s t Hl Ha Hb Hx Hy Hlt;
    try discriminate Hl.
  - cbn in Hx, Hy. injection Hx as <-. injection Hy as <-. lia.
  - cbn [String.length] in Hl. injection Hl as Hl.
    cbn [Spec.all_lower_hex] in Ha, Hb.
    apply andb_prop in Ha as [Hc1 Ha]. apply andb_prop in Hb as [Hc2 Hb].
    destruct (lower_hex_digit c1 Hc1) as (d1 & Hd1 & Hr1 & Hn1).
    destruct (lower_hex_digit c2 Hc2) as (d2 & Hd2 & Hr2 & Hn2).
    destruct (lower_hex_positional a Ha) as (va & Hva & Haa).
    destruct (lower_hex_positional b Hb) as (vb & Hvb & Hbb).
    cbn [digits_value] in Hx, Hy. rewrite Hd1, Haa in Hx. rewrite Hd2, Hbb in Hy.
    injection Hx as <-. injection Hy as <-.
    rewrite <- Hl in Hvb, Hbb, Hlt. set (k := Z.of_nat (String.length a)) in *.
    assert (Hk : 0 < 16 ^ k) by (apply Z.pow_pos_nonneg; lia).
    cbn [append String.compare]. unfold Ascii.compare.
    cbv zeta in Hn1, Hn2.
    destruct (Z.lt_trichotomy d1 d2) as [Hd|[Hd|Hd]].
    + assert (Hn : (N_of_ascii c1 < N_of_ascii c2)%N) by lia.
      apply N.compare_lt_iff in Hn. now rewrite Hn.
    + assert (Hn : N_of_ascii c1 = N_of_ascii c2) by lia.
      rewrite Hn, N.compare_refl.
      apply (IH b va vb s t); auto; try nia.
    + exfalso. nia.
Qed.

(** X14: nonces are ordered by time: of two nonces generated at
    different clock readings, the one generated earlier is the smaller
    string, whatever the random bytes are. *)
Theorem nonces_are_ordered_by_time :
  forall (dateNow1 dateNow2 : Z) (randomBytes1 randomBytes2 : list Byte.byte),
    Spec.clock_reading dateNow1 -> Spec.clock_reading dateNow2 ->
    dateNow1 < dateNow2 ->
    String.ltb (generateNonce dateNow1 randomBytes1)
               (generateNonce dateNow2 randomBytes2) = true.
Proof.
  intros t1 t2 r1 r2 Hc1 Hc2 Hlt. unfold generateNonce, String.ltb.
  destruct (NonceFacts.timestamp_hex_shape t1 Hc1) as [Hl1 Hh1].
  destruct (NonceFacts.timestamp_hex_shape t2 Hc2) as [Hl2 Hh2].
  pose proof (timestamp_value t1 (proj1 Hc1)) as Hv1.
  pose proof (timestamp_value t2 (proj1 Hc2)) as Hv2.
  set (ts1 := padStart (toString16 t1) 16 "0") in *.
  set (ts2 := padStart (toString16 t2) 16 "0") in *.
  change ("0x" ++ ?a ++ ?b) with (String "0" (String "x" (a ++ b))).
  cbn [String.compare].
  change (Ascii.compare "0" "0") with Eq. change (Ascii.compare "x" "x") with Eq.
  cbv iota.
  match goal with
  | |- context [String.compare (ts1 ++ ?s) (ts2 ++ ?t)] =>
      assert (Hcmp : String.compare (ts1 ++ s) (ts2 ++ t) = Lt)
        by (apply (fixed_width_hex_order ts1 ts2 t1 t2); auto; congruence);
      rewrite Hcmp
  end.
  reflexivity.
Qed.

(** The theorem at two nonces generated a millisecond apart, the
    earlier with the larger random bytes. *)
Lemma nonces_are_ordered_by_time_witness :
  String.ltb (generateNonce 1730000000000 (repeat Byte.xff 24))
             (generateNonce 1730000000001 (repeat Byte.x00 24)) = true.
Proof.
  apply (nonces_are_ordered_by_time 1730000000000 1730000000001
           (repeat Byte.xff 24) (repeat Byte.x00 24)).
  - unfold Spec.clock_reading. lia.
  - unfold Spec.clock_reading. lia.
  - lia.
Defined.

End NonceReading.

(** ** Builder and validator together *)

Module RoundTrip.

Import JsString Eip3009Signer.

Lemma drop_append (a s : string) : drop (String.length a) (a ++ s) = s.
Proof.
  unfold drop. rewrite StringFacts.length_append.
  replace (String.length a + String.length s - String.length a)%nat
    with (String.length s) by lia.
  induction a as [|c a IH]; [apply NonceFacts.substring_all | exact IH].
Qed.

(** The digits of one byte are read back as the byte. *)
Lemma hex_bytes_byte (b : Byte.byte) (rest : string) :
  NonceSpec.hex_bytes (byte_hex b ++ rest)
  = option_map (cons (Z.of_N (Byte.to_N b))) (NonceSpec.hex_bytes rest).
Proof. destruct b; reflexivity. Qed.

Lemma hex_bytes_random (randomBytes : list Byte.byte) :
  NonceSpec.hex_bytes (String.concat "" (map byte_hex randomBytes))
  = Some (NonceSpec.byte_values randomBytes).
Proof.
  induction randomBytes as [|b rest IH]; [reflexivity|].
  rewrite NonceReading.random_hex_cons, hex_bytes_byte, IH. reflexivity.
Qed.

(** The two fields of a generated nonce, read back. *)
Lemma generateNonce_fields (dateNow : Z) (randomBytes : list Byte.byte) :
  Spec.clock_reading dateNow ->
  NonceSpec.timestamp_of (generateNonce dateNow randomBytes) = Some dateNow
  /\ NonceSpec.random_bytes_of (generateNonce dateNow randomBytes)
     = Some (NonceSpec.byte_values randomBytes).
Proof.
  intros Hc. unfold NonceSpec.timestamp_of, NonceSpec.random_bytes_of, generateNonce.
  destruct (NonceFacts.timestamp_hex_shape dateNow Hc) as [Hlen _].
  pose proof (NonceReading.timestamp_value dateNow (proj1 Hc)) as Hv.
  set (ts := padStart (toString16 dateNow) 16 "0") in *.
  set (rh := String.concat "" (map byte_hex randomBytes)).
  split.
  - pose proof (drop_append "0x" (ts ++ rh)) as H2.
    change (String.length "0x") with 2%nat in H2. rewrite H2.
    unfold take. rewrite <- Hlen.
    rewrite DirectTransferFacts.substring_prefix. exact Hv.
  - pose proof (drop_append ("0x" ++ ts) rh) as H18.
    rewrite StringFacts.length_append, Hlen in H18.
    change (String.length "0x" + 16)%nat with 18%nat in H18.
    rewrite StringFacts.append_assoc in H18.
    rewrite H18. apply hex_bytes_random.
Qed.

(** C9: what the builder returns passes the validator.  For distinct
    [from] and [to], an amount that converts to a positive value [v], a
    positive validity window and clock readings in the range of [Date],
    [createTransferAuthorization] returns an authorization from [from]
    to [to] of exactly the converted value [v], with
    [validAfter = 0 <= now < validBefore = now + window] and a nonce of
    66 characters: 0x, then sixteen hexadecimal digits (eight bytes)
    that write the clock reading of [generateNonce], then two digits
    for each of the 24 random bytes, in their order.
    [validateTransferAuthorization], run at the time of building or at
    any later time before the window ends, accepts it. *)
Theorem built_authorization_passes_validation :
  forall (round_Number : string -> Z) (dateNow nonceDateNow : Z)
         (randomBytes : list Byte.byte) (from to amount : string)
         (validityWindow v : Z),
    from <> to ->
    Viem.parseUnits round_Number amount 6 = Some v -> 0 < v ->
    0 < validityWindow ->
    Spec.clock_reading dateNow -> Spec.clock_reading nonceDateNow ->
    List.length randomBytes = 24%nat ->
    exists a,
      createTransferAuthorization round_Number dateNow nonceDateNow randomBytes
                                  from to amount validityWindow = Some a
      /\ a.(Eip3009Signer.from) = from
      /\ a.(Eip3009Signer.to) = to
      /\ a.(value) = v
      /\ 0 < a.(value)
      /\ a.(validAfter) = 0
      /\ a.(validBefore) = unix_seconds dateNow + validityWindow
      /\ a.(validAfter) <= unix_seconds dateNow < a.(validBefore)
      /\ String.length a.(nonce) = 66%nat
      /\ Spec.is_bytes32_hex a.(nonce) = true
      /\ NonceSpec.timestamp_of a.(nonce) = Some nonceDateNow
      /\ NonceSpec.random_bytes_of a.(nonce)
         = Some (NonceSpec.byte_values randomBytes)
      /\ validateTransferAuthorization dateNow a
         = {| valid := true; error := None |}
      /\ (forall validateNow,
            Spec.clock_reading validateNow ->
            unix_seconds validateNow < unix_seconds dateNow + validityWindow ->
            validateTransferAuthorization validateNow a
            = {| valid := true; error := None |}).
Proof.
  intros rn dateNow nonceDateNow rb from to amount w v
         Hne Hv Hpos Hw Hd Hnd Hrb.
  rewrite BuilderFacts.builder_copies_converted_value, Hv.
  destruct (NonceFacts.generateNonce_shape nonceDateNow rb Hnd Hrb) as [Hlen Hhex].
  destruct (generateNonce_fields nonceDateNow rb Hnd) as [Hts Hrnd].
  assert (Hnow : 0 <= dateNow / 1000).
  { apply Z.div_pos; [apply Hd | lia]. }
  eexists. split; [reflexivity|].
  cbn [Eip3009Signer.from Eip3009Signer.to value validAfter validBefore nonce].
  unfold unix_seconds.
  repeat (split; [first [assumption | reflexivity | lia]|]).
  split.
  - apply ValidatorFacts.accepts_well_formed; cbn; auto; lia.
  - intros validateNow Hc Hlt.
    assert (0 <= validateNow / 1000) by (apply Z.div_pos; [apply Hc | lia]).
    apply ValidatorFacts.accepts_well_formed; cbn; auto; lia.
Qed.

(** The theorem at the authorization of the tests: one unit of the stable
    asset from [Samples.payer] to [Samples.payee] for an hour. *)
Lemma built_authorization_passes_validation_witness :
  exists a,
    createTransferAuthorization (fun _ => 0) Samples.sample_clock
      Samples.sample_clock (repeat Byte.xab 24) Samples.payer Samples.payee
      "1" 3600 = Some a
    /\ a.(Eip3009Signer.from) = Samples.payer
    /\ a.(Eip3009Signer.to) = Samples.payee
    /\ a.(value) = 1000000
    /\ 0 < a.(value)
    /\ a.(validAfter) = 0
    /\ a.(validBefore) = unix_seconds Samples.sample_clock + 3600
    /\ a.(validAfter) <= unix_seconds Samples.sample_clock < a.(validBefore)
    /\ String.length a.(nonce) = 66%nat
    /\ Spec.is_bytes32_hex a.(nonce) = true
    /\ NonceSpec.timestamp_of a.(nonce) = Some Samples.sample_clock
    /\ NonceSpec.random_bytes_of a.(nonce)
       = Some (NonceSpec.byte_values (repeat Byte.xab 24))
    /\ validateTransferAuthorization Samples.sample_clock a
       = {| valid := true; error := None |}
    /\ (forall validateNow,
          Spec.clock_reading validateNow ->
          unix_seconds validateNow < unix_seconds Samples.sample_clock + 3600 ->
          validateTransferAuthorization validateNow a
          = {| valid := true; error := None |}).
Proof.
  apply (built_authorization_passes_validation (fun _ => 0) Samples.sample_clock
           Samples.sample_clock (repeat Byte.xab 24) Samples.payer Samples.payee
           "1" 3600 1000000).
  - vm_compute. discriminate.
  - reflexivity.
  - reflexivity.
  - reflexivity.
  - unfold Spec.clock_reading, Samples.sample_clock. lia.
  - unfold Spec.clock_reading, Samples.sample_clock. lia.
  - reflexivity.
Defined.

End RoundTrip.

(** ** The signing strategy *)

Module StrategyPaymentFacts.

Import JsString Js CronosConstants FacilitatorClient CronosStrategy
       StrategyPayments.

(** X15: [settleUsdcPayment] returns only after a verification that
    answered [valid = true] and a settlement that answered
    [success = true] with a transaction hash that is not empty, and it
    returns that hash.  After a verification that answers
    [valid = false] it throws "Payment settlement failed: " followed by
    the reason of the verification, or by "Verification failed" when
    there is none, having sent the verification request only; after a
    settlement that answers [success = false] it throws the same text
    followed by the reason, else the error, else "undefined". *)
Theorem settlement_returns_a_hash_or_throws :
  forall (service : Facilitator) (this : CronosFacilitatorClient)
         (authorization : Eip3009Signer.SignedTransferAuthorization)
         (network : string) (log : list Call),
    let exchange := settleUsdcPayment service this authorization network in
    let token := getUsdcAddress network in
    let answer := answer_verify service log
                    (request_body network token authorization None) in
    let log1 := (log ++ [verify_call this network token authorization])%list in
    (forall s,
       result_of exchange log = Return s ->
       s.(Settlement.success) = true
       /\ s.(Settlement.txHash) <> EmptyString
       /\ exists vr sr,
            answer = Json vr /\ vr.(VerifyPaymentResponse.valid) = true
            /\ answer_settle service log1
                 (request_body network token authorization
                    vr.(VerifyPaymentResponse.verificationId)) = Json sr
            /\ sr.(SettlePaymentResponse.success) = true
            /\ sr.(SettlePaymentResponse.txHash) = Some s.(Settlement.txHash))
    /\ (forall vr,
          answer = Json vr -> vr.(VerifyPaymentResponse.valid) = false ->
          result_of exchange log
          = Throw (ErrorObject "Error"
                     ("Payment settlement failed: "
                      ++ show (PaymentRoutes.or_else
                                 vr.(VerifyPaymentResponse.reason)
                                 (Some "Verification failed"))))
          /\ calls_made exchange log
             = [verify_call this network token authorization])
    /\ (forall vr sr,
          answer = Json vr -> vr.(VerifyPaymentResponse.valid) = true ->
          answer_settle service log1
            (request_body network token authorization
               vr.(VerifyPaymentResponse.verificationId)) = Json sr ->
          sr.(SettlePaymentResponse.success) = false ->
          result_of exchange log
          = Throw (ErrorObject "Error"
                     ("Payment settlement failed: "
                      ++ show (PaymentRoutes.or_else
                                 sr.(SettlePaymentResponse.reason)
                                 sr.(SettlePaymentResponse.error))))).
Proof.
  intros service this auth network log exchange token answer log1.
  subst exchange. unfold result_of, calls_made, settleUsdcPayment.
  fold token. unfold bind at 1 2 3 4.
  split; [|split].
  - intros s.
    destruct answer as [e|st text|vr] eqn:Ha; unfold answer in Ha.
    + destruct (SettlementFacts.verifyAndSettle_verify_throws service this
                  network token auth log) as [e' ->];
        [intros vr Hvr; rewrite Ha in Hvr; discriminate Hvr|].
      discriminate.
    + destruct (SettlementFacts.verifyAndSettle_verify_throws service this
                  network token auth log) as [e' ->];
        [intros vr Hvr; rewrite Ha in Hvr; discriminate Hvr|].
      discriminate.
    + destruct (VerifyPaymentResponse.valid vr) eqn:Hv.
      * rewrite (TransportFacts.verifyAndSettle_continues_with_settle service
                   this network token auth log vr Ha Hv).
        fold log1. unfold settlePayment, fetch.
        destruct (answer_settle service log1 _) as [[name message|]|st text|sr]
          eqn:Hs; try (try destruct (name =? "AbortError")%string; discriminate).
        destruct (SettlePaymentResponse.success sr) eqn:Hsuc; cbn [negb orb];
          [|discriminate].
        destruct (SettlePaymentResponse.txHash sr) as [h|] eqn:Hh;
          cbn [PaymentRoutes.falsy]; [|discriminate].
        destruct (String.eqb_spec h EmptyString) as [->|Hne]; [discriminate|].
        unfold ret. cbn [fst]. intros H. injection H as <-.
        cbn. split; [reflexivity|]. split; [exact Hne|].
        exists vr, sr. rewrite Hsuc, Hh. auto.
      * rewrite (SettlementFacts.verifyAndSettle_rejected service this network
                   token auth log vr Ha Hv).
        cbn. discriminate.
  - intros vr Ha Hv. unfold answer in Ha.
    rewrite (SettlementFacts.verifyAndSettle_rejected service this network
               token auth log vr Ha Hv).
    cbn [SettlePaymentResponse.success SettlePaymentResponse.txHash
         SettlePaymentResponse.reason SettlePaymentResponse.error negb orb
         throw fst snd].
    split; [reflexivity | apply SettlementFacts.skipn_own_length].
  - intros vr sr Ha Hv Hs Hsuc. unfold answer in Ha.
    rewrite (TransportFacts.verifyAndSettle_continues_with_settle service
               this network token auth log vr Ha Hv).
    fold log1. unfold settlePayment, fetch. rewrite Hs, Hsuc. reflexivity.
Qed.

(** X16: [signPayment] never signs.  Whatever the wallets and the
    requirement, its result has [success = false], no payment header
    and an error text; with a wallet, the result carries the address of
    the first wallet, and the text tells that the stable asset needs
    the wallet integration when the asset is the stable asset of the
    network up to letter case, and that native payments need a wallet
    client for every other asset; without a wallet, the text asks to
    connect one. *)
Theorem signPayment_never_signs :
  forall (wallets : Outcome (list Db.UserWallet)) (context : PaymentSigningContext),
    let result := signPayment wallets context in
    let requirement := context.(paymentRequirement) in
    result.(success) = false
    /\ result.(signedPaymentHeader) = None
    /\ (exists text, result.(error) = Some text)
    /\ (wallets = Return [] ->
        result.(error)
        = Some "No wallet connected. Please connect a Cronos wallet."
        /\ result.(walletAddress) = None)
    /\ (forall wallet rest,
          wallets = Return (wallet :: rest) ->
          result.(walletAddress) = Some wallet.(Db.walletAddress)
          /\ (Spec.is_stable_asset requirement.(network) requirement.(asset) ->
              result.(error)
              = Some "USDC.e payment signing requires wallet integration (coming soon). Please use the web interface with MetaMask or Crypto.com Wallet.")
          /\ (~ Spec.is_stable_asset requirement.(network) requirement.(asset) ->
              result.(error)
              = Some "Native CRO payments require wallet client (MetaMask, etc.). Please use the web interface to complete this payment.")).
Proof.
  intros wallets context result requirement. subst result requirement.
  unfold signPayment, Spec.is_stable_asset.
  destruct wallets as [[|wallet rest]|e].
  - cbn. split; [reflexivity|]. split; [reflexivity|].
    split; [eauto|]. split; [auto|].
    intros w r Hw. discriminate Hw.
  - destruct (String.eqb_spec
                (toLowerCase (asset (paymentRequirement context)))
                (toLowerCase (getUsdcAddress (network (paymentRequirement context)))))
      as [He|Hne]; cbn.
    + split; [reflexivity|]. split; [reflexivity|].
      split; [eauto|]. split; [intros Hw; discriminate Hw|].
      intros w r Hw. injection Hw as <- <-.
      split; [reflexivity|]. split; [reflexivity|].
      intros Hn. now destruct Hn.
    + split; [reflexivity|]. split; [reflexivity|].
      split; [eauto|]. split; [intros Hw; discriminate Hw|].
      intros w r Hw. injection Hw as <- <-.
      split; [reflexivity|]. split; [|reflexivity].
      intros Hn. now destruct Hne.
  - cbn. split; [reflexivity|]. split; [reflexivity|].
    split; [eauto|]. split; [intros Hw; discriminate Hw|].
    intros w r Hw. discriminate Hw.
Qed.

End StrategyPaymentFacts.

(** ** Direct transfers: validation and requirements *)

Module CroTransactionFacts.

Import JsString Js CronosConstants CroTransactions.

Lemma validate_cases (t : CroTransaction) :
  (t.(value) <= 0 ->
   validateCroTransaction t
   = Eip3009Signer.invalid "Transfer amount must be positive")
  /\ (0 < t.(value) -> Spec.same_account t.(from) t.(to) ->
      validateCroTransaction t = Eip3009Signer.invalid "Cannot transfer to self")
  /\ (0 < t.(value) -> ~ Spec.same_account t.(from) t.(to) ->
      t.(to) = CRO_ADDRESS ->
      validateCroTransaction t
      = Eip3009Signer.invalid "Cannot transfer to zero address")
  /\ (0 < t.(value) -> ~ Spec.same_account t.(from) t.(to) ->
      t.(to) <> CRO_ADDRESS ->
      validateCroTransaction t = Eip3009Signer.ok).
Proof.
  unfold validateCroTransaction, Spec.same_account.
  destruct (Z.leb_spec t.(value) 0);
    destruct (String.eqb_spec (toLowerCase t.(from)) (toLowerCase t.(to)));
    destruct (String.eqb_spec t.(to) CRO_ADDRESS);
    repeat split; intros; try reflexivity; try lia; try contradiction.
Qed.

(** X17: [validateCroTransaction] accepts a transaction exactly when its
    value is positive, its sender and recipient are different accounts
    (letter case aside) and its recipient is not the zero address; it
    reports the first of these that fails, in this order; and a
    transaction built by [buildCroTransaction] is accepted exactly when
    the converted amount and the two addresses meet these conditions. *)
Theorem cro_validator_accepts_exactly_the_sound_transfers :
  forall (t : CroTransaction),
    ((validateCroTransaction t).(Eip3009Signer.valid) = true
     <-> 0 < t.(value) /\ ~ Spec.same_account t.(from) t.(to)
         /\ t.(to) <> CRO_ADDRESS)
    /\ (t.(value) <= 0 ->
        (validateCroTransaction t).(Eip3009Signer.error)
        = Some "Transfer amount must be positive")
    /\ (0 < t.(value) -> Spec.same_account t.(from) t.(to) ->
        (validateCroTransaction t).(Eip3009Signer.error)
        = Some "Cannot transfer to self")
    /\ (0 < t.(value) -> ~ Spec.same_account t.(from) t.(to) ->
        t.(to) = CRO_ADDRESS ->
        (validateCroTransaction t).(Eip3009Signer.error)
        = Some "Cannot transfer to zero address")
    /\ (forall (round_Number : string -> Z) (sender recipient amountCro network : string)
               (v : Z),
          Viem.parseUnits round_Number amountCro CRO_METADATA.DECIMALS = Some v ->
          option_map (fun b => (validateCroTransaction b).(Eip3009Signer.valid))
            (buildCroTransaction round_Number sender recipient amountCro network)
          = Some true
          <-> 0 < v /\ ~ Spec.same_account sender recipient
              /\ recipient <> CRO_ADDRESS).
Proof.
  intros t.
  assert (Hiff : forall u : CroTransaction,
            (validateCroTransaction u).(Eip3009Signer.valid) = true
            <-> 0 < u.(value) /\ ~ Spec.same_account u.(from) u.(to)
                /\ u.(to) <> CRO_ADDRESS).
  { intros u. destruct (validate_cases u) as (H1 & H2 & H3 & H4).
    destruct (Z.le_gt_cases u.(value) 0) as [Hle|Hgt].
    - rewrite (H1 Hle). cbn. split; [discriminate | lia].
    - unfold Spec.same_account in *.
      destruct (String.string_dec (toLowerCase u.(from)) (toLowerCase u.(to)))
        as [Hs|Hs].
      + rewrite (H2 ltac:(lia) Hs). cbn. split; [discriminate | tauto].
      + destruct (String.string_dec u.(to) CRO_ADDRESS) as [Hz|Hz].
        * rewrite (H3 ltac:(lia) Hs Hz). cbn. split; [discriminate | tauto].
        * rewrite (H4 ltac:(lia) Hs Hz). cbn. split; [intros _; repeat split; auto; lia | reflexivity]. }
  destruct (validate_cases t) as (H1 & H2 & H3 & _).
  split; [apply Hiff|].
  split; [intros H; now rewrite (H1 H)|].
  split; [intros Ha Hb; now rewrite (H2 Ha Hb)|].
  split; [intros Ha Hb Hc; now rewrite (H3 Ha Hb Hc)|].
  intros rn sender recipient amountCro network v Hv.
  unfold buildCroTransaction. rewrite Hv. cbn [option_map].
  split.
  - intros H. injection H as H. apply Hiff in H. exact H.
  - intros H. f_equal. apply Hiff. exact H.
Qed.

Section Requirements.

Variable round_Number : string -> Z.

(** X18: a payment requirement and a transaction built from the same
    amount agree.  [createCroPaymentRequirement] fails exactly when
    [buildCroTransaction] does; otherwise the amount of the requirement,
    read back with [BigInt], is the value of the transaction, their
    chain ids are equal, the token is the zero address with eighteen
    decimals, the payment is marked as not gasless, and the description
    is the one given or, when none or an empty one is given, "Pay",
    the amount as written and the symbol of the network. *)
Theorem requirement_agrees_with_transaction :
  forall (sender recipient amountCro network : string)
         (description : option string),
    let requirement :=
      CroRequirements.createCroPaymentRequirement round_Number recipient
        amountCro network description in
    let transaction :=
      buildCroTransaction round_Number sender recipient amountCro network in
    (requirement = None <-> transaction = None)
    /\ forall r t,
         requirement = Some r -> transaction = Some t ->
         JsBigInt.BigInt r.(CroRequirements.amount) = Some t.(value)
         /\ r.(CroRequirements.chainId) = t.(chainId)
         /\ r.(CroRequirements.recipient) = t.(to)
         /\ r.(CroRequirements.network) = network
         /\ r.(CroRequirements.token) = CRO_ADDRESS
         /\ r.(CroRequirements.decimals) = 18%nat
         /\ r.(CroRequirements.gasless) = false
         /\ r.(CroRequirements.requiresSignature) = true
         /\ r.(CroRequirements.symbol)
            = (if (network =? "cronos-mainnet")%string then "CRO" else "TCRO")
         /\ r.(CroRequirements.description)
            = match description with
              | Some d =>
                  if (d =? EmptyString)%string
                  then "Pay " ++ amountCro ++ " " ++ r.(CroRequirements.symbol)
                  else d
              | None => "Pay " ++ amountCro ++ " " ++ r.(CroRequirements.symbol)
              end.
Proof.
  intros sender recipient amountCro network description requirement transaction.
  subst requirement transaction.
  unfold CroRequirements.createCroPaymentRequirement, buildCroTransaction.
  destruct (Viem.parseUnits round_Number amountCro CRO_METADATA.DECIMALS) as [v|].
  - split; [split; discriminate|].
    intros r t Hr Ht. injection Hr as <-. injection Ht as <-. cbn.
    rewrite BigIntFacts.BigInt_of_Z.
    repeat split.
    destruct description as [d|]; cbn; [|reflexivity].
    destruct (d =? EmptyString)%string; reflexivity.
  - split; [tauto|]. intros r t H. discriminate H.
Qed.

End Requirements.

End CroTransactionFacts.

(** ** The helpers of the network constants *)

Module NetworkHelperFacts.

Import CronosConstants CronosNetworkHelpers.

(** X19: the helpers know one network by name.  Every network
    identifier other than "cronos-mainnet", known or not, gets the chain
    id, the stable asset, the RPC and explorer addresses and the signing
    domain of the test network; the signing domains of the two known
    networks differ in chain id and in verifying contract, so that among
    known networks equal domains mean equal networks; and the explorer
    link the payment handlers build is the explorer address of the
    network followed by /tx/ and the hash. *)
Theorem helpers_treat_every_other_network_as_testnet :
  (forall network : string,
     network <> CRONOS_NETWORK.MAINNET ->
     getChainId network = 338
     /\ getUsdcAddress network = USDC_ADDRESS.TESTNET
     /\ getRpcUrl network = getRpcUrl CRONOS_NETWORK.TESTNET
     /\ getExplorerUrl network = getExplorerUrl CRONOS_NETWORK.TESTNET
     /\ getUsdcEip712Domain network = getUsdcEip712Domain CRONOS_NETWORK.TESTNET)
  /\ (forall n1 n2 : string,
        isCronosNetwork n1 = true -> isCronosNetwork n2 = true ->
        (getUsdcEip712Domain n1 = getUsdcEip712Domain n2 <-> n1 = n2)
        /\ (n1 <> n2 ->
            (getUsdcEip712Domain n1).(chainId) <> (getUsdcEip712Domain n2).(chainId)
            /\ JsString.toLowerCase (getUsdcEip712Domain n1).(verifyingContract)
               <> JsString.toLowerCase (getUsdcEip712Domain n2).(verifyingContract)))
  /\ (forall network txHash : string,
        PaymentRoutes.getExplorerUrl network txHash
        = getExplorerUrl network ++ "/tx/" ++ txHash).
Proof.
  split; [|split].
  - intros network Hn. apply String.eqb_neq in Hn.
    unfold getChainId, getUsdcAddress, getRpcUrl, getExplorerUrl,
      getUsdcEip712Domain, getChainId, getUsdcAddress.
    rewrite Hn. repeat split.
  - intros n1 n2 H1 H2.
    unfold isCronosNetwork in H1, H2.
    apply orb_prop in H1 as [H1|H1]; apply orb_prop in H2 as [H2|H2];
      apply String.eqb_eq in H1; apply String.eqb_eq in H2; subst n1 n2.
    + split; [tauto|]. intros H. now destruct H.
    + split; [split; intros H; discriminate H|].
      intros _. split; vm_compute; discriminate.
    + split; [split; intros H; discriminate H|].
      intros _. split; vm_compute; discriminate.
    + split; [tauto|]. intros H. now destruct H.
  - intros network txHash.
    unfold PaymentRoutes.getExplorerUrl, getExplorerUrl, CRONOS_NETWORK.MAINNET.
    destruct (network =? "cronos-mainnet")%string; reflexivity.
Qed.

End NetworkHelperFacts.

(** ** The tests of the payment handlers, replayed on the model *)

Module RouteTests.

Import FacilitatorClient PaymentRoutes RouteSpec.

(** payment-routes.test.ts, "should accept valid USDC.e payment
    submission". *)
Example valid_submission_is_settled :
  response_of
    (submitUsdcPayment RouteSamples.syntax_error RouteSamples.accepting_service
       Samples.sample_clock RouteSamples.sample_submission) []
  = respond {| SubmitJson.success := true;
               SubmitJson.error := None;
               SubmitJson.details := None;
               SubmitJson.reason := None;
               SubmitJson.txHash := Some "0x1234";
               SubmitJson.message := Some "Payment settled successfully";
               SubmitJson.network := Some "cronos-testnet";
               SubmitJson.explorerUrl :=
                 Some "https://testnet.cronoscan.com/tx/0x1234" |} 200.
Proof. vm_compute. reflexivity. Qed.

(** "should reject invalid network" and "should reject expired
    authorization": the sample submission on an unknown network, and an
    hour and a second after it was signed. *)
Example invalid_submissions_are_rejected :
  response_of
    (submitUsdcPayment RouteSamples.syntax_error RouteSamples.accepting_service
       Samples.sample_clock
       (Parsed {| SubmitUsdcPaymentData.network := "ethereum";
                  SubmitUsdcPaymentData.authorization :=
                    encode Samples.signed_authorization |})) []
  = respond (SubmitJson.failure
               "Unsupported network: ethereum. Must be cronos-mainnet or cronos-testnet"
               None None None) 400
  /\ response_of
       (submitUsdcPayment RouteSamples.syntax_error RouteSamples.accepting_service
          (Samples.sample_clock + 3601000) RouteSamples.sample_submission) []
     = respond (SubmitJson.failure "Invalid authorization" None
                  (Some "Authorization has expired") None) 400.
Proof. split; vm_compute; reflexivity. Qed.

(** An amount written in hexadecimal is read as the integer it
    denotes. *)
Example hexadecimal_amount_is_read :
  JsBigInt.BigInt "0xf4240" = Some 1000000.
Proof. reflexivity. Qed.

(** "should verify valid CRO payment", with a receipt as the chain
    client returns it: the transfer of [UnitTests.direct_transfer_accepted]
    is valid, and the handler answers with status 500. *)
Example verified_transfer_is_answered_with_500 :
  verifyCroPaymentEndpoint Z Samples.no_rounding Samples.invalid_decimal
    Samples.Number_of_safe_integer "Do not know how to serialize a BigInt"
    (fun _ => Samples.sample_chain (2 * 10 ^ 17) 102)
    (Parsed {| VerifyCroPaymentData.network := "cronos-testnet";
               VerifyCroPaymentData.txHash := Samples.sample_hash;
               VerifyCroPaymentData.expectedRecipient := Samples.payee;
               VerifyCroPaymentData.expectedAmount := "0.1";
               VerifyCroPaymentData.minConfirmations := None |})
  = Js.Return
      (respond
         (JsValue.VObject
            [ ("valid", JsValue.VBool false);
              ("error", JsValue.VString "Internal server error");
              ("message",
               JsValue.VString "Do not know how to serialize a BigInt") ])
         500).
Proof. vm_compute. reflexivity. Qed.

(** A service whose document says [status: "healthy"] and
    [healthy: false]: the handler passes the [healthy] of the document
    on, while the strategy reads the status. *)
Example healthy_of_the_service_stands :
  let service : FacilitatorDiscovery.Discovery Z :=
    {| FacilitatorDiscovery.answer_health := fun _ =>
         Json (JsValue.VObject [ ("status", JsValue.VString "healthy");
                                 ("healthy", JsValue.VBool false) ]);
       FacilitatorDiscovery.answer_supported := fun _ => Json JsValue.VNull |} in
  exists document,
    response_of (checkFacilitatorHealth "null" "bigint" service) []
    = Js.Return (respond (JsValue.VObject document) 200)
    /\ JsValue.get "healthy" document = Some (JsValue.VBool false)
    /\ JsValue.get "status" document = Some (JsValue.VString "healthy")
    /\ fst (StrategyPayments.checkHealth "null" service
              FacilitatorDiscovery.defaultClient []) = true.
Proof. eexists. repeat split; vm_compute; reflexivity. Qed.

End RouteTests.

(** ** Validity of an authorization over time *)

Module ValidityWindow.

Import Eip3009Signer.

Lemma valid_iff (dateNow : Z) (a : TransferAuthorization) :
  (validateTransferAuthorization dateNow a).(valid) = true
  <-> 0 < a.(value) /\ a.(from) <> a.(to)
      /\ a.(validAfter) <= dateNow / 1000 < a.(validBefore)
      /\ String.length a.(nonce) = 66%nat.
Proof.
  rewrite ValidatorFacts.follows_ordered_checks.
  unfold Spec.ordered_checks, Spec.first_violated, unix_seconds.
  destruct (Z.leb_spec a.(value) 0); [cbn; split; [discriminate | lia]|].
  destruct (String.eqb_spec a.(from) a.(to));
    [cbn; split; [discriminate | tauto]|].
  destruct (Z.leb_spec a.(validBefore) (dateNow / 1000));
    [cbn; split; [discriminate | lia]|].
  destruct (Z.ltb_spec (dateNow / 1000) a.(validAfter));
    [cbn; split; [discriminate | lia]|].
  destruct (Nat.eqb_spec (String.length a.(nonce)) 66);
    cbn; split; try discriminate; tauto.
Qed.

(** X21: the times at which [validateTransferAuthorization] accepts an
    authorization form one interval: it is accepted exactly when the
    checks that do not depend on time pass and the clock is in a second
    from [validAfter] up to, not including, [validBefore]; accepted at
    two times, it is accepted at every time between them; and once it
    is reported expired, it is reported expired at every later time
    (its value being positive and its addresses distinct). *)
Theorem validity_is_an_interval_of_time :
  forall (a : TransferAuthorization),
    (forall dateNow,
       (validateTransferAuthorization dateNow a).(valid) = true
       <-> 0 < a.(value) /\ a.(from) <> a.(to)
           /\ String.length a.(nonce) = 66%nat
           /\ a.(validAfter) * 1000 <= dateNow < a.(validBefore) * 1000)
    /\ (forall t1 t2 t,
          t1 <= t <= t2 ->
          (validateTransferAuthorization t1 a).(valid) = true ->
          (validateTransferAuthorization t2 a).(valid) = true ->
          (validateTransferAuthorization t a).(valid) = true)
    /\ (forall t1 t2,
          t1 <= t2 ->
          validateTransferAuthorization t1 a = invalid "Authorization has expired" ->
          validateTransferAuthorization t2 a = invalid "Authorization has expired").
Proof.
  intros a.
  assert (Hsec : forall t s, s <= t / 1000 <-> s * 1000 <= t).
  { intros t s. split; intros H.
    - pose proof (Z.mul_div_le t 1000). lia.
    - apply Z.div_le_lower_bound; lia. }
  assert (Hsec' : forall t s, t / 1000 < s <-> t < s * 1000).
  { intros t s. split; intros H.
    - destruct (Z.lt_ge_cases t (s * 1000)) as [|Hge]; [assumption|].
      apply Hsec in Hge. lia.
    - apply Z.div_lt_upper_bound; lia. }
  split; [|split].
  - intros t. rewrite valid_iff, Hsec, Hsec'. tauto.
  - intros t1 t2 t Ht H1 H2.
    apply valid_iff in H1. apply valid_iff in H2. apply valid_iff.
    rewrite Hsec, Hsec' in *. repeat split; try tauto; lia.
  - intros t1 t2 Ht H1.
    rewrite ValidatorFacts.follows_ordered_checks in H1.
    unfold Spec.ordered_checks, Spec.first_violated, unix_seconds in H1.
    destruct (Z.leb_spec a.(value) 0); [discriminate H1|].
    destruct (String.eqb_spec a.(from) a.(to)); [discriminate H1|].
    destruct (Z.leb_spec a.(validBefore) (t1 / 1000)) as [Hb|Hb].
    + apply ValidatorFacts.rejects_expired; auto.
      assert (t1 / 1000 <= t2 / 1000) by (apply Z.div_le_mono; lia). lia.
    + destruct (t1 / 1000 <? a.(validAfter)); [discriminate H1|].
      destruct (negb _); discriminate H1.
Qed.

End ValidityWindow.
